(** * data-preproc: the two exemplar processors

    A shallow embedding of
      - [src/data_preproc/processors/qa_longest_mapping.py]
        ([LongestExplanationMappingProcessor]) and
      - [src/data_preproc/processors/image_format_converter.py]
        ([ImageFormatConverterProcessor]),
    followed by the properties of both that the specification states.

    Python values are an inductive type, dictionaries are insertion-ordered
    association lists with string keys, and the two effects the processors
    have (writing log records, raising exceptions) live in one small monad. *)

From Stdlib Require Import List String Ascii ZArith Bool Lia DecimalString.
Import ListNotations.
Local Open Scope string_scope.
Local Open Scope Z_scope.

(** ** Python values, dictionaries, exceptions and logging *)

Module Py.

(** Instances of [Exception].  [ImportError], [NameError] and [IndexError]
    are the classes the interpreter itself raises in the two modules;
    [UserError cls msg] is an exception of class [cls] raised by code
    outside them (an object's [__str__], [base64], [PIL]).  Signals that
    derive from [BaseException] only ([KeyboardInterrupt], [SystemExit])
    are asynchronous and not part of the model. *)
Inductive exn : Type :=
| ImportError (msg : string)
| NameError (msg : string)
| IndexError (msg : string)
| UserError (cls msg : string).

Inductive outcome (A : Type) : Type :=
| Return (a : A)
| Raise (e : exn).
Arguments Return {A} a.
Arguments Raise {A} e.

Definition bytes := list Byte.byte.

(** A decoded [PIL.Image.Image]. *)
Record image : Type := mkImage {
  im_mode : string;
  im_width : Z;
  im_height : Z;
  im_pixels : bytes
}.

(** Any other Python object, known by its class and by what [str()] does
    on it. *)
Record object : Type := mkObject {
  obj_class : string;
  obj_str : outcome string
}.

(** A Python [str] is a [string]: one [ascii] per character (code points
    below 256), so that [String.length] is [len]. *)
#[warnings="-register-all"]
Inductive value : Type :=
| VNone
| VBool (b : bool)
| VInt (n : Z)
| VStr (s : string)
| VBytes (b : bytes)
| VImage (im : image)
| VObject (o : object)
| VList (l : list value)
| VDict (d : list (string * value)).

(** [Dict[str, Any]], in insertion order. *)
Definition dict := list (string * value).

Definition is_none (v : value) : bool :=
  match v with VNone => true | _ => false end.

(** Truth value of an object ([bool(x)], [if x], [not x]). *)
Definition truthy (v : value) : bool :=
  match v with
  | VNone => false
  | VBool b => b
  | VInt n => negb (n =? 0)
  | VStr s => negb (String.eqb s "")
  | VBytes b => match b with [] => false | _ => true end
  | VImage _ => true
  | VObject _ => true
  | VList l => match l with [] => false | _ => true end
  | VDict d => match d with [] => false | _ => true end
  end.

Definition len {A} (l : list A) : Z := Z.of_nat (List.length l).
Definition str_len (s : string) : Z := Z.of_nat (String.length s).

(** *** Dictionaries *)

Fixpoint dict_find (d : dict) (k : string) : option value :=
  match d with
  | [] => None
  | (k', v) :: d' => if String.eqb k' k then Some v else dict_find d' k
  end.

(** [k in d] *)
Definition dict_contains (d : dict) (k : string) : bool :=
  match dict_find d k with Some _ => true | None => false end.

(** [d.get(k)] *)
Definition dict_get (d : dict) (k : string) : value :=
  match dict_find d k with Some v => v | None => VNone end.

(** [d[k] = v]: an existing key keeps its position, a new one goes last. *)
Fixpoint dict_setitem (d : dict) (k : string) (v : value) : dict :=
  match d with
  | [] => [(k, v)]
  | (k', v') :: d' =>
      if String.eqb k' k then (k, v) :: d' else (k', v') :: dict_setitem d' k v
  end.

(** [d.pop(k, None)], the result being discarded. *)
Fixpoint dict_pop (d : dict) (k : string) : dict :=
  match d with
  | [] => []
  | (k', v') :: d' =>
      if String.eqb k' k then dict_pop d' k else (k', v') :: dict_pop d' k
  end.

(** [d.copy()]: a shallow copy; values are immutable here, so the copy is
    the same association list, and updating it leaves [d] as it was. *)
Definition dict_copy (d : dict) : dict := d.

(** [list(d.keys())] *)
Definition dict_keys (d : dict) : list string := map fst d.

(** *** Lists *)

(** [l[i]], with Python's negative indices; [IndexError] out of range. *)
Definition list_getitem (l : list value) (i : Z) : outcome value :=
  let j := if i <? 0 then i + len l else i in
  if (0 <=? j) && (j <? len l) then
    match nth_error l (Z.to_nat j) with
    | Some v => Return v
    | None => Raise (IndexError "list index out of range")
    end
  else Raise (IndexError "list index out of range").

(** *** Strings *)

(** [str.isspace] on one character of the Latin-1 range. *)
Definition is_space (c : ascii) : bool :=
  let n := Z.of_nat (nat_of_ascii c) in
  ((9 <=? n) && (n <=? 13)) || ((28 <=? n) && (n <=? 32))
  || (n =? 133) || (n =? 160).

Fixpoint lstrip (s : string) : string :=
  match s with
  | EmptyString => EmptyString
  | String c s' => if is_space c then lstrip s' else s
  end.

Fixpoint rstrip (s : string) : string :=
  match s with
  | EmptyString => EmptyString
  | String c s' =>
      match rstrip s' with
      | EmptyString => if is_space c then EmptyString else String c EmptyString
      | r => String c r
      end
  end.

(** [s.strip()] *)
Definition strip (s : string) : string := rstrip (lstrip s).

Definition newline : string := String (ascii_of_nat 10) EmptyString.

(** *** Logging *)

Inductive level : Type := DEBUG | INFO | WARNING | ERROR.

(** What a message interpolates: a value, an exception, or the type of a
    value. *)
Inductive log_arg : Type :=
| AVal (v : value)
| AExn (e : exn)
| ATypeOf (v : value).

(** One call of [LOG.debug]/[info]/[warning]/[error]: the message text as
    the source has it (placeholders left in place) and the arguments it
    interpolates, in order. *)
Record log_record : Type := mkLog {
  log_level : level;
  log_msg : string;
  log_args : list log_arg
}.

(** *** The monad: a log that only grows, and exceptions *)

Definition M (A : Type) : Type :=
  list log_record -> outcome A * list log_record.

Definition ret {A} (a : A) : M A := fun lg => (Return a, lg).

Definition raise {A} (e : exn) : M A := fun lg => (Raise e, lg).

Definition bind {A B} (m : M A) (k : A -> M B) : M B :=
  fun lg =>
    match m lg with
    | (Return a, lg') => k a lg'
    | (Raise e, lg') => (Raise e, lg')
    end.

(** [try: m except Exception as e: h e] *)
Definition try_except {A} (m : M A) (h : exn -> M A) : M A :=
  fun lg =>
    match m lg with
    | (Return a, lg') => (Return a, lg')
    | (Raise e, lg') => h e lg'
    end.

Definition lift {A} (o : outcome A) : M A := fun lg => (o, lg).

Definition log (l : level) (msg : string) (args : list log_arg) : M unit :=
  fun lg => (Return tt, (lg ++ [mkLog l msg args])%list).

(** The value a computation ends with, and the log it leaves. *)
Definition outcome_of {A} (m : M A) (lg : list log_record) : outcome A :=
  fst (m lg).
Definition log_of {A} (m : M A) (lg : list log_record) : list log_record :=
  snd (m lg).

(** Sequencing where nothing is logged. *)
Definition and_then {A B} (o : outcome A) (k : A -> outcome B) : outcome B :=
  match o with
  | Return a => k a
  | Raise e => Raise e
  end.

End Py.

Import Py.

Declare Scope py_scope.
Delimit Scope py_scope with py.
Notation "x <- m ;; k" := (bind m (fun x => k))
  (at level 61, m at next level, right associativity) : py_scope.
Notation "m ;; k" := (bind m (fun _ => k))
  (at level 61, right associativity) : py_scope.
Local Open Scope py_scope.

(** ** [qa_longest_mapping.py]: the Longest-Explanation Selector *)

Module QaLongestMapping.

(** The options [__init__] reads from [config]; [None] is an option the
    configuration does not set. *)
Record Config : Type := mkConfig {
  cfg_qa_pairs_field : option string;
  cfg_question_field : option string;
  cfg_explanation_field : option string;
  cfg_answer_field : option string;
  cfg_problem_field : option string;
  cfg_solution_field : option string;
  cfg_keep_unmapped : option bool;
  cfg_remove_source_fields : option bool
}.

(** The attributes of a [LongestExplanationMappingProcessor]. *)
Record Processor : Type := mkProcessor {
  qa_pairs_field : string;
  question_field : string;
  explanation_field : string;
  answer_field : string;
  problem_field : string;
  solution_field : string;
  keep_unmapped : bool;
  remove_source_fields : bool
}.

(** [config.get(key, default)] *)
Definition config_get {A} (o : option A) (default : A) : A :=
  match o with Some a => a | None => default end.

Definition __init__ (config : Config) : Processor :=
  {| qa_pairs_field := config_get (cfg_qa_pairs_field config) "qa_pairs";
     question_field := config_get (cfg_question_field config) "question";
     explanation_field := config_get (cfg_explanation_field config) "explanation";
     answer_field := config_get (cfg_answer_field config) "answer";
     problem_field := config_get (cfg_problem_field config) "problem";
     solution_field := config_get (cfg_solution_field config) "solution";
     keep_unmapped := config_get (cfg_keep_unmapped config) true;
     remove_source_fields := config_get (cfg_remove_source_fields config) false |}.

Definition get_required_columns (self : Processor) : list string :=
  [qa_pairs_field self].

Definition _as_list (v : value) : list value :=
  match v with
  | VNone => []
  | VList l => l
  | _ => [v]
  end.

(** [len({len(seq) for seq in sequences}) == 1] *)
Definition _have_matching_lengths (sequences : list (list value)) : bool :=
  len (nodup Z.eq_dec (map (@len value) sequences)) =? 1.

Definition _format_solution (explanation answer : string) : string :=
  explanation ++ newline ++ newline ++ "The answer is \boxed{" ++ answer ++ "}.".

Definition _get_source_container (self : Processor) (example : dict) : M dict :=
  let qa_pairs := dict_get example (qa_pairs_field self) in
  match qa_pairs with
  | VDict d => ret d
  | _ =>
      log DEBUG "qa_pairs field '%s' missing or not dict (type=%s)"
        [AVal (VStr (qa_pairs_field self));
         if is_none qa_pairs then AVal (VStr "None") else ATypeOf qa_pairs] ;;
      ret []
  end.

(** The container [_get_source_container] returns, and the three sequences
    [process_example] reads from it. *)
Definition source_container (self : Processor) (example : dict) : dict :=
  match dict_get example (qa_pairs_field self) with
  | VDict d => d
  | _ => []
  end.

Definition questions_of (self : Processor) (example : dict) : list value :=
  _as_list (dict_get (source_container self example) (question_field self)).

Definition explanations_of (self : Processor) (example : dict) : list value :=
  _as_list (dict_get (source_container self example) (explanation_field self)).

Definition answers_of (self : Processor) (example : dict) : list value :=
  _as_list (dict_get (source_container self example) (answer_field self)).

(** The fields step 8 deletes when [remove_source_fields] is set. *)
Definition removed_fields (self : Processor) : list string :=
  if negb (String.eqb (qa_pairs_field self) "") then [qa_pairs_field self]
  else [question_field self; explanation_field self; answer_field self].

Section Coercion.

(** [str(v)] for the values whose text the interpreter builds from
    [repr]: numbers, bytes, images, lists and dictionaries. *)
Variable py_repr : value -> string.

(** [str(v)] *)
Definition py_str (v : value) : outcome string :=
  match v with
  | VStr s => Return s
  | VNone => Return "None"
  | VBool true => Return "True"
  | VBool false => Return "False"
  | VObject o => obj_str o
  | _ => Return (py_repr v)
  end.

(** The loop of [_select_longest_index]: [items] is what [enumerate] has
    still to yield, [idx] the index of its head. *)
Fixpoint select_loop (items : list value) (idx max_length : Z)
    (max_index : option Z) : outcome (option Z) :=
  match items with
  | [] => Return max_index
  | item :: rest =>
      if is_none item then select_loop rest (idx + 1) max_length max_index
      else
        match py_str item with
        | Raise e => Raise e
        | Return text =>
            let current_length := str_len text in
            if current_length >? max_length
            then select_loop rest (idx + 1) current_length (Some idx)
            else select_loop rest (idx + 1) max_length max_index
        end
  end.

Definition _select_longest_index (explanations : list value) : outcome (option Z) :=
  select_loop explanations 0 (-1) None.

(** [str(seq[index]).strip()] *)
Definition stripped_at (seq : list value) (index : Z) : M string :=
  item <- lift (list_getitem seq index) ;;
  text <- lift (py_str item) ;;
  ret (strip text).

(** Lines 71-82: the record that is returned.  The set of the three field
    names is walked in the order written; [dict_pop_comm] below shows that
    the order of the deletions does not matter. *)
Definition build_result (self : Processor) (example : dict)
    (question explanation answer : string) : dict :=
  let result := if keep_unmapped self then dict_copy example else [] in
  let result := dict_setitem result (problem_field self) (VStr question) in
  let result :=
    dict_setitem result (solution_field self)
      (VStr (_format_solution explanation answer)) in
  if remove_source_fields self then
    if negb (String.eqb (qa_pairs_field self) "") then
      dict_pop result (qa_pairs_field self)
    else
      fold_left dict_pop
        (nodup string_dec
           [question_field self; explanation_field self; answer_field self])
        result
  else result.

(** The body of the [try] statement of [process_example]. *)
Definition process_example_try (self : Processor) (example : dict)
    : M (option dict) :=
  source <- _get_source_container self example ;;
  let questions := _as_list (dict_get source (question_field self)) in
  let explanations := _as_list (dict_get source (explanation_field self)) in
  let answers := _as_list (dict_get source (answer_field self)) in
  if negb (truthy (VList questions)) || negb (truthy (VList explanations))
     || negb (truthy (VList answers)) then
    log DEBUG
      "Skipping example: missing questions (%s), explanations (%s) or answers (%s)"
      [AVal (VBool (truthy (VList questions)));
       AVal (VBool (truthy (VList explanations)));
       AVal (VBool (truthy (VList answers)))] ;;
    ret None
  else if negb (_have_matching_lengths [questions; explanations; answers]) then
    log DEBUG
      "Skipping example: length mismatch (questions=%d, explanations=%d, answers=%d)"
      [AVal (VInt (len questions)); AVal (VInt (len explanations));
       AVal (VInt (len answers))] ;;
    ret None
  else
    index <- lift (_select_longest_index explanations) ;;
    match index with
    | None =>
        log DEBUG "Skipping example: failed to select longest explanation" [] ;;
        ret None
    | Some index =>
        question <- stripped_at questions index ;;
        explanation <- stripped_at explanations index ;;
        answer <- stripped_at answers index ;;
        if negb (truthy (VStr question)) || negb (truthy (VStr explanation))
           || negb (truthy (VStr answer)) then
          log DEBUG
            "Skipping example: empty fields after selection (question=%s, explanation=%s, answer=%s)"
            [AVal (VBool (truthy (VStr question)));
             AVal (VBool (truthy (VStr explanation)));
             AVal (VBool (truthy (VStr answer)))] ;;
          ret None
        else
          ret (Some (build_result self example question explanation answer))
    end.

(** The [except Exception] clause of [process_example]. *)
Definition process_example_except (self : Processor) (example : dict)
    (exc : exn) : M (option dict) :=
  log WARNING "Error in longest explanation mapping: %s" [AExn exc] ;;
  log DEBUG "Example keys: %s" [AVal (VList (map VStr (dict_keys example)))] ;;
  ret (if keep_unmapped self then Some example else None).

Definition process_example (self : Processor) (example : dict) : M (option dict) :=
  try_except (process_example_try self example)
             (process_example_except self example).

(** What [process_example_try] computes, the log left out. *)
Definition stripped_text (seq : list value) (index : Z) : outcome string :=
  and_then (list_getitem seq index) (fun item =>
  and_then (py_str item) (fun text => Return (strip text))).

Definition transform (self : Processor) (example : dict) : outcome (option dict) :=
  let questions := questions_of self example in
  let explanations := explanations_of self example in
  let answers := answers_of self example in
  if negb (truthy (VList questions)) || negb (truthy (VList explanations))
     || negb (truthy (VList answers)) then Return None
  else if negb (_have_matching_lengths [questions; explanations; answers])
  then Return None
  else
    and_then (_select_longest_index explanations) (fun index =>
    match index with
    | None => Return None
    | Some index =>
        and_then (stripped_text questions index) (fun question =>
        and_then (stripped_text explanations index) (fun explanation =>
        and_then (stripped_text answers index) (fun answer =>
        if negb (truthy (VStr question)) || negb (truthy (VStr explanation))
           || negb (truthy (VStr answer)) then Return None
        else
          Return (Some (build_result self example question explanation answer)))))
    end).

(** *** What selection is to return *)

(** Every entry that is not null is at most [bound] long; the entries
    before position [k] that are not null are shorter than [bound]. *)
Definition all_at_most (l : list value) (bound : Z) : Prop :=
  forall j w t, nth_error l j = Some w -> w <> VNone ->
    py_str w = Return t -> str_len t <= bound.

Definition earlier_shorter (l : list value) (k : nat) (bound : Z) : Prop :=
  forall j w t, (j < k)%nat -> nth_error l j = Some w -> w <> VNone ->
    py_str w = Return t -> str_len t < bound.

(** [i] indexes an entry that is not null, that is at least as long as
    every entry that is not null, and strictly longer than each of those
    before it. *)
Definition first_longest (l : list value) (i : Z) : Prop :=
  0 <= i < len l /\
  exists v s,
    nth_error l (Z.to_nat i) = Some v /\ v <> VNone /\ py_str v = Return s /\
    all_at_most l (str_len s) /\ earlier_shorter l (Z.to_nat i) (str_len s).

End Coercion.

End QaLongestMapping.

(** ** [image_format_converter.py]: the Image Normalizer *)

Module ImageFormatConverter.

(** What the two guarded imports at the top of the module found. *)
Record Runtime : Type := mkRuntime {
  HAS_PIL : bool;
  HAS_DATASETS_IMAGE : bool
}.

Record Config : Type := mkConfig {
  cfg_image_fields : option (list string);
  cfg_target_format : option string;
  cfg_skip_on_error : option bool
}.

(** The attributes of an [ImageFormatConverterProcessor]. *)
Record Processor : Type := mkProcessor {
  image_fields : list string;
  target_format : string;
  skip_on_error : bool
}.

Definition config_get {A} (o : option A) (default : A) : A :=
  match o with Some a => a | None => default end.

(** What a call into [base64] or [PIL] comes back with: a value, or an
    exception of the library's own, of class [cls]. *)
Inductive lib_result (A : Type) : Type :=
| Success (a : A)
| Failure (cls msg : string).
Arguments Success {A} a.
Arguments Failure {A} cls msg.

Definition call {A} (r : lib_result A) : M A :=
  match r with
  | Success a => ret a
  | Failure cls msg => raise (UserError cls msg)
  end.

(** One pass of [for field in fields: example = body(example, field)].
    The source assigns into the record it was given and returns that same
    record; here each conversion returns the updated record.  What an
    earlier conversion assigned before a later one raised is not kept with
    the exception. *)
Fixpoint for_fields (body : dict -> string -> M dict) (fields : list string)
    (example : dict) : M dict :=
  match fields with
  | [] => ret example
  | field :: rest =>
      example' <- body example field ;;
      for_fields body rest example'
  end.

(** [lg'] is [lg] with more records after it. *)
Definition extends (lg lg' : list log_record) : Prop :=
  exists more, lg' = (lg ++ more)%list.

(** The warnings of the outer handler of [_convert_to_bytes] and of the
    inner handlers of both conversions. *)
Definition bytes_warning (field : string) (e : exn) : log_record :=
  mkLog WARNING "Error converting image to bytes in field '{field}': {e}"
    [AVal (VStr field); AExn e].

Definition base64_warning (field : string) : log_record :=
  mkLog WARNING "Failed to decode base64 string for field '{field}'"
    [AVal (VStr field)].

Section Libraries.

Variable rt : Runtime.
(** [base64.b64decode(s)] on a [str] *)
Variable b64decode : string -> lib_result bytes.
(** [PILImage.open(BytesIO(b))] *)
Variable pil_open : bytes -> lib_result image.
(** [PILImage.open(path)] *)
Variable pil_open_path : value -> lib_result image.
(** [image.save(buffer, format='PNG')] and then [buffer.getvalue()] *)
Variable pil_save_png : image -> lib_result bytes.

(** Reading the module-level name [PILImage], which the guarded import
    binds only when it succeeded. *)
Definition PILImage : M unit :=
  if HAS_PIL rt then ret tt
  else raise (NameError "name 'PILImage' is not defined").

Definition __init__ (config : Config) : M Processor :=
  if negb (HAS_PIL rt) then
    raise (ImportError "PIL is required for image format conversion")
  else if negb (HAS_DATASETS_IMAGE rt) then
    raise (ImportError "datasets.Image is required for format conversion")
  else
    let self :=
      {| image_fields := config_get (cfg_image_fields config) ["image"];
         target_format := config_get (cfg_target_format config) "hf_image";
         skip_on_error := config_get (cfg_skip_on_error config) true |} in
    log INFO "Initialized ImageFormatConverter for fields: {self.image_fields}"
      [AVal (VList (map VStr (image_fields self)))] ;;
    log INFO "Target format: {self.target_format}"
      [AVal (VStr (target_format self))] ;;
    ret self.

Definition _convert_to_pil (self : Processor) (example : dict) (field : string)
    : M dict :=
  if negb (dict_contains example field) then ret example
  else
    let image_data := dict_get example field in
    try_except
      (if is_none image_data then ret example
       else
         PILImage ;;
         match image_data with
         | VImage _ => ret example
         | VDict image_dict =>
             if dict_contains image_dict "bytes" then
               let bytes_data := dict_get image_dict "bytes" in
               bytes_data <-
                 match bytes_data with
                 | VStr s => b <- call (b64decode s) ;; ret (VBytes b)
                 | _ => ret bytes_data
                 end ;;
               match bytes_data with
               | VBytes b =>
                   pil_image <- call (pil_open b) ;;
                   ret (dict_setitem example field (VImage pil_image))
               | _ =>
                   log WARNING "Unexpected bytes type: {type(bytes_data)}"
                     [ATypeOf bytes_data] ;;
                   ret example
               end
             else if dict_contains image_dict "path"
                     && truthy (dict_get image_dict "path") then
               pil_image <- call (pil_open_path (dict_get image_dict "path")) ;;
               ret (dict_setitem example field (VImage pil_image))
             else
               log WARNING "Dict image format not recognized: {image_data.keys()}"
                 [AVal (VList (map VStr (dict_keys image_dict)))] ;;
               ret example
         | VBytes b =>
             pil_image <- call (pil_open b) ;;
             ret (dict_setitem example field (VImage pil_image))
         | VStr s =>
             try_except
               (bytes_data <- call (b64decode s) ;;
                pil_image <- call (pil_open bytes_data) ;;
                ret (dict_setitem example field (VImage pil_image)))
               (fun _ =>
                  log WARNING "Failed to decode base64 string for field '{field}'"
                    [AVal (VStr field)] ;;
                  ret example)
         | _ => ret example
         end)
      (fun e =>
         log WARNING "Error converting image in field '{field}': {e}"
           [AVal (VStr field); AExn e] ;;
         if negb (skip_on_error self) then raise e else ret example).

(** One iteration of the loop of [_convert_to_bytes]. *)
Definition convert_field_to_bytes (self : Processor) (example : dict)
    (field : string) : M dict :=
  if negb (dict_contains example field) then ret example
  else
    let image_data := dict_get example field in
    try_except
      (if is_none image_data then ret example
       else
         PILImage ;;
         match image_data with
         | VImage im =>
             png <- call (pil_save_png im) ;;
             ret (dict_setitem example field (VBytes png))
         | VDict image_dict =>
             if dict_contains image_dict "bytes" then
               let bytes_data := dict_get image_dict "bytes" in
               match bytes_data with
               | VStr s =>
                   b <- call (b64decode s) ;;
                   ret (dict_setitem example field (VBytes b))
               | _ => ret (dict_setitem example field bytes_data)
               end
             else ret example
         | VBytes _ => ret example
         | VStr s =>
             try_except
               (b <- call (b64decode s) ;;
                ret (dict_setitem example field (VBytes b)))
               (fun _ =>
                  log WARNING "Failed to decode base64 string for field '{field}'"
                    [AVal (VStr field)] ;;
                  ret example)
         | _ => ret example
         end)
      (fun e =>
         log WARNING "Error converting image to bytes in field '{field}': {e}"
           [AVal (VStr field); AExn e] ;;
         if negb (skip_on_error self) then raise e else ret example).

Definition _convert_to_bytes (self : Processor) (example : dict) : M dict :=
  for_fields (convert_field_to_bytes self) (image_fields self) example.

Definition process_example (self : Processor) (example : dict)
    : M (option dict) :=
  example <-
    (if String.eqb (target_format self) "hf_image" then
       for_fields (_convert_to_pil self) (image_fields self) example
     else _convert_to_bytes self example) ;;
  ret (Some example).

Definition get_required_columns (self : Processor) : list string :=
  image_fields self.

(** What one conversion can do: leave the record as it is or assign the
    field; raise only when [skip_on_error] is off, and then, [PIL] being
    there, an exception of a library. *)
Definition field_step (self : Processor) (example : dict) (field : string)
    (lg : list log_record) (r : outcome dict * list log_record) : Prop :=
  extends lg (snd r) /\
  match fst r with
  | Return example' =>
      example' = example \/ exists v, example' = dict_setitem example field v
  | Raise e =>
      skip_on_error self = false /\
      (HAS_PIL rt = true -> exists cls msg, e = UserError cls msg)
  end.

(** [base64.b64decode(s)] fails, or it succeeds and [PILImage.open] fails
    on what it returns. *)
Definition decode_fails (s : string) : Prop :=
  match b64decode s with
  | Failure _ _ => True
  | Success b =>
      match pil_open b with
      | Failure _ _ => True
      | Success _ => False
      end
  end.

End Libraries.


(** The exception says that a capability is missing: an import that
    failed, or a name that a failed import left unbound. *)
Definition capability_error {A} (o : outcome A) : bool :=
  match o with
  | Raise (ImportError _) | Raise (NameError _) => true
  | _ => false
  end.


(** *** What the conversions do to a record, as predicates *)

(** The record a conversion returns has the keys of the one it was given,
    in the same order, and the same values at every other field. *)
Definition keeps_others (example example' : dict) (field : string) : Prop :=
  dict_keys example' = dict_keys example /\
  forall k, k <> field -> dict_find example' k = dict_find example k.

(** The values the encode cascade passes over without a word: nothing,
    bytes, a mapping without [bytes] (its [path] is not read), and values
    of any other type. *)
Inductive not_encoded : value -> Prop :=
| skip_none : not_encoded VNone
| skip_bytes (b : bytes) : not_encoded (VBytes b)
| skip_no_bytes (d : dict) : dict_find d "bytes" = None -> not_encoded (VDict d)
| skip_bool (b : bool) : not_encoded (VBool b)
| skip_int (n : Z) : not_encoded (VInt n)
| skip_list (l : list value) : not_encoded (VList l)
| skip_object (o : object) : not_encoded (VObject o).

Section Cascades.

Variable rt : Runtime.
Variable b64decode : string -> lib_result bytes.
Variable pil_open : bytes -> lib_result image.
Variable pil_open_path : value -> lib_result image.
Variable pil_save_png : image -> lib_result bytes.

(** The values the decode cascade turns into an image: raw bytes, base64
    text, a mapping with embedded bytes or embedded base64 text, and a
    mapping without [bytes] whose [path] is true. *)
Inductive decodes_to : value -> image -> Prop :=
| decode_bytes (b : bytes) (im : image) :
    pil_open b = Success im -> decodes_to (VBytes b) im
| decode_text (s : string) (b : bytes) (im : image) :
    b64decode s = Success b -> pil_open b = Success im ->
    decodes_to (VStr s) im
| decode_embedded_bytes (d : dict) (b : bytes) (im : image) :
    dict_find d "bytes" = Some (VBytes b) -> pil_open b = Success im ->
    decodes_to (VDict d) im
| decode_embedded_text (d : dict) (s : string) (b : bytes) (im : image) :
    dict_find d "bytes" = Some (VStr s) -> b64decode s = Success b ->
    pil_open b = Success im -> decodes_to (VDict d) im
| decode_path (d : dict) (p : value) (im : image) :
    dict_find d "bytes" = None -> dict_find d "path" = Some p ->
    truthy p = true -> pil_open_path p = Success im ->
    decodes_to (VDict d) im.

(** The values the encode cascade replaces, and by what: an image by its
    PNG bytes, base64 text by its decoded bytes, a mapping by its [bytes]
    entry, decoded first when it is text and as it is otherwise. *)
Inductive encodes_to : value -> value -> Prop :=
| encode_image (im : image) (png : bytes) :
    pil_save_png im = Success png -> encodes_to (VImage im) (VBytes png)
| encode_text (s : string) (b : bytes) :
    b64decode s = Success b -> encodes_to (VStr s) (VBytes b)
| encode_embedded_text (d : dict) (s : string) (b : bytes) :
    dict_find d "bytes" = Some (VStr s) -> b64decode s = Success b ->
    encodes_to (VDict d) (VBytes b)
| encode_embedded_other (d : dict) (w : value) :
    dict_find d "bytes" = Some w -> (forall s, w <> VStr s) ->
    encodes_to (VDict d) w.

(** Converting [field] in [example] returns [example], whatever the log. *)
Definition settled (self : Processor) (example : dict) (field : string) : Prop :=
  forall lg,
    outcome_of (_convert_to_pil rt b64decode pil_open pil_open_path self example field)
      lg = Return example.

End Cascades.

(** *** [apply_to_dataset] *)

(** [try: a = m; (rest) except Exception as e: (handler)], for a handler
    that must know how far the body got: [k] runs after [m] returned and
    looks after its own exceptions. *)
Definition try_bind {A B} (m : M A) (k : A -> M B) (h : exn -> M B) : M B :=
  fun lg =>
    match m lg with
    | (Return a, lg') => k a lg'
    | (Raise e, lg') => h e lg'
    end.

(** The warning of the second loop for an image field that is no column. *)
Definition not_found (field : string) : log_record :=
  mkLog WARNING "Field '{field}' not found in dataset columns"
    [AVal (VStr field)].

Section DatasetLevel.

Variable rt : Runtime.
Variable b64decode : string -> lib_result bytes.
Variable pil_open : bytes -> lib_result image.
Variable pil_open_path : value -> lib_result image.
Variable pil_save_png : image -> lib_result bytes.

(** The dataset collaborator ([datasets.Dataset]): its length, its
    features (column name to feature type), its column names, [map] with
    a per-record function and [cast] to new features; [image_feature] is
    what [Image()] constructs. *)
Variable Dataset : Type.
Variable ds_len : Dataset -> Z.
Variable ds_features : Dataset -> dict.
Variable ds_column_names : Dataset -> list string.
Variable ds_map : (dict -> M dict) -> Dataset -> M Dataset.
Variable ds_cast : Dataset -> dict -> lib_result Dataset.
Variable image_feature : value.

(** [from datasets import Features, Value], which finds [datasets] when the
    guarded import at the top of the module did. *)
Definition import_datasets : M unit :=
  if HAS_DATASETS_IMAGE rt then ret tt
  else raise (ImportError "No module named 'datasets'").

(** Reading the module-level name [Image]. *)
Definition DatasetsImage : M unit :=
  if HAS_DATASETS_IMAGE rt then ret tt
  else raise (NameError "name 'Image' is not defined").

(** The first loop: the current type of each image field that is a
    feature. *)
Fixpoint log_current_types (fields : list string) (dataset : Dataset) : M unit :=
  match fields with
  | [] => ret tt
  | field :: rest =>
      (if dict_contains (ds_features dataset) field then
         log INFO "  Current type for '{field}': {current_type}"
           [AVal (VStr field); AVal (dict_get (ds_features dataset) field)]
       else ret tt) ;;
      log_current_types rest dataset
  end.

(** The [except] clause of the second loop; [dataset] is the value the
    variable has when the exception arrives. *)
Definition conversion_failed (self : Processor) (field : string) (e : exn)
    (dataset : Dataset) : M Dataset :=
  log ERROR "Failed to convert '{field}' to Image type: {e}"
    [AVal (VStr field); AExn e] ;;
  if negb (skip_on_error self) then raise e else ret dataset.

(** The [try] statement of the second loop.  [dataset] is assigned the
    mapped dataset before the cast is attempted. *)
Definition convert_column (self : Processor) (field : string)
    (dataset : Dataset) : M Dataset :=
  log INFO "Converting '{field}' to HuggingFace Image type..."
    [AVal (VStr field)] ;;
  try_bind
    (ds_map
       (fun ex => _convert_to_pil rt b64decode pil_open pil_open_path self ex field)
       dataset)
    (fun mapped =>
       try_except
         (let new_features := dict_copy (ds_features mapped) in
          DatasetsImage ;;
          let new_features := dict_setitem new_features field image_feature in
          cast <- call (ds_cast mapped new_features) ;;
          log INFO "✅ Successfully converted '{field}' to Image type"
            [AVal (VStr field)] ;;
          ret cast)
         (fun e => conversion_failed self field e mapped))
    (fun e => conversion_failed self field e dataset).

(** The second loop. *)
Fixpoint convert_columns (self : Processor) (fields : list string)
    (dataset : Dataset) : M Dataset :=
  match fields with
  | [] => ret dataset
  | field :: rest =>
      if negb (existsb (String.eqb field) (ds_column_names dataset)) then
        log WARNING "Field '{field}' not found in dataset columns"
          [AVal (VStr field)] ;;
        convert_columns self rest dataset
      else
        dataset' <- convert_column self field dataset ;;
        convert_columns self rest dataset'
  end.

Definition apply_to_dataset (self : Processor) (dataset : Dataset) : M Dataset :=
  import_datasets ;;
  let initial_count := ds_len dataset in
  log INFO "🔄 ImageFormatConverter: Processing {initial_count} examples"
    [AVal (VInt initial_count)] ;;
  log INFO "  Image fields: {self.image_fields}"
    [AVal (VList (map VStr (image_fields self)))] ;;
  log INFO "  Target format: {self.target_format}"
    [AVal (VStr (target_format self))] ;;
  log_current_types (image_fields self) dataset ;;
  dataset <-
    (if String.eqb (target_format self) "hf_image" then
       convert_columns self (image_fields self) dataset
     else
       ds_map (_convert_to_bytes rt b64decode pil_save_png self) dataset) ;;
  let final_count := ds_len dataset in
  log INFO
    "✅ ImageFormatConverter complete: {final_count}/{initial_count} examples processed"
    [AVal (VInt final_count); AVal (VInt initial_count)] ;;
  ret dataset.

End DatasetLevel.

End ImageFormatConverter.

(** ** The Executor's default per-record mode *)

Module Executor.

(** Modelled from the spec: the default [applyToDataset] of section 4.2,
    which belongs to the [DatasetProcessor] base class and is not among the
    sources: map [processExample] over every record in original order and
    remove all absent results.  An exception of the transform propagates
    (section 4.3). *)
Fixpoint map_and_filter (process_example : dict -> M (option dict))
    (dataset : list dict) : M (list dict) :=
  match dataset with
  | [] => ret []
  | example :: rest =>
      r <- process_example example ;;
      kept <- map_and_filter process_example rest ;;
      ret (match r with Some example' => example' :: kept | None => kept end)
  end.

End Executor.

(** ** [cli/preprocess.py]: the short flag of [main] *)

Module Preprocess.

(** [s.split("=", 1)]: the text before the first [=] and the text after it,
    or [s] alone when it has none. *)
Fixpoint split_at_equals (s : string) : list string :=
  match s with
  | EmptyString => [EmptyString]
  | String c rest =>
      if Ascii.eqb c "="%char then [EmptyString; rest]
      else
        match split_at_equals rest with
        | head :: tail => String c head :: tail
        | [] => [String c EmptyString]
        end
  end.

(** [parts[1]] *)
Definition second (parts : list string) : outcome string :=
  match parts with
  | _ :: part :: _ => Return part
  | _ => Raise (IndexError "list index out of range")
  end.

(** The [while] loop of [main]: [argv] is [argv[i:]], and the result is
    what the loop appends to [normalized] from there on. *)
Fixpoint normalize (argv : list string) : outcome (list string) :=
  match argv with
  | [] => Return []
  | arg :: rest =>
      if String.eqb arg "-c" then
        match rest with
        | value :: rest' =>
            and_then (normalize rest') (fun normalized =>
            Return ("--config" :: value :: normalized))
        | [] => Return ["--config"]
        end
      else if String.prefix "-c=" arg then
        and_then (second (split_at_equals arg)) (fun value =>
        and_then (normalize rest) (fun normalized =>
        Return ("--config" :: value :: normalized)))
      else
        and_then (normalize rest) (fun normalized =>
        Return (arg :: normalized))
  end.

(** [sys.argv] as [main] leaves it for [fire]: the program name, then the
    normalized arguments. *)
Definition rewritten_argv (sys_argv : list string) : outcome (list string) :=
  and_then (normalize (tl sys_argv)) (fun normalized =>
  match sys_argv with
  | program :: _ => Return (program :: normalized)
  | [] => Raise (IndexError "list index out of range")
  end).

(** The argument is one the loop rewrites. *)
Definition is_short_config (arg : string) : bool :=
  String.eqb arg "-c" || String.prefix "-c=" arg.

End Preprocess.

(** ** Instances of the interpreter and library interfaces, and sample data

    The processors are parametric in [py_repr], [b64decode] and the [PIL]
    calls.  The concrete runs below fix them: integers print in decimal and
    compound values are abbreviated (no run coerces one), [b64decode_ref] follows the non-strict algorithm of
    [binascii.a2b_base64], and the [PIL] stand-ins accept nothing but the
    PNG signature. *)

Module Samples.

Definition repr_brief (v : value) : string :=
  match v with
  | VInt n => DecimalString.NilZero.string_of_int (Z.to_int n)
  | VBytes _ => "b'...'"
  | VList _ => "[...]"
  | VDict _ => "{...}"
  | _ => "<...>"
  end.

(** An object whose [__str__] raises. *)
Definition unprintable : value :=
  VObject (mkObject "Unprintable" (Raise (UserError "ValueError" "no text"))).

Definition b64_digit (c : ascii) : option Z :=
  let n := Z.of_nat (nat_of_ascii c) in
  if (65 <=? n) && (n <=? 90) then Some (n - 65)
  else if (97 <=? n) && (n <=? 122) then Some (n - 71)
  else if (48 <=? n) && (n <=? 57) then Some (n + 4)
  else if n =? 43 then Some 62
  else if n =? 47 then Some 63
  else None.

Definition byte_of_Z (z : Z) : Byte.byte :=
  match Byte.of_N (Z.to_N (z mod 256)) with
  | Some b => b
  | None => Byte.x00
  end.

(** Characters outside the alphabet are skipped; a pad that completes a
    quad ends the input; a quad left open at the end is an error. *)
Fixpoint b64_loop (s : string) (quad_pos leftchar pads : Z) (out : bytes)
    : ImageFormatConverter.lib_result bytes :=
  match s with
  | EmptyString =>
      if quad_pos =? 0 then ImageFormatConverter.Success (rev out)
      else if quad_pos =? 1 then
        ImageFormatConverter.Failure "binascii.Error"
          "Invalid base64-encoded string: number of data characters cannot be 1 more than a multiple of 4"
      else ImageFormatConverter.Failure "binascii.Error" "Incorrect padding"
  | String c rest =>
      if Ascii.eqb c "="%char then
        if 2 <=? quad_pos then
          if 4 <=? quad_pos + (pads + 1) then ImageFormatConverter.Success (rev out)
          else b64_loop rest quad_pos leftchar (pads + 1) out
        else b64_loop rest quad_pos leftchar pads out
      else
        match b64_digit c with
        | None => b64_loop rest quad_pos leftchar pads out
        | Some d =>
            if quad_pos =? 0 then b64_loop rest 1 d 0 out
            else if quad_pos =? 1 then
              b64_loop rest 2 (Z.land d 15) 0
                (byte_of_Z (Z.lor (Z.shiftl leftchar 2) (Z.shiftr d 4)) :: out)
            else if quad_pos =? 2 then
              b64_loop rest 3 (Z.land d 3) 0
                (byte_of_Z (Z.lor (Z.shiftl leftchar 4) (Z.shiftr d 2)) :: out)
            else
              b64_loop rest 0 0 0
                (byte_of_Z (Z.lor (Z.shiftl leftchar 6) d) :: out)
        end
  end.

Fixpoint is_ascii_text (s : string) : bool :=
  match s with
  | EmptyString => true
  | String c rest => (Z.of_nat (nat_of_ascii c) <? 128) && is_ascii_text rest
  end.

Definition b64decode_ref (s : string) : ImageFormatConverter.lib_result bytes :=
  if is_ascii_text s then b64_loop s 0 0 0 []
  else
    ImageFormatConverter.Failure "ValueError"
      "string argument should contain only ASCII characters".

Definition png_signature : bytes :=
  [Byte.x89; Byte.x50; Byte.x4e; Byte.x47; Byte.x0d; Byte.x0a; Byte.x1a; Byte.x0a].

Fixpoint starts_with (prefix data : bytes) : bool :=
  match prefix, data with
  | [], _ => true
  | p :: prefix', d :: data' => Byte.eqb p d && starts_with prefix' data'
  | _ :: _, [] => false
  end.

Definition pil_open_ref (data : bytes) : ImageFormatConverter.lib_result image :=
  if starts_with png_signature data then
    ImageFormatConverter.Success (mkImage "RGB" 1 1 data)
  else
    ImageFormatConverter.Failure "PIL.UnidentifiedImageError"
      "cannot identify image file".

Definition pil_open_path_ref (path : value) : ImageFormatConverter.lib_result image :=
  ImageFormatConverter.Failure "FileNotFoundError" "No such file or directory".

Definition pil_save_png_ref (im : image) : ImageFormatConverter.lib_result bytes :=
  ImageFormatConverter.Success (png_signature ++ im_pixels im)%list.

(** Selector configurations: the defaults; one name for both output
    fields; only the new fields kept. *)
Definition default_selector : QaLongestMapping.Processor :=
  QaLongestMapping.__init__
    (QaLongestMapping.mkConfig None None None None None None None None).

Definition one_output_field : QaLongestMapping.Processor :=
  QaLongestMapping.__init__
    (QaLongestMapping.mkConfig None None None None (Some "text") (Some "text")
       None None).

Definition only_new_fields : QaLongestMapping.Processor :=
  QaLongestMapping.__init__
    (QaLongestMapping.mkConfig None None None None None None (Some false)
       (Some true)).

Definition two_pairs : dict :=
  [("id", VInt 7);
   ("qa_pairs",
    VDict [("question", VList [VStr "q1"; VStr " q2 "]);
           ("explanation", VList [VStr "short"; VStr " the longer one "]);
           ("answer", VList [VStr "a1"; VStr "a2 "])])].

Definition one_pair : dict :=
  [("id", VInt 7);
   ("qa_pairs",
    VDict [("question", VStr "q"); ("explanation", VStr "e");
           ("answer", VStr "a")])].

Definition unprintable_question : dict :=
  [("id", VInt 7);
   ("qa_pairs",
    VDict [("question", unprintable); ("explanation", VStr "e");
           ("answer", VStr "a")])].

Definition no_pairs : dict := [("id", VInt 7)].

(** Both imports succeeded; [PIL] is missing. *)
Definition full_runtime : ImageFormatConverter.Runtime :=
  ImageFormatConverter.mkRuntime true true.

Definition no_pil : ImageFormatConverter.Runtime :=
  ImageFormatConverter.mkRuntime false true.

(** Normalizer configurations and the processors they construct. *)
Definition encode_strictly : ImageFormatConverter.Config :=
  ImageFormatConverter.mkConfig None (Some "bytes") (Some false).

Definition encode_by_default : ImageFormatConverter.Config :=
  ImageFormatConverter.mkConfig None (Some "bytes") None.

Definition decode_by_default : ImageFormatConverter.Config :=
  ImageFormatConverter.mkConfig None None None.

Definition strict_encoder : ImageFormatConverter.Processor :=
  ImageFormatConverter.mkProcessor ["image"] "bytes" false.

Definition lenient_encoder : ImageFormatConverter.Processor :=
  ImageFormatConverter.mkProcessor ["image"] "bytes" true.

Definition decoder : ImageFormatConverter.Processor :=
  ImageFormatConverter.mkProcessor ["image"] "hf_image" true.

(** [abc] lacks its padding; [aGVsbG8=] decodes to [hello], no image. *)
Definition corrupt_bytes : dict :=
  [("id", VInt 1); ("image", VDict [("bytes", VStr "abc"); ("path", VNone)])].

Definition text_not_an_image : dict :=
  [("id", VInt 2); ("image", VStr "aGVsbG8=")].

(** A dataset that is its rows and its features: [map] converts the rows
    in order and stops at the first exception, [cast] replaces the
    features or, for [rows_cast_fails], always fails. *)
Definition rows_dataset : Type := (list dict * dict)%type.

Fixpoint map_rows (f : dict -> M dict) (rows : list dict) : M (list dict) :=
  match rows with
  | [] => ret []
  | row :: rest =>
      row' <- f row ;;
      rest' <- map_rows f rest ;;
      ret (row' :: rest')
  end.

Definition rows_map (f : dict -> M dict) (ds : rows_dataset) : M rows_dataset :=
  rows <- map_rows f (fst ds) ;;
  ret (rows, snd ds).

Definition rows_cast (ds : rows_dataset) (features : dict)
    : ImageFormatConverter.lib_result rows_dataset :=
  ImageFormatConverter.Success (fst ds, features).

Definition rows_cast_fails (ds : rows_dataset) (features : dict)
    : ImageFormatConverter.lib_result rows_dataset :=
  ImageFormatConverter.Failure "ArrowInvalid" "cannot cast column".

Definition image_type : value := VObject (mkObject "Image" (Return "Image()")).

Definition text_type : value :=
  VObject (mkObject "Value" (Return "Value('string')")).

(** A codec that gives back what it was given: the saved bytes are the
    signature and the pixels, and opening drops the signature. *)
Definition codec_open (data : bytes) : ImageFormatConverter.lib_result image :=
  if starts_with png_signature data then
    ImageFormatConverter.Success (mkImage "RGB" 1 1 (skipn 8 data))
  else
    ImageFormatConverter.Failure "PIL.UnidentifiedImageError"
      "cannot identify image file".

Definition one_pixel : image := mkImage "RGB" 1 1 [Byte.xff; Byte.x00; Byte.x00].

Definition rows_len (ds : rows_dataset) : Z := len (fst ds).

Definition rows_features (ds : rows_dataset) : dict := snd ds.

Definition rows_column_names (ds : rows_dataset) : list string :=
  dict_keys (snd ds).

(** A [map] that fails by itself, whatever the function. *)
Definition rows_map_fails (f : dict -> M dict) (ds : rows_dataset)
    : M rows_dataset :=
  raise (UserError "ArrowInvalid" "cannot write the batch").

(** One row whose image is PNG bytes, before and after decoding; a dataset
    with no image column. *)
Definition png_bytes : bytes := (png_signature ++ [Byte.xff])%list.

Definition png_rows : rows_dataset :=
  ([[("id", VInt 3); ("image", VBytes png_bytes)]],
   [("id", text_type); ("image", text_type)]).

Definition decoded_rows : rows_dataset :=
  ([[("id", VInt 3); ("image", VImage (mkImage "RGB" 1 1 png_bytes))]],
   [("id", text_type); ("image", text_type)]).

Definition captions : rows_dataset :=
  ([[("caption", VStr "a cat")]], [("caption", text_type)]).

Definition strict_decoder : ImageFormatConverter.Processor :=
  ImageFormatConverter.mkProcessor ["image"] "hf_image" false.

(** The solution, or the problem, is written over the container, which is
    then deleted. *)
Definition solution_over_container : QaLongestMapping.Processor :=
  QaLongestMapping.__init__
    (QaLongestMapping.mkConfig None None None None None (Some "qa_pairs") None
       (Some true)).

Definition problem_over_container : QaLongestMapping.Processor :=
  QaLongestMapping.__init__
    (QaLongestMapping.mkConfig None None None None (Some "qa_pairs") None None
       (Some true)).

(** The container is deleted and the other fields are kept. *)
Definition drop_container : QaLongestMapping.Processor :=
  QaLongestMapping.__init__
    (QaLongestMapping.mkConfig None None None None None None None (Some true)).

(** A container with scalar entries: a blank question; padded entries. *)
Definition blank_question : dict :=
  [("id", VInt 7);
   ("qa_pairs",
    VDict [("question", VStr "  "); ("explanation", VStr "e");
           ("answer", VStr "a")])].

Definition padded_entries : dict :=
  [("qa_pairs",
    VDict [("question", VStr " q "); ("explanation", VStr "e ");
           ("answer", VStr " a")])].

(** The PNG signature in base64, embedded in a mapping; an image; a
    mapping with a path only; a mapping whose [bytes] is [None]. *)
Definition embedded_text : dict :=
  [("id", VInt 4); ("image", VDict [("bytes", VStr "iVBORw0KGgo=")])].

Definition decoded_image : dict := [("id", VInt 5); ("image", VImage one_pixel)].

Definition path_only : dict :=
  [("id", VInt 6); ("image", VDict [("path", VStr "a.png")])].

Definition null_bytes : dict :=
  [("id", VInt 8); ("image", VDict [("bytes", VNone); ("path", VStr "a.png")])].

End Samples.

(** * Properties *)

(** ** Dictionaries and lists *)

Section PyFacts.

Lemma is_none_true (v : value) : is_none v = true <-> v = VNone.
Proof. destruct v; simpl; split; intro H; congruence. Qed.

Lemma is_none_false (v : value) : is_none v = false <-> v <> VNone.
Proof. destruct v; simpl; split; intro H; congruence. Qed.

Lemma dict_find_setitem (d : dict) (k k' : string) (v : value) :
  dict_find (dict_setitem d k v) k' =
  if String.eqb k k' then Some v else dict_find d k'.
Proof.
  induction d as [|[k0 v0] d IH]; simpl.
  - reflexivity.
  - destruct (String.eqb_spec k0 k) as [->|Hne]; simpl.
    + destruct (String.eqb k k'); reflexivity.
    + rewrite IH. destruct (String.eqb_spec k0 k') as [->|Hne'].
      * destruct (String.eqb_spec k k'); [congruence | reflexivity].
      * reflexivity.
Qed.

Lemma dict_find_pop (d : dict) (k k' : string) :
  dict_find (dict_pop d k) k' =
  if String.eqb k k' then None else dict_find d k'.
Proof.
  induction d as [|[k0 v0] d IH]; simpl.
  - destruct (String.eqb k k'); reflexivity.
  - destruct (String.eqb_spec k0 k) as [->|Hne]; simpl.
    + rewrite IH. destruct (String.eqb k k'); reflexivity.
    + rewrite IH. destruct (String.eqb_spec k0 k') as [->|Hne'].
      * destruct (String.eqb_spec k k'); [congruence | reflexivity].
      * reflexivity.
Qed.

Lemma dict_get_setitem_same (d : dict) (k : string) (v : value) :
  dict_get (dict_setitem d k v) k = v.
Proof. unfold dict_get. now rewrite dict_find_setitem, String.eqb_refl. Qed.

Lemma dict_get_setitem_other (d : dict) (k k' : string) (v : value) :
  k <> k' -> dict_get (dict_setitem d k v) k' = dict_get d k'.
Proof.
  intro Hne. unfold dict_get. rewrite dict_find_setitem.
  destruct (String.eqb_spec k k'); [congruence | reflexivity].
Qed.

Lemma dict_get_pop_other (d : dict) (k k' : string) :
  k <> k' -> dict_get (dict_pop d k) k' = dict_get d k'.
Proof.
  intro Hne. unfold dict_get. rewrite dict_find_pop.
  destruct (String.eqb_spec k k'); [congruence | reflexivity].
Qed.

Lemma dict_get_pop_all (ks : list string) (d : dict) (k' : string) :
  ~ In k' ks -> dict_get (fold_left dict_pop ks d) k' = dict_get d k'.
Proof.
  revert d. induction ks as [|k ks IH]; simpl; intros d Hnotin.
  - reflexivity.
  - rewrite IH by tauto. apply dict_get_pop_other. tauto.
Qed.

Lemma dict_keys_setitem (d : dict) (k k' : string) (v : value) :
  In k' (dict_keys (dict_setitem d k v)) -> k' = k \/ In k' (dict_keys d).
Proof.
  unfold dict_keys. induction d as [|[k0 v0] d IH]; simpl.
  - intros [<-|[]]. now left.
  - destruct (String.eqb_spec k0 k) as [->|Hne]; simpl.
    + intros [<-|Hin]; auto.
    + intros [<-|Hin]; auto. destruct (IH Hin); auto.
Qed.

Lemma dict_keys_pop (d : dict) (k k' : string) :
  In k' (dict_keys (dict_pop d k)) -> In k' (dict_keys d) /\ k' <> k.
Proof.
  unfold dict_keys. induction d as [|[k0 v0] d IH]; simpl.
  - intros [].
  - destruct (String.eqb_spec k0 k) as [->|Hne]; simpl.
    + intro Hin. destruct (IH Hin). auto.
    + intros [<-|Hin]; [auto|]. destruct (IH Hin). auto.
Qed.

Lemma dict_keys_pop_all (ks : list string) (d : dict) (k' : string) :
  In k' (dict_keys (fold_left dict_pop ks d)) ->
  In k' (dict_keys d) /\ ~ In k' ks.
Proof.
  revert d. induction ks as [|k ks IH]; simpl; intros d Hin.
  - auto.
  - destruct (IH _ Hin) as [Hk Hnot]. apply dict_keys_pop in Hk.
    destruct Hk as [Hk Hne]. split; [assumption|]. intros [->|H]; auto.
Qed.

Lemma dict_pop_comm (d : dict) (k1 k2 : string) :
  dict_pop (dict_pop d k1) k2 = dict_pop (dict_pop d k2) k1.
Proof.
  induction d as [|[k v] d IH]; simpl; [reflexivity|].
  destruct (String.eqb k k1) eqn:E1, (String.eqb k k2) eqn:E2; simpl;
    rewrite ?E1, ?E2, IH; reflexivity.
Qed.

Lemma dict_contains_find (d : dict) (k : string) :
  dict_contains d k = true -> exists v, dict_find d k = Some v.
Proof.
  unfold dict_contains. destruct (dict_find d k) as [v|]; [eauto | discriminate].
Qed.

Lemma len_nonneg {A} (l : list A) : 0 <= len l.
Proof. unfold len. lia. Qed.

Lemma list_getitem_in_range (l : list value) (i : Z) :
  0 <= i < len l ->
  exists v, list_getitem l i = Return v /\ nth_error l (Z.to_nat i) = Some v.
Proof.
  intros [Hlo Hhi]. unfold list_getitem.
  assert (E1 : (i <? 0) = false) by lia. rewrite E1.
  assert (E2 : ((0 <=? i) && (i <? len l)) = true) by lia. rewrite E2.
  destruct (nth_error l (Z.to_nat i)) as [v|] eqn:E.
  - eauto.
  - apply nth_error_None in E. unfold len in Hhi. lia.
Qed.

Lemma nodup_singleton {A} (dec : forall x y : A, {x = y} + {x <> y})
    (l : list A) (z : A) :
  nodup dec l = [z] -> forall x, In x l -> x = z.
Proof.
  intros E x Hin. apply (nodup_In dec) in Hin. rewrite E in Hin.
  destruct Hin as [<-|[]]. reflexivity.
Qed.

Lemma nodup_all_equal {A} (dec : forall x y : A, {x = y} + {x <> y})
    (l : list A) (z : A) :
  l <> [] -> (forall x, In x l -> x = z) -> nodup dec l = [z].
Proof.
  intros Hne Hall.
  assert (Hin : forall x, In x (nodup dec l) -> x = z).
  { intros x Hx. apply Hall. now apply (nodup_In dec). }
  assert (Hnd := NoDup_nodup dec l).
  destruct (nodup dec l) as [|a [|b rest]] eqn:E.
  - destruct l as [|x l']; [congruence|].
    assert (In x (nodup dec (x :: l'))) by (apply nodup_In; now left).
    rewrite E in H. destruct H.
  - f_equal. apply Hin. now left.
  - exfalso. inversion Hnd as [|? ? Hnotin _]; subst.
    apply Hnotin. left. rewrite (Hin a), (Hin b); simpl; auto.
Qed.

Lemma dict_keys_setitem_iff (d : dict) (k k' : string) (v : value) :
  In k' (dict_keys (dict_setitem d k v)) <-> k' = k \/ In k' (dict_keys d).
Proof.
  split; [apply dict_keys_setitem|].
  unfold dict_keys. induction d as [|[k0 v0] d IH]; simpl.
  - intros [->|[]]. now left.
  - destruct (String.eqb_spec k0 k) as [->|Hne]; simpl.
    + intros [->|[<-|H]]; auto.
    + intros [->|[<-|H]]; auto.
Qed.

Lemma dict_keys_pop_iff (d : dict) (k k' : string) :
  In k' (dict_keys (dict_pop d k)) <-> In k' (dict_keys d) /\ k' <> k.
Proof.
  split; [apply dict_keys_pop|].
  unfold dict_keys. induction d as [|[k0 v0] d IH]; simpl.
  - intros [[] _].
  - intros [[<-|H] Hne].
    + destruct (String.eqb_spec k0 k); [contradiction|]. now left.
    + destruct (String.eqb k0 k); [|right]; apply IH; auto.
Qed.

Lemma dict_keys_pop_all_iff (ks : list string) (d : dict) (k' : string) :
  In k' (dict_keys (fold_left dict_pop ks d)) <->
  In k' (dict_keys d) /\ ~ In k' ks.
Proof.
  split; [apply dict_keys_pop_all|].
  revert d. induction ks as [|k ks IH]; simpl; intros d [Hin Hnot];
    [assumption|].
  apply IH. split; [|tauto].
  apply dict_keys_pop_iff. split; [assumption|]. intros ->. tauto.
Qed.

Lemma dict_pop_absent (d : dict) (k : string) :
  ~ In k (dict_keys d) -> dict_pop d k = d.
Proof.
  unfold dict_keys. induction d as [|[k0 v0] d IH]; simpl; intro H;
    [reflexivity|].
  destruct (String.eqb_spec k0 k) as [->|Hne]; [tauto|].
  rewrite IH by tauto. reflexivity.
Qed.

Lemma dict_pop_all_absent (ks : list string) (d : dict) :
  (forall k, In k ks -> ~ In k (dict_keys d)) -> fold_left dict_pop ks d = d.
Proof.
  induction ks as [|k ks IH]; simpl; intro H; [reflexivity|].
  rewrite dict_pop_absent by (apply H; now left).
  apply IH. intros k' Hk'. apply H. now right.
Qed.

End PyFacts.

(** ** The Longest-Explanation Selector *)

Section QaLongestMappingFacts.

Import QaLongestMapping.

Variable py_repr : value -> string.

Local Abbreviation py_str := (QaLongestMapping.py_str py_repr).
Local Abbreviation select_loop := (QaLongestMapping.select_loop py_repr).
Local Abbreviation _select_longest_index := (QaLongestMapping._select_longest_index py_repr).
Local Abbreviation stripped_text := (QaLongestMapping.stripped_text py_repr).
Local Abbreviation stripped_at := (QaLongestMapping.stripped_at py_repr).
Local Abbreviation transform := (QaLongestMapping.transform py_repr).
Local Abbreviation process_example_try := (QaLongestMapping.process_example_try py_repr).
Local Abbreviation process_example := (QaLongestMapping.process_example py_repr).
Local Abbreviation all_at_most := (QaLongestMapping.all_at_most py_repr).
Local Abbreviation earlier_shorter := (QaLongestMapping.earlier_shorter py_repr).
Local Abbreviation first_longest := (QaLongestMapping.first_longest py_repr).

(** *** [_have_matching_lengths] *)

Lemma have_matching_lengths_3 (a b c : list value) :
  _have_matching_lengths [a; b; c] = true <-> len a = len b /\ len b = len c.
Proof.
  unfold _have_matching_lengths. split.
  - intro H. apply Z.eqb_eq in H.
    destruct (nodup Z.eq_dec (map (@len value) [a; b; c])) as [|z [|z' rest]] eqn:E;
      unfold len in H; simpl in H; try lia.
    pose proof (nodup_singleton Z.eq_dec _ z E) as Hall.
    rewrite (Hall (len a)), (Hall (len b)), (Hall (len c)); simpl; auto.
  - intros [Hab Hbc].
    rewrite (nodup_all_equal Z.eq_dec _ (len a)).
    + reflexivity.
    + discriminate.
    + simpl. intros x [<-|[<-|[<-|[]]]]; congruence.
Qed.

(** *** The selection loop *)

Lemma select_loop_all_none (l : list value) (idx max_length : Z)
    (max_index : option Z) :
  Forall (fun v => v = VNone) l ->
  select_loop l idx max_length max_index = Return max_index.
Proof.
  intro H. revert idx. induction H as [|v l Hv _ IH]; intro idx; simpl.
  - reflexivity.
  - subst v. simpl. apply IH.
Qed.

Lemma select_loop_coerces (l : list value) :
  forall idx max_length max_index r,
  select_loop l idx max_length max_index = Return r ->
  forall w, In w l -> w <> VNone -> exists t, py_str w = Return t.
Proof.
  induction l as [|item rest IH]; intros idx ml mi r Hsel w Hin Hw.
  - destruct Hin.
  - simpl in Hsel. destruct (is_none item) eqn:Hnone.
    + destruct Hin as [<-|Hin].
      * apply is_none_true in Hnone. contradiction.
      * eapply IH; eauto.
    + destruct (py_str item) as [text|e] eqn:Hstr; [|discriminate].
      destruct Hin as [<-|Hin]; [eauto|].
      destruct (str_len text >? ml); eapply IH; eauto.
Qed.

Lemma select_loop_total (l : list value) :
  (forall w, In w l -> w <> VNone -> exists t, py_str w = Return t) ->
  forall idx max_length max_index,
  exists r, select_loop l idx max_length max_index = Return r.
Proof.
  induction l as [|item rest IH]; intros Hall idx ml mi; simpl.
  - eauto.
  - assert (Hrest : forall w, In w rest -> w <> VNone -> exists t, py_str w = Return t)
      by (intros; apply Hall; simpl; auto).
    destruct (is_none item) eqn:Hnone; [now apply IH|].
    destruct (Hall item) as [t Ht]; [now left | now apply is_none_false |].
    rewrite Ht. destruct (str_len t >? ml); now apply IH.
Qed.

Lemma select_loop_raises (l : list value) :
  forall idx max_length max_index e,
  select_loop l idx max_length max_index = Raise e ->
  exists w, In w l /\ w <> VNone /\ py_str w = Raise e.
Proof.
  induction l as [|item rest IH]; intros idx ml mi e Hsel; simpl in Hsel.
  - discriminate.
  - destruct (is_none item) eqn:Hnone.
    + destruct (IH _ _ _ _ Hsel) as (w & Hin & Hw & Hstr).
      exists w. simpl. auto.
    + destruct (py_str item) as [text|e'] eqn:Hstr.
      * destruct (str_len text >? ml);
          destruct (IH _ _ _ _ Hsel) as (w & Hin & Hw & Hw');
          exists w; simpl; auto.
      * inversion Hsel; subst. exists item. apply is_none_false in Hnone.
        simpl. auto.
Qed.

(** The invariant of the loop: it either keeps the running maximum, which
    then bounds every entry, or moves it to the first entry that is
    strictly longer than everything before it and at least as long as
    everything after it. *)
Lemma select_loop_spec (l : list value) :
  forall idx max_length max_index r,
  select_loop l idx max_length max_index = Return r ->
  (r = max_index /\ all_at_most l max_length) \/
  (exists k v s,
      r = Some (idx + Z.of_nat k) /\ nth_error l k = Some v /\ v <> VNone /\
      py_str v = Return s /\ max_length < str_len s /\
      all_at_most l (str_len s) /\ earlier_shorter l k (str_len s)).
Proof.
  induction l as [|item rest IH]; intros idx ml mi r Hsel; simpl in Hsel.
  - left. split; [congruence|]. intros [|j] w t Hnth; discriminate.
  - destruct (is_none item) eqn:Hnone.
    + apply is_none_true in Hnone. subst item.
      destruct (IH _ _ _ _ Hsel) as [[Hr Hall]|(k & v & s & Hr & Hk & Hv & Hs & Hlt & Hall & Hbefore)].
      * left. split; [assumption|].
        intros [|j] w t Hnth Hw Hstr; simpl in Hnth.
        -- inversion Hnth; subst. contradiction.
        -- eapply Hall; eauto.
      * right. exists (S k), v, s. repeat split; try assumption.
        -- rewrite Hr. f_equal. lia.
        -- intros [|j] w t Hnth Hw Hstr; simpl in Hnth.
           ++ inversion Hnth; subst. contradiction.
           ++ eapply Hall; eauto.
        -- intros [|j] w t Hj Hnth Hw Hstr; simpl in Hnth.
           ++ inversion Hnth; subst. contradiction.
           ++ eapply Hbefore; eauto. lia.
    + apply is_none_false in Hnone.
      destruct (py_str item) as [text|e] eqn:Htext; [|discriminate].
      destruct (str_len text >? ml) eqn:Hcmp.
      * assert (Hgt : ml < str_len text) by lia.
        destruct (IH _ _ _ _ Hsel) as [[Hr Hall]|(k & v & s & Hr & Hk & Hv & Hs & Hlt & Hall & Hbefore)].
        -- right. exists 0%nat, item, text. repeat split; try assumption.
           ++ rewrite Hr. f_equal. lia.
           ++ intros [|j] w t Hnth Hw Hstr; simpl in Hnth.
              ** inversion Hnth; subst. rewrite Htext in Hstr.
                 inversion Hstr; subst. lia.
              ** eapply Hall; eauto.
           ++ intros j w t Hj. lia.
        -- right. exists (S k), v, s. repeat split; try assumption.
           ++ rewrite Hr. f_equal. lia.
           ++ lia.
           ++ intros [|j] w t Hnth Hw Hstr; simpl in Hnth.
              ** inversion Hnth; subst. rewrite Htext in Hstr.
                 inversion Hstr; subst. lia.
              ** eapply Hall; eauto.
           ++ intros [|j] w t Hj Hnth Hw Hstr; simpl in Hnth.
              ** inversion Hnth; subst. rewrite Htext in Hstr.
                 inversion Hstr; subst. lia.
              ** eapply Hbefore; eauto. lia.
      * assert (Hle : str_len text <= ml) by lia.
        destruct (IH _ _ _ _ Hsel) as [[Hr Hall]|(k & v & s & Hr & Hk & Hv & Hs & Hlt & Hall & Hbefore)].
        -- left. split; [assumption|].
           intros [|j] w t Hnth Hw Hstr; simpl in Hnth.
           ++ inversion Hnth; subst. rewrite Htext in Hstr.
              inversion Hstr; subst. lia.
           ++ eapply Hall; eauto.
        -- right. exists (S k), v, s. repeat split; try assumption.
           ++ rewrite Hr. f_equal. lia.
           ++ intros [|j] w t Hnth Hw Hstr; simpl in Hnth.
              ** inversion Hnth; subst. rewrite Htext in Hstr.
                 inversion Hstr; subst. lia.
              ** eapply Hall; eauto.
           ++ intros [|j] w t Hj Hnth Hw Hstr; simpl in Hnth.
              ** inversion Hnth; subst. rewrite Htext in Hstr.
                 inversion Hstr; subst. lia.
              ** eapply Hbefore; eauto. lia.
Qed.

(** *** Logging does not decide the result *)

Lemma get_source_container_outcome (self : Processor) (example : dict)
    (lg : list log_record) :
  _get_source_container self example lg =
  (Return (source_container self example),
   log_of (_get_source_container self example) lg).
Proof.
  unfold log_of, _get_source_container, source_container.
  destruct (dict_get example (qa_pairs_field self)); reflexivity.
Qed.

Lemma stripped_at_outcome (seq : list value) (index : Z) (lg : list log_record) :
  stripped_at seq index lg = (stripped_text seq index, lg).
Proof.
  unfold QaLongestMapping.stripped_at, QaLongestMapping.stripped_text,
    bind, lift, ret, and_then.
  destruct (list_getitem seq index) as [item|e]; [|reflexivity].
  destruct (py_str item); reflexivity.
Qed.

Lemma process_example_try_outcome (self : Processor) (example : dict)
    (lg : list log_record) :
  outcome_of (process_example_try self example) lg = transform self example.
Proof.
  unfold outcome_of, QaLongestMapping.process_example_try,
    QaLongestMapping.transform, bind.
  rewrite get_source_container_outcome.
  fold (questions_of self example) (explanations_of self example)
    (answers_of self example).
  destruct (negb (truthy (VList (questions_of self example)))
            || negb (truthy (VList (explanations_of self example)))
            || negb (truthy (VList (answers_of self example)))); [reflexivity|].
  destruct (negb (_have_matching_lengths
              [questions_of self example; explanations_of self example;
               answers_of self example])); [reflexivity|].
  unfold lift, and_then.
  destruct (_select_longest_index (explanations_of self example)) as [[index|]|e];
    [|reflexivity|reflexivity].
  rewrite stripped_at_outcome.
  destruct (stripped_text (questions_of self example) index) as [q|e]; [|reflexivity].
  rewrite stripped_at_outcome.
  destruct (stripped_text (explanations_of self example) index) as [x|e]; [|reflexivity].
  rewrite stripped_at_outcome.
  destruct (stripped_text (answers_of self example) index) as [a|e]; [|reflexivity].
  destruct (negb (truthy (VStr q)) || negb (truthy (VStr x)) || negb (truthy (VStr a)));
    reflexivity.
Qed.

(** The handler turns every exception of the body into a returned value. *)
Lemma process_example_outcome (self : Processor) (example : dict)
    (lg : list log_record) :
  outcome_of (process_example self example) lg =
  match transform self example with
  | Return r => Return r
  | Raise _ => Return (if keep_unmapped self then Some example else None)
  end.
Proof.
  rewrite <- (process_example_try_outcome self example lg).
  unfold outcome_of, QaLongestMapping.process_example, try_except.
  destruct (process_example_try self example lg) as [[r|e] lg']; reflexivity.
Qed.

(** *** What a returned record was built from *)

Lemma truthy_list_false (l : list value) : negb (truthy (VList l)) = true <-> l = [].
Proof. destruct l; simpl; split; intro H; congruence. Qed.

Lemma truthy_str_true (t : string) : negb (truthy (VStr t)) = false -> t <> "".
Proof.
  simpl. rewrite negb_involutive. intros H ->. discriminate.
Qed.

Lemma stripped_text_inv (seq : list value) (index : Z) (t : string) :
  stripped_text seq index = Return t ->
  exists item text,
    list_getitem seq index = Return item /\ py_str item = Return text /\
    t = strip text.
Proof.
  unfold QaLongestMapping.stripped_text, and_then.
  destruct (list_getitem seq index) as [item|e]; [|discriminate].
  destruct (py_str item) as [text|e] eqn:E; [|discriminate].
  intro H. inversion H. eauto.
Qed.

Lemma transform_some (self : Processor) (example : dict) (out : dict) :
  transform self example = Return (Some out) ->
  exists i q x a,
    (questions_of self example <> [] /\ explanations_of self example <> [] /\
     answers_of self example <> []) /\
    _have_matching_lengths
      [questions_of self example; explanations_of self example;
       answers_of self example] = true /\
    _select_longest_index (explanations_of self example) = Return (Some i) /\
    stripped_text (questions_of self example) i = Return q /\
    stripped_text (explanations_of self example) i = Return x /\
    stripped_text (answers_of self example) i = Return a /\
    (q <> "" /\ x <> "" /\ a <> "") /\
    out = build_result self example q x a.
Proof.
  unfold QaLongestMapping.transform. intro H.
  destruct (negb (truthy (VList (questions_of self example)))) eqn:Hq;
    [discriminate H|].
  destruct (negb (truthy (VList (explanations_of self example)))) eqn:Hx;
    [discriminate H|].
  destruct (negb (truthy (VList (answers_of self example)))) eqn:Ha;
    [discriminate H|].
  cbv beta iota delta [orb] in H.
  destruct (_have_matching_lengths _) eqn:Hlen; [|discriminate H].
  change (negb true) with false in H. cbv iota in H. unfold and_then in H.
  destruct (_select_longest_index (explanations_of self example))
    as [[i|]|e] eqn:Hsel; try discriminate H.
  destruct (stripped_text (questions_of self example) i) as [q|e] eqn:Hsq;
    [|discriminate H].
  destruct (stripped_text (explanations_of self example) i) as [x|e] eqn:Hsx;
    [|discriminate H].
  destruct (stripped_text (answers_of self example) i) as [a|e] eqn:Hsa;
    [|discriminate H].
  destruct (negb (truthy (VStr q))) eqn:Hq'; [discriminate H|].
  destruct (negb (truthy (VStr x))) eqn:Hx'; [discriminate H|].
  destruct (negb (truthy (VStr a))) eqn:Ha'; [discriminate H|].
  cbv beta iota delta [orb] in H. inversion H; subst out.
  exists i, q, x, a.
  repeat split; auto using truthy_str_true;
    intro E; rewrite <- truthy_list_false in E; congruence.
Qed.

Lemma build_result_keys_without_copy (self : Processor) (example : dict)
    (q x a k : string) :
  keep_unmapped self = false ->
  In k (dict_keys (build_result self example q x a)) ->
  k = problem_field self \/ k = solution_field self.
Proof.
  intros Hkeep. unfold build_result. rewrite Hkeep.
  assert (Hbase : forall k,
            In k (dict_keys
                    (dict_setitem
                       (dict_setitem [] (problem_field self) (VStr q))
                       (solution_field self)
                       (VStr (_format_solution x a)))) ->
            k = problem_field self \/ k = solution_field self).
  { intros k' Hin. apply dict_keys_setitem in Hin. destruct Hin as [->|Hin]; auto.
    apply dict_keys_setitem in Hin. destruct Hin as [->|[]]. auto. }
  destruct (remove_source_fields self); [|apply Hbase].
  destruct (negb (String.eqb (qa_pairs_field self) "")).
  - intro Hin. apply dict_keys_pop in Hin. apply Hbase, Hin.
  - intro Hin. apply dict_keys_pop_all in Hin. apply Hbase, Hin.
Qed.

Lemma build_result_get (self : Processor) (example : dict)
    (q x a k : string) :
  (remove_source_fields self = true -> ~ In k (removed_fields self)) ->
  dict_get (build_result self example q x a) k =
  dict_get
    (dict_setitem
       (dict_setitem (if keep_unmapped self then dict_copy example else [])
          (problem_field self) (VStr q))
       (solution_field self) (VStr (_format_solution x a))) k.
Proof.
  intro Hkept. unfold build_result, removed_fields in *.
  destruct (remove_source_fields self); [|reflexivity].
  specialize (Hkept eq_refl).
  destruct (negb (String.eqb (qa_pairs_field self) "")).
  - apply dict_get_pop_other. intro E. apply Hkept. left. exact E.
  - apply dict_get_pop_all. intro Hin. apply Hkept.
    exact (proj1 (nodup_In string_dec _ _) Hin).
Qed.

Lemma select_longest_index_some (l : list value) (i : Z) :
  _select_longest_index l = Return (Some i) -> first_longest l i.
Proof.
  intro Hsel. unfold QaLongestMapping._select_longest_index in Hsel.
  destruct (select_loop_spec l _ _ _ _ Hsel)
    as [[Hr _]|(k & v & s & Hr & Hk & Hv & Hs & _ & Hall & Hbefore)];
    [discriminate|].
  inversion Hr; subst i. simpl.
  assert (Hlt : (k < List.length l)%nat)
    by (apply nth_error_Some; congruence).
  unfold QaLongestMapping.first_longest, len. rewrite Nat2Z.id.
  split; [lia|]. exists v, s. auto.
Qed.

Lemma select_longest_index_none (l : list value) :
  _select_longest_index l = Return None -> Forall (fun v => v = VNone) l.
Proof.
  intro Hsel. unfold QaLongestMapping._select_longest_index in Hsel.
  apply Forall_forall. intros w Hin.
  destruct (is_none w) eqn:Hnone; [now apply is_none_true|].
  apply is_none_false in Hnone. exfalso.
  destruct (select_loop_coerces l _ _ _ _ Hsel w Hin Hnone) as [t Ht].
  destruct (In_nth_error l w Hin) as [j Hj].
  destruct (select_loop_spec l _ _ _ _ Hsel)
    as [[_ Hall]|(k & v & s & Hr & _)]; [|discriminate].
  specialize (Hall j w t Hj Hnone Ht). unfold str_len in Hall. lia.
Qed.

Lemma all_none_is_dropped (self : Processor) (example : dict) :
  Forall (fun v => v = VNone) (explanations_of self example) ->
  transform self example = Return None.
Proof.
  intro Hall. unfold QaLongestMapping.transform.
  destruct (_ || _ || _); [reflexivity|].
  destruct (negb _); [reflexivity|].
  unfold QaLongestMapping._select_longest_index.
  now rewrite select_loop_all_none.
Qed.

(** *** The properties the specification states *)

(** C2.  Selection returns the smallest index of a longest entry that is
    not null: the entry there is at least as long (after [str]) as every
    other one and strictly longer than each one before it, null entries
    being skipped with the indices unchanged.  It returns nothing exactly
    when every entry is null, and then the record is dropped; it raises
    only when the coercion of an entry does.  On ['a','bbb','cc'] and on
    [None,'ab'] it returns index 1. *)
Theorem select_longest_index_first_maximum :
  (forall l,
      match _select_longest_index l with
      | Return (Some i) => first_longest l i
      | Return None => Forall (fun v => v = VNone) l
      | Raise e => exists w, In w l /\ w <> VNone /\ py_str w = Raise e
      end) /\
  (forall l,
      (forall w, In w l -> w <> VNone -> exists t, py_str w = Return t) ->
      exists r, _select_longest_index l = Return r) /\
  (forall l,
      Forall (fun v => v = VNone) l -> _select_longest_index l = Return None) /\
  (forall self example lg,
      Forall (fun v => v = VNone) (explanations_of self example) ->
      outcome_of (process_example self example) lg = Return None) /\
  _select_longest_index [VStr "a"; VStr "bbb"; VStr "cc"] = Return (Some 1) /\
  _select_longest_index [VNone; VStr "ab"] = Return (Some 1).
Proof.
  repeat split.
  - intro l.
    destruct (_select_longest_index l) as [[i|]|e] eqn:Hsel.
    + now apply select_longest_index_some.
    + now apply select_longest_index_none.
    + eapply select_loop_raises. exact Hsel.
  - intros l Hall. now apply select_loop_total.
  - intros l Hall. now apply select_loop_all_none.
  - intros self example lg Hall.
    rewrite process_example_outcome, all_none_is_dropped by assumption.
    reflexivity.
Qed.

(** C10.  An index that selection returns lies within the explanations,
    and, the three sequences having one length, reading the question, the
    explanation and the answer at that index raises no [IndexError]. *)
Theorem selected_index_in_bounds (questions explanations answers : list value)
    (i : Z) :
  _select_longest_index explanations = Return (Some i) ->
  0 <= i < len explanations /\
  (_have_matching_lengths [questions; explanations; answers] = true ->
   exists q x a,
     list_getitem questions i = Return q /\
     list_getitem explanations i = Return x /\
     list_getitem answers i = Return a).
Proof.
  intro Hsel. destruct (select_longest_index_some _ _ Hsel) as [Hi _].
  split; [exact Hi|]. intro Hlen.
  apply have_matching_lengths_3 in Hlen. destruct Hlen as [Hqx Hxa].
  destruct (list_getitem_in_range questions i) as (q & Hq & _); [lia|].
  destruct (list_getitem_in_range explanations i) as (x & Hx & _); [lia|].
  destruct (list_getitem_in_range answers i) as (a & Ha & _); [lia|].
  eauto 7.
Qed.

(** C7.  A record is dropped when its qa-pairs field is absent or is not a
    mapping (the container is then empty), when one of the three coerced
    sequences is empty, or when their lengths differ.  The coercion turns
    a missing value into the empty sequence, keeps a list, and wraps any
    other value into a sequence of one. *)
Theorem invalid_container_is_dropped :
  (forall self example lg,
      (forall d, dict_get example (qa_pairs_field self) <> VDict d) ->
      source_container self example = [] /\
      outcome_of (process_example self example) lg = Return None) /\
  (forall self example lg,
      questions_of self example = [] \/ explanations_of self example = [] \/
      answers_of self example = [] ->
      outcome_of (process_example self example) lg = Return None) /\
  (forall self example lg,
      ~ (len (questions_of self example) = len (explanations_of self example) /\
         len (explanations_of self example) = len (answers_of self example)) ->
      outcome_of (process_example self example) lg = Return None) /\
  (forall (source : dict) (field : string),
      dict_find source field = None -> _as_list (dict_get source field) = []) /\
  _as_list VNone = [] /\
  (forall l, _as_list (VList l) = l) /\
  (forall v, v <> VNone -> (forall l, v <> VList l) -> _as_list v = [v]).
Proof.
  assert (Hempty : forall self example lg,
            questions_of self example = [] \/ explanations_of self example = [] \/
            answers_of self example = [] ->
            outcome_of (process_example self example) lg = Return None).
  { intros self example lg H. rewrite process_example_outcome.
    unfold QaLongestMapping.transform.
    destruct H as [-> | [-> | ->]]; simpl;
      repeat (rewrite ?orb_true_r; simpl); reflexivity. }
  repeat split.
  - unfold source_container.
    destruct (dict_get example (qa_pairs_field self)) eqn:E; try reflexivity.
    now destruct (H d).
  - apply Hempty. left. unfold questions_of, source_container.
    destruct (dict_get example (qa_pairs_field self)) eqn:E; try reflexivity.
    now destruct (H d).
  - exact Hempty.
  - intros self example lg Hlen. rewrite process_example_outcome.
    unfold QaLongestMapping.transform.
    destruct (_ || _ || _); [reflexivity|].
    destruct (_have_matching_lengths _) eqn:E; [|reflexivity].
    apply have_matching_lengths_3 in E. contradiction.
  - intros source field H. unfold dict_get. now rewrite H.
  - intros v Hnone Hlist. destruct v; try reflexivity.
    + contradiction.
    + now destruct (Hlist l).
Qed.

(** The fields of the record that is built when nothing is copied: the two
    output fields, less those that lines 75-80 delete. *)
Lemma build_result_keys_exactly (self : Processor) (example : dict)
    (q x a k : string) :
  keep_unmapped self = false ->
  remove_source_fields self = true ->
  In k (dict_keys (build_result self example q x a)) <->
  (k = problem_field self \/ k = solution_field self) /\
  ~ In k (removed_fields self).
Proof.
  intros Hkeep Hremove. unfold build_result, removed_fields.
  rewrite Hkeep, Hremove.
  assert (Hbase : forall k,
            In k (dict_keys
                    (dict_setitem
                       (dict_setitem [] (problem_field self) (VStr q))
                       (solution_field self)
                       (VStr (_format_solution x a)))) <->
            k = problem_field self \/ k = solution_field self).
  { intro k0. rewrite !dict_keys_setitem_iff. simpl. tauto. }
  destruct (negb (String.eqb (qa_pairs_field self) "")).
  - rewrite dict_keys_pop_iff, Hbase. simpl. split.
    + intros [H Hne]. split; [exact H|]. intros [E|[]]. congruence.
    + intros [H Hnot]. split; [exact H|]. intros ->. apply Hnot. now left.
  - rewrite dict_keys_pop_all_iff, Hbase. split.
    + intros [H Hnot]. split; [exact H|]. intro Hin. apply Hnot.
      now apply (nodup_In string_dec).
    + intros [H Hnot]. split; [exact H|]. intro Hin. apply Hnot.
      exact (proj1 (nodup_In string_dec _ _) Hin).
Qed.

(** With two different output names, neither of them deleted, the record
    that is built when nothing is copied is the two new fields. *)
Lemma build_result_two_fields (self : Processor) (example : dict)
    (q x a : string) :
  keep_unmapped self = false ->
  problem_field self <> solution_field self ->
  ~ In (problem_field self) (removed_fields self) ->
  ~ In (solution_field self) (removed_fields self) ->
  build_result self example q x a =
  [(problem_field self, VStr q);
   (solution_field self, VStr (_format_solution x a))].
Proof.
  intros Hkeep Hne Hp Hs. unfold build_result, removed_fields in *.
  rewrite Hkeep. cbn [dict_setitem].
  destruct (String.eqb_spec (problem_field self) (solution_field self));
    [contradiction|].
  assert (Hkeys : forall k,
            In k (dict_keys
                    [(problem_field self, VStr q);
                     (solution_field self, VStr (_format_solution x a))]) ->
            k = problem_field self \/ k = solution_field self).
  { intros k [<-|[<-|[]]]; auto. }
  destruct (remove_source_fields self); [|reflexivity].
  destruct (negb (String.eqb (qa_pairs_field self) "")).
  - apply dict_pop_absent. intro Hin.
    destruct (Hkeys _ Hin) as [E|E]; [apply Hp | apply Hs];
      rewrite <- E; now left.
  - apply dict_pop_all_absent. intros k Hk Hin.
    pose proof (proj1 (nodup_In string_dec _ _) Hk) as Hk'.
    destruct (Hkeys _ Hin) as [E|E]; subst k; [now apply Hp | now apply Hs].
Qed.

(** C3.  With [keep_unmapped] off and [remove_source_fields] on, a record
    that is processed successfully has no field besides the problem and the
    solution field (so none besides these and the original fields that were
    never part of the qa container).  Its fields are exactly those of the
    two output fields that lines 75-80 do not delete; when the two names
    differ and neither is deleted, the record is the two new fields, the
    problem and then the solution, holding the stripped question and the
    formatted solution of the selected index. *)
Theorem only_problem_and_solution (self : Processor) (example out : dict)
    (lg : list log_record) :
  keep_unmapped self = false ->
  remove_source_fields self = true ->
  outcome_of (process_example self example) lg = Return (Some out) ->
  (forall k, In k (dict_keys out) ->
    (k = problem_field self \/ k = solution_field self) /\
    (k = problem_field self \/ k = solution_field self \/
     (In k (dict_keys example) /\ k <> qa_pairs_field self /\
      ~ In k (dict_keys (source_container self example))))) /\
  (forall k, In k (dict_keys out) <->
    (k = problem_field self \/ k = solution_field self) /\
    ~ In k (removed_fields self)) /\
  (problem_field self <> solution_field self ->
   ~ In (problem_field self) (removed_fields self) ->
   ~ In (solution_field self) (removed_fields self) ->
   exists i q x a,
     _select_longest_index (explanations_of self example) = Return (Some i) /\
     stripped_text (questions_of self example) i = Return q /\
     stripped_text (explanations_of self example) i = Return x /\
     stripped_text (answers_of self example) i = Return a /\
     out = [(problem_field self, VStr q);
            (solution_field self, VStr (_format_solution x a))] /\
     dict_keys out = [problem_field self; solution_field self]).
Proof.
  intros Hkeep Hremove Hout.
  rewrite process_example_outcome, Hkeep in Hout.
  destruct (transform self example) as [r|e] eqn:Ht; [|discriminate].
  inversion Hout; subst r.
  destruct (transform_some _ _ _ Ht)
    as (i & q & x & a & _ & _ & Hsel & Hq & Hx & Ha & _ & ->).
  split; [|split].
  - intros k Hin.
    pose proof (build_result_keys_without_copy self example q x a k Hkeep Hin).
    tauto.
  - intro k. now apply build_result_keys_exactly.
  - intros Hne Hp Hs. exists i, q, x, a.
    rewrite (build_result_two_fields self example q x a Hkeep Hne Hp Hs).
    repeat split; assumption || reflexivity.
Qed.

(** C6.  [process_example] lets no exception out: whatever the body of its
    [try] raises, it returns the original record when [keep_unmapped] is
    set and nothing (the record is dropped) when it is not, after logging
    the exception. *)
Theorem exceptions_are_contained (self : Processor) (example : dict)
    (lg : list log_record) :
  (exists r, outcome_of (process_example self example) lg = Return r) /\
  (forall e,
      outcome_of (process_example_try self example) lg = Raise e ->
      outcome_of (process_example self example) lg =
        Return (if keep_unmapped self then Some example else None) /\
      In (mkLog WARNING "Error in longest explanation mapping: %s" [AExn e])
         (log_of (process_example self example) lg)).
Proof.
  split.
  - rewrite process_example_outcome.
    destruct (transform self example); eauto.
  - intros e Hraise. split.
    + rewrite process_example_outcome.
      rewrite process_example_try_outcome in Hraise. now rewrite Hraise.
    + unfold outcome_of in Hraise.
      unfold log_of, QaLongestMapping.process_example, try_except.
      destruct (process_example_try self example lg) as [[r|e'] lg'];
        simpl in Hraise; [discriminate|].
      inversion Hraise; subst e'.
      unfold process_example_except, bind, log, ret. simpl.
      apply in_or_app. left. apply in_or_app. right. now left.
Qed.

(** C1, as amended.  When the body of [process_example] runs to its end and
    returns a record, the three sequences were non-empty and of one length;
    the solution field holds the stripped explanation at the selected
    index, two newlines, [The answer is \boxed{], the stripped answer and
    [}.], unless step 8 deletes the solution field; the problem field holds
    the stripped question at the selected index, unless the two output
    names are one name or step 8 deletes the problem field. *)
Theorem solution_is_template (self : Processor) (example out : dict)
    (lg : list log_record) :
  outcome_of (process_example_try self example) lg = Return (Some out) ->
  exists i q x a qt xt at',
    (questions_of self example <> [] /\ explanations_of self example <> [] /\
     answers_of self example <> [] /\
     len (questions_of self example) = len (explanations_of self example) /\
     len (explanations_of self example) = len (answers_of self example)) /\
    _select_longest_index (explanations_of self example) = Return (Some i) /\
    (list_getitem (questions_of self example) i = Return q /\
     list_getitem (explanations_of self example) i = Return x /\
     list_getitem (answers_of self example) i = Return a) /\
    (py_str q = Return qt /\ py_str x = Return xt /\ py_str a = Return at') /\
    ((remove_source_fields self = true ->
      ~ In (solution_field self) (removed_fields self)) ->
     dict_get out (solution_field self) =
       VStr (strip xt ++ newline ++ newline ++ "The answer is \boxed{"
             ++ strip at' ++ "}.")) /\
    (problem_field self <> solution_field self ->
     (remove_source_fields self = true ->
      ~ In (problem_field self) (removed_fields self)) ->
     dict_get out (problem_field self) = VStr (strip qt)) /\
    outcome_of (process_example self example) lg = Return (Some out).
Proof.
  intros Hout.
  pose proof Hout as Ht. rewrite process_example_try_outcome in Ht.
  destruct (transform_some _ _ _ Ht)
    as (i & sq & sx & sa & (Hq & Hx & Ha) & Hlen & Hsel & Hsq & Hsx & Hsa & _ & ->).
  apply have_matching_lengths_3 in Hlen.
  apply stripped_text_inv in Hsq, Hsx, Hsa.
  destruct Hsq as (q & qt & Hgq & Hpq & ->).
  destruct Hsx as (x & xt & Hgx & Hpx & ->).
  destruct Hsa as (a & at' & Hga & Hpa & ->).
  exists i, q, x, a, qt, xt, at'.
  split; [tauto|]. split; [assumption|]. split; [auto|]. split; [auto|].
  split; [|split].
  - intro Hkept. rewrite build_result_get by exact Hkept.
    apply dict_get_setitem_same.
  - intros Hne Hkept. rewrite build_result_get by exact Hkept.
    rewrite dict_get_setitem_other by congruence.
    apply dict_get_setitem_same.
  - rewrite process_example_outcome, Ht. reflexivity.
Qed.

End QaLongestMappingFacts.

(** *** Concrete runs *)

Lemma select_longest_index_first_maximum_witness :
  (exists r,
      QaLongestMapping._select_longest_index Samples.repr_brief
        [VStr "a"; VNone; VStr "bbb"; VStr "ccc"] = Return r) /\
  outcome_of
    (QaLongestMapping.process_example Samples.repr_brief Samples.default_selector
       [("qa_pairs",
         VDict [("question", VStr "q"); ("explanation", VList [VNone]);
                ("answer", VStr "a")])]) [] = Return None.
Proof.
  split.
  - apply (proj1 (proj2 (select_longest_index_first_maximum Samples.repr_brief))).
    intros w [<-|[<-|[<-|[<-|[]]]]] H; simpl; eauto.
  - apply (proj1 (proj2 (proj2 (proj2
             (select_longest_index_first_maximum Samples.repr_brief))))).
    repeat constructor.
Defined.

Lemma selected_index_in_bounds_witness :
  0 <= 1 < len [VStr "short"; VStr " the longer one "] /\
  (QaLongestMapping._have_matching_lengths
     [[VStr "q1"; VStr " q2 "]; [VStr "short"; VStr " the longer one "];
      [VStr "a1"; VStr "a2 "]] = true ->
   exists q x a,
     list_getitem [VStr "q1"; VStr " q2 "] 1 = Return q /\
     list_getitem [VStr "short"; VStr " the longer one "] 1 = Return x /\
     list_getitem [VStr "a1"; VStr "a2 "] 1 = Return a).
Proof.
  apply (selected_index_in_bounds Samples.repr_brief). reflexivity.
Defined.

Lemma invalid_container_is_dropped_witness :
  QaLongestMapping.source_container Samples.default_selector Samples.no_pairs = [] /\
  outcome_of
    (QaLongestMapping.process_example Samples.repr_brief Samples.default_selector
       Samples.no_pairs) [] = Return None.
Proof.
  apply (proj1 (invalid_container_is_dropped Samples.repr_brief)).
  intros d. discriminate.
Defined.

Lemma only_problem_and_solution_witness :
  exists i q x a,
    QaLongestMapping._select_longest_index Samples.repr_brief
      (QaLongestMapping.explanations_of Samples.only_new_fields
         Samples.two_pairs) = Return (Some i) /\
    QaLongestMapping.stripped_text Samples.repr_brief
      (QaLongestMapping.questions_of Samples.only_new_fields Samples.two_pairs)
      i = Return q /\
    QaLongestMapping.stripped_text Samples.repr_brief
      (QaLongestMapping.explanations_of Samples.only_new_fields
         Samples.two_pairs) i = Return x /\
    QaLongestMapping.stripped_text Samples.repr_brief
      (QaLongestMapping.answers_of Samples.only_new_fields Samples.two_pairs)
      i = Return a /\
    [("problem", VStr "q2");
     ("solution",
      VStr ("the longer one" ++ newline ++ newline
            ++ "The answer is \boxed{a2}."))] =
    [("problem", VStr q);
     ("solution", VStr (QaLongestMapping._format_solution x a))] /\
    dict_keys
      [("problem", VStr "q2");
       ("solution",
        VStr ("the longer one" ++ newline ++ newline
              ++ "The answer is \boxed{a2}."))] = ["problem"; "solution"].
Proof.
  apply (proj2 (proj2
           (only_problem_and_solution Samples.repr_brief
              Samples.only_new_fields Samples.two_pairs
              [("problem", VStr "q2");
               ("solution",
                VStr ("the longer one" ++ newline ++ newline
                      ++ "The answer is \boxed{a2}."))]
              [] eq_refl eq_refl eq_refl))).
  - discriminate.
  - intros [E|[]]. discriminate E.
  - intros [E|[]]. discriminate E.
Defined.

Lemma exceptions_are_contained_witness :
  outcome_of
    (QaLongestMapping.process_example Samples.repr_brief Samples.default_selector
       Samples.unprintable_question) [] =
  Return (Some Samples.unprintable_question) /\
  In (mkLog WARNING "Error in longest explanation mapping: %s"
        [AExn (UserError "ValueError" "no text")])
     (log_of
        (QaLongestMapping.process_example Samples.repr_brief
           Samples.default_selector Samples.unprintable_question) []).
Proof.
  apply (proj2 (exceptions_are_contained Samples.repr_brief
                  Samples.default_selector Samples.unprintable_question [])).
  reflexivity.
Defined.

Lemma solution_is_template_witness :
  dict_get
    (dict_setitem
       (dict_setitem Samples.two_pairs "problem" (VStr "q2")) "solution"
       (VStr ("the longer one" ++ newline ++ newline
              ++ "The answer is \boxed{a2}.")))
    "solution" =
  VStr ("the longer one" ++ newline ++ newline ++ "The answer is \boxed{a2}.") /\
  dict_get
    (dict_setitem
       (dict_setitem Samples.two_pairs "problem" (VStr "q2")) "solution"
       (VStr ("the longer one" ++ newline ++ newline
              ++ "The answer is \boxed{a2}.")))
    "problem" = VStr "q2" /\
  outcome_of
    (QaLongestMapping.process_example Samples.repr_brief
       Samples.default_selector Samples.two_pairs) [] =
  Return
    (Some
       (dict_setitem
          (dict_setitem Samples.two_pairs "problem" (VStr "q2")) "solution"
          (VStr ("the longer one" ++ newline ++ newline
                 ++ "The answer is \boxed{a2}.")))).
Proof.
  destruct (solution_is_template Samples.repr_brief Samples.default_selector
              Samples.two_pairs
              (dict_setitem
                 (dict_setitem Samples.two_pairs "problem" (VStr "q2"))
                 "solution"
                 (VStr ("the longer one" ++ newline ++ newline
                        ++ "The answer is \boxed{a2}.")))
              [] eq_refl)
    as (i & q & x & a & qt & xt & at' & _ & Hsel & (Hq & Hx & Ha)
        & (Hqt & Hxt & Hat) & Hsolution & Hproblem & Hrun).
  inversion Hsel; subst i.
  inversion Hq; subst q. inversion Hx; subst x. inversion Ha; subst a.
  inversion Hqt; subst qt. inversion Hxt; subst xt. inversion Hat; subst at'.
  split; [|split].
  - apply Hsolution. discriminate.
  - apply Hproblem; discriminate.
  - exact Hrun.
Defined.

(** C1 as the specification has it fails for records that are returned:
    with one name for both output fields the problem field holds the
    solution; a record whose question cannot be coerced comes back
    unchanged, with no solution; and with [remove_source_fields] set, a
    solution, or a problem, written over the container is deleted with
    it. *)
Lemma solution_is_template_counterexample :
  ((QaLongestMapping.questions_of Samples.one_output_field Samples.one_pair = [VStr "q"] /\
    QaLongestMapping.explanations_of Samples.one_output_field Samples.one_pair = [VStr "e"] /\
    QaLongestMapping.answers_of Samples.one_output_field Samples.one_pair = [VStr "a"]) /\
   exists out,
     outcome_of
       (QaLongestMapping.process_example Samples.repr_brief
          Samples.one_output_field Samples.one_pair) [] = Return (Some out) /\
     dict_get out (QaLongestMapping.problem_field Samples.one_output_field) <>
     VStr (strip "q")) /\
  ((QaLongestMapping.questions_of Samples.default_selector
      Samples.unprintable_question = [Samples.unprintable] /\
    QaLongestMapping.explanations_of Samples.default_selector
      Samples.unprintable_question = [VStr "e"] /\
    QaLongestMapping.answers_of Samples.default_selector
      Samples.unprintable_question = [VStr "a"]) /\
   exists out,
     outcome_of
       (QaLongestMapping.process_example Samples.repr_brief
          Samples.default_selector Samples.unprintable_question) [] =
     Return (Some out) /\
     dict_get out (QaLongestMapping.solution_field Samples.default_selector) <>
     VStr (strip "e" ++ newline ++ newline ++ "The answer is \boxed{"
           ++ strip "a" ++ "}.")) /\
  ((QaLongestMapping.questions_of Samples.solution_over_container
      Samples.one_pair = [VStr "q"] /\
    QaLongestMapping.explanations_of Samples.solution_over_container
      Samples.one_pair = [VStr "e"] /\
    QaLongestMapping.answers_of Samples.solution_over_container
      Samples.one_pair = [VStr "a"]) /\
   exists out,
     outcome_of
       (QaLongestMapping.process_example_try Samples.repr_brief
          Samples.solution_over_container Samples.one_pair) [] =
     Return (Some out) /\
     outcome_of
       (QaLongestMapping.process_example Samples.repr_brief
          Samples.solution_over_container Samples.one_pair) [] =
     Return (Some out) /\
     QaLongestMapping.problem_field Samples.solution_over_container <>
     QaLongestMapping.solution_field Samples.solution_over_container /\
     dict_contains out
       (QaLongestMapping.solution_field Samples.solution_over_container) =
     false /\
     dict_get out (QaLongestMapping.solution_field Samples.solution_over_container) <>
     VStr (strip "e" ++ newline ++ newline ++ "The answer is \boxed{"
           ++ strip "a" ++ "}.")) /\
  ((QaLongestMapping.questions_of Samples.problem_over_container
      Samples.one_pair = [VStr "q"] /\
    QaLongestMapping.explanations_of Samples.problem_over_container
      Samples.one_pair = [VStr "e"] /\
    QaLongestMapping.answers_of Samples.problem_over_container
      Samples.one_pair = [VStr "a"]) /\
   exists out,
     outcome_of
       (QaLongestMapping.process_example_try Samples.repr_brief
          Samples.problem_over_container Samples.one_pair) [] =
     Return (Some out) /\
     outcome_of
       (QaLongestMapping.process_example Samples.repr_brief
          Samples.problem_over_container Samples.one_pair) [] =
     Return (Some out) /\
     QaLongestMapping.problem_field Samples.problem_over_container <>
     QaLongestMapping.solution_field Samples.problem_over_container /\
     dict_contains out
       (QaLongestMapping.problem_field Samples.problem_over_container) =
     false /\
     dict_get out (QaLongestMapping.problem_field Samples.problem_over_container) <>
     VStr (strip "q")).
Proof.
  split; [|split; [|split]].
  - split; [repeat split|]. eexists. split; [reflexivity|].
    vm_compute. discriminate.
  - split; [repeat split|]. eexists. split; [reflexivity|].
    vm_compute. discriminate.
  - split; [repeat split|]. eexists. split; [reflexivity|].
    split; [reflexivity|]. split; [discriminate|]. split; [reflexivity|].
    vm_compute. discriminate.
  - split; [repeat split|]. eexists. split; [reflexivity|].
    split; [reflexivity|]. split; [discriminate|]. split; [reflexivity|].
    vm_compute. discriminate.
Qed.

(** ** The Image Normalizer *)

Section ImageFormatConverterFacts.

Import ImageFormatConverter.

Variable rt : Runtime.
Variable b64decode : string -> lib_result bytes.
Variable pil_open : bytes -> lib_result image.
Variable pil_open_path : value -> lib_result image.
Variable pil_save_png : image -> lib_result bytes.

Local Abbreviation __init__ := (ImageFormatConverter.__init__ rt).
Local Abbreviation _convert_to_pil :=
  (ImageFormatConverter._convert_to_pil rt b64decode pil_open pil_open_path).
Local Abbreviation convert_field_to_bytes :=
  (ImageFormatConverter.convert_field_to_bytes rt b64decode pil_save_png).
Local Abbreviation _convert_to_bytes :=
  (ImageFormatConverter._convert_to_bytes rt b64decode pil_save_png).
Local Abbreviation process_example :=
  (ImageFormatConverter.process_example rt b64decode pil_open pil_open_path
     pil_save_png).
Local Abbreviation field_step := (ImageFormatConverter.field_step rt).
Local Abbreviation decode_fails :=
  (ImageFormatConverter.decode_fails b64decode pil_open).

Ltac run_monad :=
  unfold outcome_of, log_of, try_except, bind, call, PILImage, log, ret, raise;
  cbn beta iota.

(** Destruct the innermost scrutinee the goal still matches on. *)
Ltac case_step :=
  match goal with
  | |- context [match ?x with _ => _ end] =>
      lazymatch x with
      | context [match _ with _ => _ end] => fail
      | _ => destruct x eqn:?
      end
  end.

Ltac solve_extends :=
  unfold extends;
  first [ exists []; now rewrite app_nil_r
        | eexists; reflexivity
        | eexists; rewrite <- app_assoc; reflexivity ].

Lemma extends_refl (lg : list log_record) : extends lg lg.
Proof. solve_extends. Qed.

Lemma extends_trans (lg1 lg2 lg3 : list log_record) :
  extends lg1 lg2 -> extends lg2 lg3 -> extends lg1 lg3.
Proof.
  intros [m1 ->] [m2 ->]. exists (m1 ++ m2)%list. now rewrite app_assoc.
Qed.

Lemma extends_In (lg lg' : list log_record) (r : log_record) :
  extends lg lg' -> In r lg -> In r lg'.
Proof. intros [m ->] H. apply in_or_app. now left. Qed.

Ltac finish_step :=
  cbn [fst snd] in *;
  repeat match goal with
         | H : Return _ = Return _ |- _ => inversion H; clear H; subst
         | H : Raise _ = Raise _ |- _ => inversion H; clear H; subst
         | H : HAS_PIL rt = false |- _ => rewrite H
         end;
  try discriminate;
  try solve [ solve_extends
            | left; reflexivity
            | right; eexists; reflexivity
            | split;
              [ match goal with
                | |- ?b = false => destruct b; [discriminate | reflexivity]
                end
              | intros; first [discriminate | eauto] ] ].

Lemma convert_to_pil_step (self : Processor) (example : dict) (field : string)
    (lg : list log_record) :
  field_step self example field lg (_convert_to_pil self example field lg).
Proof.
  unfold ImageFormatConverter.field_step, ImageFormatConverter._convert_to_pil.
  run_monad.
  repeat (case_step; cbn beta iota; try discriminate);
    split; finish_step.
Qed.

Lemma convert_field_to_bytes_step (self : Processor) (example : dict)
    (field : string) (lg : list log_record) :
  field_step self example field lg (convert_field_to_bytes self example field lg).
Proof.
  unfold ImageFormatConverter.field_step,
    ImageFormatConverter.convert_field_to_bytes.
  run_monad.
  repeat (case_step; cbn beta iota; try discriminate);
    split; finish_step.
Qed.

(** *** The loop over the image fields *)

Lemma for_fields_cons (body : dict -> string -> M dict) (f : string)
    (rest : list string) (example : dict) (lg : list log_record) :
  for_fields body (f :: rest) example lg =
  match body example f lg with
  | (Return example', lg') => for_fields body rest example' lg'
  | (Raise e, lg') => (Raise e, lg')
  end.
Proof. reflexivity. Qed.

(** A field whose value [v] the conversion cannot change: converting it
    logs [w] and either returns the record as it is ([ok]) or raises, and
    the conversions of the other fields do not touch it.  Then the loop
    ends with the field still at [v] and [w] in the log, or raises, which
    it does only when [skip_on_error] is off. *)
Lemma for_fields_keeps (body : dict -> string -> M dict) (self : Processor)
    (field : string) (v : value) (w : log_record) (ok : bool) (e0 : exn) :
  (forall example f lg, field_step self example f lg (body example f lg)) ->
  (forall example lg,
      dict_find example field = Some v ->
      body example field lg =
      (if ok then Return example else Raise e0, (lg ++ [w])%list)) ->
  forall fields example lg,
    dict_find example field = Some v ->
    extends lg (log_of (for_fields body fields example) lg) /\
    match outcome_of (for_fields body fields example) lg with
    | Return example' =>
        dict_find example' field = Some v /\
        (In field fields ->
         ok = true /\ In w (log_of (for_fields body fields example) lg))
    | Raise e => skip_on_error self = false
    end.
Proof.
  intros Hstep Hexact. unfold outcome_of, log_of.
  induction fields as [|f rest IH]; intros example lg Hv.
  - simpl. split; [apply extends_refl|]. split; [assumption|]. intros [].
  - rewrite for_fields_cons.
    destruct (String.eqb_spec f field) as [->|Hne].
    + pose proof (Hstep example field lg) as [_ Hraise].
      rewrite (Hexact example lg Hv) in *. destruct ok; simpl in Hraise.
      * destruct (IH example (lg ++ [w])%list Hv) as [Hext Hres].
        assert (Hlg : extends lg (lg ++ [w])%list) by (eexists; reflexivity).
        split; [eapply extends_trans; eassumption|].
        destruct (fst (for_fields body rest example (lg ++ [w])%list));
          [|assumption].
        destruct Hres as [Hv' _]. split; [assumption|]. intros _.
        split; [reflexivity|]. eapply extends_In; [exact Hext|].
        apply in_or_app. right. now left.
      * simpl. split; [eexists; reflexivity | tauto].
    + destruct (Hstep example f lg) as [Hext Hres].
      destruct (body example f lg) as [[example'|e] lg']; simpl in Hext, Hres.
      * assert (Hv' : dict_find example' field = Some v).
        { destruct Hres as [->|[v' ->]]; [assumption|].
          rewrite dict_find_setitem.
          destruct (String.eqb_spec f field); [contradiction | assumption]. }
        destruct (IH example' lg' Hv') as [Hext' Hres'].
        split; [eapply extends_trans; eassumption|].
        destruct (fst (for_fields body rest example' lg')); [|assumption].
        destruct Hres' as [Hv'' Hin]. split; [assumption|].
        intros [Heq|Hin']; [contradiction | auto].
      * simpl. split; [assumption | tauto].
Qed.

(** Without such a field: the loop extends the log and raises only when
    [skip_on_error] is off, and then no capability error. *)
Lemma for_fields_step (body : dict -> string -> M dict) (self : Processor) :
  (forall example f lg, field_step self example f lg (body example f lg)) ->
  forall fields example lg,
    extends lg (log_of (for_fields body fields example) lg) /\
    match outcome_of (for_fields body fields example) lg with
    | Return _ => True
    | Raise e =>
        skip_on_error self = false /\
        (HAS_PIL rt = true -> exists cls msg, e = UserError cls msg)
    end.
Proof.
  intros Hstep. unfold outcome_of, log_of.
  induction fields as [|f rest IH]; intros example lg.
  - simpl. split; [apply extends_refl | exact I].
  - rewrite for_fields_cons. destruct (Hstep example f lg) as [Hext Hres].
    destruct (body example f lg) as [[example'|e] lg']; simpl in Hext, Hres.
    + destruct (IH example' lg') as [Hext' Hres'].
      split; [eapply extends_trans; eassumption | assumption].
    + simpl. split; assumption.
Qed.

Lemma process_example_unfold (self : Processor) (example : dict)
    (lg : list log_record) :
  process_example self example lg =
  let r :=
    for_fields
      (if String.eqb (target_format self) "hf_image"
       then _convert_to_pil self else convert_field_to_bytes self)
      (image_fields self) example lg in
  (match fst r with
   | Return example' => Return (Some example')
   | Raise e => Raise e
   end, snd r).
Proof.
  unfold ImageFormatConverter.process_example,
    ImageFormatConverter._convert_to_bytes, bind, ret.
  destruct (String.eqb (target_format self) "hf_image"); simpl;
    match goal with
    | |- context [for_fields ?b ?fs ?ex ?l] =>
        destruct (for_fields b fs ex l) as [[?|?] ?]; reflexivity
    end.
Qed.

Lemma body_step (self : Processor) :
  forall example f lg,
    field_step self example f lg
      ((if String.eqb (target_format self) "hf_image"
        then _convert_to_pil self else convert_field_to_bytes self)
         example f lg).
Proof.
  intros example f lg. destruct (String.eqb (target_format self) "hf_image").
  - apply convert_to_pil_step.
  - apply convert_field_to_bytes_step.
Qed.

Lemma init_inv (config : Config) (self : Processor) (lg : list log_record) :
  outcome_of (__init__ config) lg = Return self ->
  HAS_PIL rt = true /\ HAS_DATASETS_IMAGE rt = true /\
  self = {| image_fields := config_get (cfg_image_fields config) ["image"];
            target_format := config_get (cfg_target_format config) "hf_image";
            skip_on_error := config_get (cfg_skip_on_error config) true |}.
Proof.
  unfold outcome_of, ImageFormatConverter.__init__, bind, log, ret, raise.
  destruct (HAS_PIL rt); simpl; [|discriminate].
  destruct (HAS_DATASETS_IMAGE rt); simpl; [|discriminate].
  intro H. inversion H. auto.
Qed.

Lemma process_example_shape (self : Processor) (example : dict)
    (lg : list log_record) :
  match outcome_of (process_example self example) lg with
  | Return (Some _) => True
  | Return None => False
  | Raise e =>
      skip_on_error self = false /\
      (HAS_PIL rt = true -> exists cls msg, e = UserError cls msg)
  end.
Proof.
  unfold outcome_of. rewrite process_example_unfold. cbn [fst].
  pose proof (for_fields_step _ self (body_step self) (image_fields self)
                example lg) as [_ H].
  unfold outcome_of in H.
  destruct (fst (for_fields _ (image_fields self) example lg)); assumption.
Qed.

(** *** Values the conversions cannot decode *)

Lemma corrupt_bytes_field (self : Processor) (example d : dict)
    (field s cls msg : string) (lg : list log_record) :
  HAS_PIL rt = true ->
  dict_find example field = Some (VDict d) ->
  dict_find d "bytes" = Some (VStr s) ->
  b64decode s = Failure cls msg ->
  convert_field_to_bytes self example field lg =
  (if skip_on_error self then Return example else Raise (UserError cls msg),
   (lg ++ [bytes_warning field (UserError cls msg)])%list).
Proof.
  intros Hpil Hfield Hbytes Hfail.
  unfold ImageFormatConverter.convert_field_to_bytes, dict_contains, dict_get.
  rewrite Hfield. run_monad. rewrite Hpil, Hbytes, Hfail. cbn.
  destruct (skip_on_error self); reflexivity.
Qed.

Lemma undecodable_text_field (self : Processor) (example : dict)
    (field s : string) (lg : list log_record) :
  HAS_PIL rt = true ->
  dict_find example field = Some (VStr s) ->
  decode_fails s ->
  _convert_to_pil self example field lg =
  (Return example, (lg ++ [base64_warning field])%list).
Proof.
  intros Hpil Hfield Hfail.
  unfold ImageFormatConverter._convert_to_pil, dict_contains, dict_get.
  rewrite Hfield. run_monad. rewrite Hpil. cbn.
  unfold ImageFormatConverter.decode_fails in Hfail.
  destruct (b64decode s) as [b|cls msg]; cbn; [|reflexivity].
  destruct (pil_open b) as [im|cls msg]; cbn; [contradiction | reflexivity].
Qed.

(** *** The properties the specification states *)

(** C8.  Construction raises [ImportError] when [PIL] or [datasets.Image]
    is missing, before any record is seen; with both there it succeeds for
    every configuration, and the processor it returns never raises a
    capability error ([ImportError], or the [NameError] of a name a failed
    import left unbound) on a record. *)
Theorem construction_fails_fast :
  (forall config lg,
      HAS_PIL rt = false ->
      outcome_of (__init__ config) lg =
      Raise (ImportError "PIL is required for image format conversion")) /\
  (forall config lg,
      HAS_PIL rt = true -> HAS_DATASETS_IMAGE rt = false ->
      outcome_of (__init__ config) lg =
      Raise (ImportError "datasets.Image is required for format conversion")) /\
  (forall config lg,
      HAS_PIL rt = true -> HAS_DATASETS_IMAGE rt = true ->
      exists self, outcome_of (__init__ config) lg = Return self) /\
  (forall config lg self,
      outcome_of (__init__ config) lg = Return self ->
      forall example lg',
        capability_error (outcome_of (process_example self example) lg') = false).
Proof.
  repeat split.
  - intros config lg H. unfold outcome_of, ImageFormatConverter.__init__.
    now rewrite H.
  - intros config lg H1 H2. unfold outcome_of, ImageFormatConverter.__init__.
    now rewrite H1, H2.
  - intros config lg H1 H2. unfold outcome_of, ImageFormatConverter.__init__.
    rewrite H1, H2. cbn. eauto.
  - intros config lg self Hinit example lg'.
    apply init_inv in Hinit. destruct Hinit as (Hpil & _ & _).
    pose proof (process_example_shape self example lg') as H.
    destruct (outcome_of (process_example self example) lg') as [r|e];
      [reflexivity|].
    destruct H as [_ H]. destruct (H Hpil) as (cls & msg & ->). reflexivity.
Qed.


Lemma corrupt_bytes_run (self : Processor) (example d : dict)
    (field s cls msg : string) (lg : list log_record) :
  HAS_PIL rt = true ->
  target_format self <> "hf_image" ->
  In field (image_fields self) ->
  dict_find example field = Some (VDict d) ->
  dict_find d "bytes" = Some (VStr s) ->
  b64decode s = Failure cls msg ->
  match outcome_of (process_example self example) lg with
  | Return (Some example') =>
      skip_on_error self = true /\
      dict_find example' field = Some (VDict d) /\
      In (bytes_warning field (UserError cls msg))
         (log_of (process_example self example) lg)
  | Return None => False
  | Raise _ => skip_on_error self = false
  end.
Proof.
  intros Hpil Htarget Hin Hfield Hbytes Hfail.
  assert (Hexact := fun example lg Hf =>
            corrupt_bytes_field self example d field s cls msg lg Hpil Hf
              Hbytes Hfail).
  pose proof (for_fields_keeps (convert_field_to_bytes self) self field
                (VDict d) (bytes_warning field (UserError cls msg))
                (skip_on_error self) (UserError cls msg)
                (convert_field_to_bytes_step self) Hexact
                (image_fields self) example lg Hfield) as [_ Hloop].
  unfold outcome_of at 1, log_of at 1. rewrite process_example_unfold.
  destruct (String.eqb_spec (target_format self) "hf_image");
    [contradiction|].
  cbv zeta. cbn [fst snd]. unfold outcome_of, log_of in Hloop.
  destruct (fst (for_fields (convert_field_to_bytes self) (image_fields self)
                   example lg)) as [example'|e]; [|assumption].
  destruct Hloop as [Hv Hok]. destruct (Hok Hin) as [Hskip Hlog]. auto.
Qed.

(** A transform that raises on one record makes the whole map raise. *)
Lemma map_and_filter_raises (f : dict -> M (option dict)) (example : dict) :
  (forall lg, exists e, outcome_of (f example) lg = Raise e) ->
  forall before after lg,
  exists e,
    outcome_of (Executor.map_and_filter f (before ++ example :: after)%list) lg =
    Raise e.
Proof.
  intros Hraise before after. unfold outcome_of in *.
  induction before as [|h before IH]; intro lg; simpl; unfold bind at 1.
  - destruct (Hraise lg) as [e He].
    destruct (f example lg) as [[r|e'] lg1]; simpl in He; [discriminate|].
    simpl. eauto.
  - destruct (f h lg) as [[r|e] lg1]; [|simpl; eauto].
    unfold bind. destruct (IH lg1) as [e He].
    destruct (Executor.map_and_filter f (before ++ example :: after)%list lg1)
      as [[kept|e'] lg2]; simpl in He; [discriminate|].
    simpl. eauto.
Qed.

(** C4.  Target [encoded], a field holding a mapping whose [bytes] entry is
    text that [base64] cannot decode: with [skip_on_error] off the
    conversion of the field raises, the exception leaves [process_example]
    and with it a map over a dataset that holds the record; with
    [skip_on_error] on (the default) a warning is logged and
    [process_example] goes on to return the record, the field as it was. *)
Theorem corrupt_base64_bytes (config : Config) (self : Processor)
    (example d : dict) (field s cls msg : string) (lg0 lg : list log_record) :
  outcome_of (__init__ config) lg0 = Return self ->
  target_format self <> "hf_image" ->
  In field (image_fields self) ->
  dict_find example field = Some (VDict d) ->
  dict_find d "bytes" = Some (VStr s) ->
  b64decode s = Failure cls msg ->
  (cfg_skip_on_error config = None -> skip_on_error self = true) /\
  (skip_on_error self = false ->
   outcome_of (convert_field_to_bytes self example field) lg =
     Raise (UserError cls msg) /\
   (exists e, outcome_of (process_example self example) lg = Raise e) /\
   (forall before after,
     exists e,
       outcome_of
         (Executor.map_and_filter (process_example self)
            (before ++ example :: after)%list) lg = Raise e)) /\
  (skip_on_error self = true ->
   convert_field_to_bytes self example field lg =
     (Return example, (lg ++ [bytes_warning field (UserError cls msg)])%list) /\
   exists example',
     outcome_of (process_example self example) lg = Return (Some example') /\
     dict_find example' field = Some (VDict d) /\
     In (bytes_warning field (UserError cls msg))
        (log_of (process_example self example) lg)).
Proof.
  intros Hinit Htarget Hin Hfield Hbytes Hfail.
  apply init_inv in Hinit. destruct Hinit as (Hpil & _ & Hself).
  pose proof (fun lg =>
                corrupt_bytes_run self example d field s cls msg lg Hpil
                  Htarget Hin Hfield Hbytes Hfail) as Hrun.
  pose proof (corrupt_bytes_field self example d field s cls msg lg Hpil
                Hfield Hbytes Hfail) as Hexact.
  split; [|split].
  - intro Hnone. rewrite Hself. cbn. now rewrite Hnone.
  - intro Hskip.
    assert (Hraise : forall lg',
              exists e, outcome_of (process_example self example) lg' = Raise e).
    { intro lg'. specialize (Hrun lg').
      destruct (outcome_of (process_example self example) lg') as [[r|]|e].
      - destruct Hrun as [Hrun _]. congruence.
      - contradiction.
      - eauto. }
    split; [|split].
    + unfold outcome_of. rewrite Hexact, Hskip. reflexivity.
    + apply Hraise.
    + intros before after. now apply map_and_filter_raises.
  - intro Hskip. split.
    + rewrite Hexact, Hskip. reflexivity.
    + specialize (Hrun lg).
      destruct (outcome_of (process_example self example) lg) as [[r|]|e].
      * destruct Hrun as (_ & Hv & Hlog). eauto.
      * contradiction.
      * congruence.
Qed.

(** C5.  Target [decoded], a field holding text that [base64] cannot
    decode or whose decoded bytes are no image: the conversion of the
    field returns the record unchanged and logs a warning, whatever
    [skip_on_error] is; [process_example] returns the record with the
    field as it was, and raises only if [skip_on_error] is off and another
    field fails. *)
Theorem undecodable_base64_text_is_kept (config : Config) (self : Processor)
    (example : dict) (field s : string) (lg0 lg : list log_record) :
  outcome_of (__init__ config) lg0 = Return self ->
  dict_find example field = Some (VStr s) ->
  decode_fails s ->
  _convert_to_pil self example field lg =
    (Return example, (lg ++ [base64_warning field])%list) /\
  (target_format self = "hf_image" ->
   (image_fields self = [field] ->
    process_example self example lg =
      (Return (Some example), (lg ++ [base64_warning field])%list)) /\
   match outcome_of (process_example self example) lg with
   | Return (Some example') =>
       dict_find example' field = Some (VStr s) /\
       (In field (image_fields self) ->
        In (base64_warning field) (log_of (process_example self example) lg))
   | Return None => False
   | Raise _ => skip_on_error self = false /\ image_fields self <> [field]
   end).
Proof.
  intros Hinit Hfield Hfail.
  apply init_inv in Hinit. destruct Hinit as (Hpil & _ & _).
  assert (Hexact : forall example lg,
            dict_find example field = Some (VStr s) ->
            _convert_to_pil self example field lg =
            (if true then Return example else Raise (NameError ""),
             (lg ++ [base64_warning field])%list)).
  { intros ex l Hf.
    exact (undecodable_text_field self ex field s l Hpil Hf Hfail). }
  split; [exact (Hexact example lg Hfield)|].
  intro Htarget.
  assert (Hsingle : image_fields self = [field] ->
            process_example self example lg =
            (Return (Some example), (lg ++ [base64_warning field])%list)).
  { intro Hfields.
    rewrite process_example_unfold, Htarget, Hfields, String.eqb_refl.
    cbv zeta. rewrite for_fields_cons.
    rewrite (undecodable_text_field self example field s lg Hpil Hfield Hfail).
    reflexivity. }
  split; [exact Hsingle|].
  pose proof (for_fields_keeps (_convert_to_pil self) self field (VStr s)
                (base64_warning field) true (NameError "")
                (convert_to_pil_step self) Hexact
                (image_fields self) example lg Hfield) as [_ Hloop].
  unfold outcome_of at 1, log_of at 1.
  destruct (process_example self example lg) as [o lg'] eqn:Hrun.
  rewrite process_example_unfold, Htarget, String.eqb_refl in Hrun.
  cbv zeta in Hrun.
  fold (outcome_of (for_fields (_convert_to_pil self) (image_fields self) example) lg) in Hrun.
  fold (log_of (for_fields (_convert_to_pil self) (image_fields self) example) lg) in Hrun.
  inversion Hrun; subst o lg'. cbn [fst snd].
  destruct (outcome_of (for_fields (_convert_to_pil self) (image_fields self)
                          example) lg) as [example'|e] eqn:Hout.
  - destruct Hloop as [Hv Hok]. split; [assumption|]. intro Hin.
    now destruct (Hok Hin).
  - split; [assumption|]. intro Hfields. specialize (Hsingle Hfields).
    discriminate Hsingle.
Qed.

End ImageFormatConverterFacts.

(** *** Concrete runs *)

Lemma construction_fails_fast_witness :
  outcome_of (ImageFormatConverter.__init__ Samples.no_pil Samples.decode_by_default) [] =
    Raise (ImportError "PIL is required for image format conversion") /\
  (exists self,
      outcome_of
        (ImageFormatConverter.__init__ Samples.full_runtime Samples.decode_by_default)
        [] = Return self) /\
  ImageFormatConverter.capability_error
    (outcome_of
       (ImageFormatConverter.process_example Samples.full_runtime
          Samples.b64decode_ref Samples.pil_open_ref Samples.pil_open_path_ref
          Samples.pil_save_png_ref Samples.strict_encoder Samples.corrupt_bytes)
       []) = false.
Proof.
  split; [|split].
  - apply (proj1 (construction_fails_fast Samples.no_pil Samples.b64decode_ref
                    Samples.pil_open_ref Samples.pil_open_path_ref
                    Samples.pil_save_png_ref)).
    reflexivity.
  - apply (proj1 (proj2 (proj2
             (construction_fails_fast Samples.full_runtime Samples.b64decode_ref
                Samples.pil_open_ref Samples.pil_open_path_ref
                Samples.pil_save_png_ref)))); reflexivity.
  - apply (proj2 (proj2 (proj2
             (construction_fails_fast Samples.full_runtime Samples.b64decode_ref
                Samples.pil_open_ref Samples.pil_open_path_ref
                Samples.pil_save_png_ref)))
             Samples.encode_strictly []).
    reflexivity.
Defined.



Lemma corrupt_base64_bytes_witness :
  (outcome_of
     (ImageFormatConverter.convert_field_to_bytes Samples.full_runtime
        Samples.b64decode_ref Samples.pil_save_png_ref Samples.strict_encoder
        Samples.corrupt_bytes "image") [] =
   Raise (UserError "binascii.Error" "Incorrect padding") /\
   (exists e,
     outcome_of
       (ImageFormatConverter.process_example Samples.full_runtime
          Samples.b64decode_ref Samples.pil_open_ref Samples.pil_open_path_ref
          Samples.pil_save_png_ref Samples.strict_encoder Samples.corrupt_bytes)
       [] = Raise e) /\
   (forall before after,
     exists e,
       outcome_of
         (Executor.map_and_filter
            (ImageFormatConverter.process_example Samples.full_runtime
               Samples.b64decode_ref Samples.pil_open_ref
               Samples.pil_open_path_ref Samples.pil_save_png_ref
               Samples.strict_encoder)
            (before ++ Samples.corrupt_bytes :: after)%list) [] = Raise e)) /\
  (exists example',
      outcome_of
        (ImageFormatConverter.process_example Samples.full_runtime
           Samples.b64decode_ref Samples.pil_open_ref Samples.pil_open_path_ref
           Samples.pil_save_png_ref Samples.lenient_encoder Samples.corrupt_bytes)
        [] = Return (Some example') /\
      dict_find example' "image" =
        Some (VDict [("bytes", VStr "abc"); ("path", VNone)]) /\
      In (ImageFormatConverter.bytes_warning "image" (UserError "binascii.Error" "Incorrect padding"))
         (log_of
            (ImageFormatConverter.process_example Samples.full_runtime
               Samples.b64decode_ref Samples.pil_open_ref
               Samples.pil_open_path_ref Samples.pil_save_png_ref
               Samples.lenient_encoder Samples.corrupt_bytes) [])).
Proof.
  split.
  - destruct (corrupt_base64_bytes Samples.full_runtime Samples.b64decode_ref
                Samples.pil_open_ref Samples.pil_open_path_ref
                Samples.pil_save_png_ref Samples.encode_strictly
                Samples.strict_encoder Samples.corrupt_bytes
                [("bytes", VStr "abc"); ("path", VNone)] "image" "abc"
                "binascii.Error" "Incorrect padding" [] [])
      as (_ & Hstrict & _);
      [reflexivity | discriminate | now left | reflexivity | reflexivity
      | reflexivity |].
    exact (Hstrict eq_refl).
  - destruct (corrupt_base64_bytes Samples.full_runtime Samples.b64decode_ref
                Samples.pil_open_ref Samples.pil_open_path_ref
                Samples.pil_save_png_ref Samples.encode_by_default
                Samples.lenient_encoder Samples.corrupt_bytes
                [("bytes", VStr "abc"); ("path", VNone)] "image" "abc"
                "binascii.Error" "Incorrect padding" [] [])
      as (_ & _ & Hlenient);
      [reflexivity | discriminate | now left | reflexivity | reflexivity
      | reflexivity |].
    exact (proj2 (Hlenient eq_refl)).
Defined.

Lemma undecodable_base64_text_is_kept_witness :
  ImageFormatConverter._convert_to_pil Samples.full_runtime Samples.b64decode_ref
    Samples.pil_open_ref Samples.pil_open_path_ref Samples.decoder
    Samples.text_not_an_image "image" [] =
  (Return Samples.text_not_an_image, ([] ++ [ImageFormatConverter.base64_warning "image"])%list) /\
  ImageFormatConverter._convert_to_pil Samples.full_runtime Samples.b64decode_ref
    Samples.pil_open_ref Samples.pil_open_path_ref
    (ImageFormatConverter.mkProcessor ["image"] "hf_image" false)
    [("image", VStr "abc")] "image" [] =
  (Return [("image", VStr "abc")], ([] ++ [ImageFormatConverter.base64_warning "image"])%list).
Proof.
  split.
  - apply (proj1
             (undecodable_base64_text_is_kept Samples.full_runtime
                Samples.b64decode_ref Samples.pil_open_ref
                Samples.pil_open_path_ref Samples.pil_save_png_ref
                Samples.decode_by_default Samples.decoder
                Samples.text_not_an_image "image" "aGVsbG8=" [] []
                eq_refl eq_refl I)).
  - apply (proj1
             (undecodable_base64_text_is_kept Samples.full_runtime
                Samples.b64decode_ref Samples.pil_open_ref
                Samples.pil_open_path_ref Samples.pil_save_png_ref
                (ImageFormatConverter.mkConfig None None (Some false))
                (ImageFormatConverter.mkProcessor ["image"] "hf_image" false)
                [("image", VStr "abc")] "image" "abc" [] []
                eq_refl eq_refl I)).
Defined.

(** * Further properties of the code *)

(** ** More on dictionaries *)

Section MorePyFacts.

Lemma dict_setitem_same (d : dict) (k : string) (v : value) :
  dict_find d k = Some v -> dict_setitem d k v = d.
Proof.
  induction d as [|[k0 v0] d IH]; simpl; [discriminate|].
  destruct (String.eqb_spec k0 k) as [->|Hne].
  - intro H. inversion H. reflexivity.
  - intro H. now rewrite IH.
Qed.

Lemma dict_setitem_overwrite (d : dict) (k : string) (v v' : value) :
  dict_setitem (dict_setitem d k v) k v' = dict_setitem d k v'.
Proof.
  induction d as [|[k0 v0] d IH]; simpl.
  - now rewrite String.eqb_refl.
  - destruct (String.eqb_spec k0 k) as [->|Hne]; simpl.
    + now rewrite String.eqb_refl.
    + destruct (String.eqb_spec k0 k); [contradiction|]. now rewrite IH.
Qed.

Lemma dict_keys_setitem_present (d : dict) (k : string) (v : value) :
  dict_contains d k = true -> dict_keys (dict_setitem d k v) = dict_keys d.
Proof.
  unfold dict_contains, dict_keys.
  induction d as [|[k0 v0] d IH]; simpl; [discriminate|].
  destruct (String.eqb_spec k0 k) as [->|Hne]; simpl.
  - reflexivity.
  - intro H. now rewrite IH.
Qed.

Lemma dict_find_pop_all_other (ks : list string) (d : dict) (k : string) :
  ~ In k ks -> dict_find (fold_left dict_pop ks d) k = dict_find d k.
Proof.
  revert d. induction ks as [|k0 ks IH]; simpl; intros d Hnot; [reflexivity|].
  rewrite IH by tauto. rewrite dict_find_pop.
  destruct (String.eqb_spec k0 k); [tauto | reflexivity].
Qed.

Lemma dict_find_pop_all_same (ks : list string) (d : dict) (k : string) :
  In k ks -> dict_find (fold_left dict_pop ks d) k = None.
Proof.
  revert d. induction ks as [|k0 ks IH]; simpl; intros d Hin; [destruct Hin|].
  destruct (in_dec string_dec k ks) as [Hks|Hks].
  - now apply IH.
  - destruct Hin as [->|Hin]; [|contradiction].
    rewrite dict_find_pop_all_other by assumption.
    rewrite dict_find_pop. now rewrite String.eqb_refl.
Qed.

Lemma dict_keys_setitem_absent (d : dict) (k : string) (v : value) :
  dict_contains d k = false ->
  dict_keys (dict_setitem d k v) = (dict_keys d ++ [k])%list.
Proof.
  unfold dict_contains, dict_keys.
  induction d as [|[k0 v0] d IH]; simpl; [reflexivity|].
  destruct (String.eqb_spec k0 k) as [->|Hne]; simpl; [discriminate|].
  intro H. now rewrite IH.
Qed.

Lemma dict_contains_setitem_other (d : dict) (k k' : string) (v : value) :
  k <> k' -> dict_contains (dict_setitem d k v) k' = dict_contains d k'.
Proof.
  intro Hne. unfold dict_contains. rewrite dict_find_setitem.
  destruct (String.eqb_spec k k'); [congruence | reflexivity].
Qed.

End MorePyFacts.

(** ** More on the Longest-Explanation Selector *)

Section QaLongestMappingMore.

Import QaLongestMapping.

Variable py_repr : value -> string.

Local Abbreviation py_str := (QaLongestMapping.py_str py_repr).
Local Abbreviation _select_longest_index :=
  (QaLongestMapping._select_longest_index py_repr).
Local Abbreviation stripped_text := (QaLongestMapping.stripped_text py_repr).
Local Abbreviation stripped_at := (QaLongestMapping.stripped_at py_repr).
Local Abbreviation transform := (QaLongestMapping.transform py_repr).
Local Abbreviation process_example_try :=
  (QaLongestMapping.process_example_try py_repr).
Local Abbreviation process_example := (QaLongestMapping.process_example py_repr).

(** X1.  [_have_matching_lengths] accepts any number of sequences: it is
    true exactly when there is at least one and all have the same length
    (with no sequence at all the set of lengths is empty and it is false). *)
Theorem have_matching_lengths_iff (sequences : list (list value)) :
  _have_matching_lengths sequences = true <->
  sequences <> [] /\
  forall a b, In a sequences -> In b sequences -> len a = len b.
Proof.
  unfold _have_matching_lengths. split.
  - intro H. apply Z.eqb_eq in H.
    destruct (nodup Z.eq_dec (map (@len value) sequences)) as [|z [|z' rest]] eqn:E;
      unfold len in H; simpl in H; try lia.
    pose proof (nodup_singleton Z.eq_dec _ z E) as Hall.
    split.
    + intros ->. discriminate E.
    + intros a b Ha Hb.
      rewrite (Hall (len a)), (Hall (len b)); auto using in_map.
  - intros [Hne Hall]. destruct sequences as [|a rest]; [congruence|].
    rewrite (nodup_all_equal Z.eq_dec _ (len a)).
    + reflexivity.
    + discriminate.
    + intros x Hx. apply in_map_iff in Hx. destruct Hx as (b & <- & Hb).
      apply Hall; simpl; auto.
Qed.

(** *** What [process_example] writes to the log *)

Lemma process_example_try_log (self : Processor) (example : dict)
    (lg : list log_record) :
  match outcome_of (process_example_try self example) lg with
  | Return (Some _) | Raise _ => log_of (process_example_try self example) lg = lg
  | Return None =>
      exists r more,
        log_of (process_example_try self example) lg = (lg ++ r :: more)%list
  end.
Proof.
  unfold outcome_of, log_of, QaLongestMapping.process_example_try,
    _get_source_container, bind.
  destruct (dict_get example (qa_pairs_field self)) as [| | | | | | | |d].
  1-8: unfold log, ret; cbn; eexists; eexists; rewrite <- app_assoc;
       reflexivity.
  unfold ret. cbv beta iota zeta.
  destruct (negb (truthy (VList (_as_list (dict_get d (question_field self)))))
            || negb (truthy (VList (_as_list (dict_get d (explanation_field self)))))
            || negb (truthy (VList (_as_list (dict_get d (answer_field self)))))).
  { unfold log, ret. cbn. eexists; eexists; reflexivity. }
  destruct (negb (_have_matching_lengths _)).
  { unfold log, ret. cbn. eexists; eexists; reflexivity. }
  unfold lift.
  destruct (_select_longest_index (_as_list (dict_get d (explanation_field self))))
    as [[index|]|e]; cbn [fst snd].
  - rewrite stripped_at_outcome.
    destruct (stripped_text (_as_list (dict_get d (question_field self))) index)
      as [q|e]; [|reflexivity].
    rewrite stripped_at_outcome.
    destruct (stripped_text (_as_list (dict_get d (explanation_field self))) index)
      as [x|e]; [|reflexivity].
    rewrite stripped_at_outcome.
    destruct (stripped_text (_as_list (dict_get d (answer_field self))) index)
      as [a|e]; [|reflexivity].
    destruct (negb (truthy (VStr q)) || negb (truthy (VStr x))
              || negb (truthy (VStr a))).
    + unfold log, ret. cbn. eexists; eexists; reflexivity.
    + reflexivity.
  - unfold log, ret. cbn. eexists; eexists; reflexivity.
  - reflexivity.
Qed.

Lemma silent_success (self : Processor) (example out : dict)
    (lg : list log_record) :
  transform self example = Return (Some out) ->
  process_example self example lg = (Return (Some out), lg).
Proof.
  intro H. rewrite <- (process_example_try_outcome py_repr self example lg) in H.
  pose proof (process_example_try_log self example lg) as Hlog.
  unfold outcome_of, log_of in *.
  unfold QaLongestMapping.process_example, try_except.
  destruct (process_example_try self example lg) as [o lg1].
  cbn [fst snd] in *. subst o. now subst lg1.
Qed.

(** X2.  A record that is converted leaves no trace in the log; a record
    that is dropped leaves at least one record there; an exception leaves
    exactly the warning and the list of the record's keys. *)
Theorem drops_are_logged (self : Processor) (example : dict)
    (lg : list log_record) :
  match outcome_of (process_example_try self example) lg with
  | Return (Some out) =>
      process_example self example lg = (Return (Some out), lg)
  | Return None =>
      exists r more,
        process_example self example lg = (Return None, (lg ++ r :: more)%list)
  | Raise e =>
      process_example self example lg =
      (Return (if keep_unmapped self then Some example else None),
       (lg ++ [mkLog WARNING "Error in longest explanation mapping: %s" [AExn e];
               mkLog DEBUG "Example keys: %s"
                 [AVal (VList (map VStr (dict_keys example)))]])%list)
  end.
Proof.
  pose proof (process_example_try_log self example lg) as Hlog.
  unfold outcome_of, log_of in *.
  unfold QaLongestMapping.process_example, try_except.
  destruct (process_example_try self example lg) as [[[out|]|e] lg'];
    cbn [fst snd] in *.
  - now subst lg'.
  - destruct Hlog as (r & more & ->). eauto.
  - subst lg'. unfold process_example_except, bind, log, ret. cbn.
    now rewrite <- app_assoc.
Qed.

(** X3.  When the question, the explanation or the answer at the selected
    index is empty once stripped (it was empty or all whitespace), the
    record is dropped. *)
Theorem blank_selection_is_dropped (self : Processor) (example : dict)
    (lg : list log_record) (i : Z) (q x a : string) :
  _select_longest_index (explanations_of self example) = Return (Some i) ->
  stripped_text (questions_of self example) i = Return q ->
  stripped_text (explanations_of self example) i = Return x ->
  stripped_text (answers_of self example) i = Return a ->
  q = "" \/ x = "" \/ a = "" ->
  outcome_of (process_example self example) lg = Return None.
Proof.
  intros Hsel Hq Hx Ha Hblank.
  rewrite process_example_outcome. unfold QaLongestMapping.transform.
  destruct (_ || _ || _); [reflexivity|].
  destruct (negb _); [reflexivity|].
  rewrite Hsel. cbn [and_then]. rewrite Hq, Hx, Ha. cbn [and_then].
  destruct Hblank as [-> | [-> | ->]]; cbn;
    rewrite ?orb_true_r; reflexivity.
Qed.

(** *** The record that is built *)

Lemma build_result_find (self : Processor) (example : dict)
    (q x a k : string) :
  (remove_source_fields self = true -> ~ In k (removed_fields self)) ->
  dict_find (build_result self example q x a) k =
  dict_find
    (dict_setitem
       (dict_setitem (if keep_unmapped self then dict_copy example else [])
          (problem_field self) (VStr q))
       (solution_field self) (VStr (_format_solution x a))) k.
Proof.
  intro Hkept. unfold build_result, removed_fields in *.
  destruct (remove_source_fields self); [|reflexivity].
  specialize (Hkept eq_refl).
  destruct (negb (String.eqb (qa_pairs_field self) "")).
  - rewrite dict_find_pop.
    destruct (String.eqb_spec (qa_pairs_field self) k) as [E|_];
      [|reflexivity].
    exfalso. apply Hkept. now left.
  - apply dict_find_pop_all_other. intro Hin. apply Hkept.
    exact (proj1 (nodup_In string_dec _ _) Hin).
Qed.

(** X4.  With [keep_unmapped] set, every field other than the problem
    field, the solution field and the fields lines 75-80 delete comes out as it
    went in: present with the same value, or absent. *)
Theorem unmapped_fields_are_kept (self : Processor) (example out : dict)
    (lg : list log_record) (k : string) :
  keep_unmapped self = true ->
  outcome_of (process_example_try self example) lg = Return (Some out) ->
  k <> problem_field self ->
  k <> solution_field self ->
  (remove_source_fields self = true -> ~ In k (removed_fields self)) ->
  dict_find out k = dict_find example k /\
  outcome_of (process_example self example) lg = Return (Some out).
Proof.
  intros Hkeep Hout Hp Hs Hkept.
  rewrite process_example_try_outcome in Hout.
  destruct (transform_some py_repr _ _ _ Hout)
    as (i & q & x & a & _ & _ & _ & _ & _ & _ & _ & ->).
  split.
  - rewrite build_result_find by assumption. rewrite Hkeep.
    rewrite !dict_find_setitem.
    destruct (String.eqb_spec (solution_field self) k); [congruence|].
    destruct (String.eqb_spec (problem_field self) k); [congruence|].
    reflexivity.
  - rewrite process_example_outcome, Hout. reflexivity.
Qed.

(** X5.  With [remove_source_fields] set, no field that lines 75-80 delete is
    in the record that is returned: the qa-pairs container, or, when that
    name is empty, the three sub-fields; this holds even for a name that is
    also the problem or the solution field. *)
Theorem source_fields_are_removed (self : Processor) (example out : dict)
    (lg : list log_record) (k : string) :
  remove_source_fields self = true ->
  outcome_of (process_example_try self example) lg = Return (Some out) ->
  In k (removed_fields self) ->
  dict_find out k = None /\ dict_contains out k = false.
Proof.
  intros Hremove Hout Hin.
  rewrite process_example_try_outcome in Hout.
  destruct (transform_some py_repr _ _ _ Hout)
    as (i & q & x & a & _ & _ & _ & _ & _ & _ & _ & ->).
  assert (H : dict_find (build_result self example q x a) k = None).
  { unfold build_result, removed_fields in *. rewrite Hremove.
    destruct (negb (String.eqb (qa_pairs_field self) "")).
    - destruct Hin as [<-|[]]. rewrite dict_find_pop.
      now rewrite String.eqb_refl.
    - apply dict_find_pop_all_same. now apply (nodup_In string_dec). }
  split; [exact H|]. unfold dict_contains. now rewrite H.
Qed.

(** *** Running the stage again *)

Lemma transform_same_source (self : Processor) (example other out : dict) :
  source_container self other = source_container self example ->
  transform self example = Return (Some out) ->
  exists q x a,
    out = build_result self example q x a /\
    transform self other = Return (Some (build_result self other q x a)).
Proof.
  intros Hsrc H.
  unfold QaLongestMapping.transform, questions_of, explanations_of, answers_of in *.
  rewrite Hsrc.
  destruct (_ || _ || _); [discriminate H|].
  destruct (negb _); [discriminate H|].
  unfold and_then in *.
  destruct (_select_longest_index _) as [[i|]|e]; try discriminate H.
  destruct (stripped_text _ i) as [q|e]; [|discriminate H].
  destruct (stripped_text _ i) as [x|e]; [|discriminate H].
  destruct (stripped_text _ i) as [a|e]; [|discriminate H].
  destruct (_ || _ || _); [discriminate H|].
  inversion H. eauto.
Qed.

(** X6.  Running the stage on its own output changes nothing: with
    [keep_unmapped] set, [remove_source_fields] off and the container name
    different from both output names, a record that was converted is
    returned as it is, and silently, when it is processed again. *)
Theorem process_example_idempotent (self : Processor) (example out : dict)
    (lg lg' : list log_record) :
  keep_unmapped self = true ->
  remove_source_fields self = false ->
  qa_pairs_field self <> problem_field self ->
  qa_pairs_field self <> solution_field self ->
  outcome_of (process_example_try self example) lg = Return (Some out) ->
  process_example self out lg' = (Return (Some out), lg').
Proof.
  intros Hkeep Hremove Hp Hs Hout.
  rewrite process_example_try_outcome in Hout.
  assert (Hshape : forall ex q x a,
            build_result self ex q x a =
            dict_setitem (dict_setitem ex (problem_field self) (VStr q))
              (solution_field self) (VStr (_format_solution x a))).
  { intros. unfold build_result. now rewrite Hkeep, Hremove. }
  assert (Hsrc : source_container self out = source_container self example).
  { destruct (transform_some py_repr _ _ _ Hout)
      as (i & q & x & a & _ & _ & _ & _ & _ & _ & _ & ->).
    unfold source_container. rewrite Hshape.
    rewrite !dict_get_setitem_other by congruence. reflexivity. }
  destruct (transform_same_source self example out out Hsrc Hout)
    as (q & x & a & Hbuilt & Hagain).
  assert (Hfix : build_result self out q x a = out).
  { rewrite Hshape in Hbuilt. rewrite Hshape, Hbuilt.
    destruct (String.eqb_spec (problem_field self) (solution_field self))
      as [E|Hne].
    - rewrite E. now rewrite !dict_setitem_overwrite.
    - rewrite (dict_setitem_same
                 (dict_setitem
                    (dict_setitem example (problem_field self) (VStr q))
                    (solution_field self) (VStr (_format_solution x a)))
                 (problem_field self) (VStr q)).
      + now rewrite dict_setitem_overwrite.
      + rewrite !dict_find_setitem.
        destruct (String.eqb_spec (solution_field self) (problem_field self));
          [congruence|].
        now rewrite String.eqb_refl. }
  rewrite Hfix in Hagain. now apply silent_success.
Qed.

(** *** The order of the fields *)

(** X7.  With [keep_unmapped] set and nothing removed, a record that has
    neither output field yet keeps its fields in their order and gets the
    problem field and then the solution field after them. *)
Theorem new_fields_are_appended (self : Processor) (example out : dict)
    (lg : list log_record) :
  keep_unmapped self = true ->
  remove_source_fields self = false ->
  dict_contains example (problem_field self) = false ->
  dict_contains example (solution_field self) = false ->
  problem_field self <> solution_field self ->
  outcome_of (process_example_try self example) lg = Return (Some out) ->
  dict_keys out =
  (dict_keys example ++ [problem_field self; solution_field self])%list.
Proof.
  intros Hkeep Hremove Hp Hs Hne Hout.
  rewrite process_example_try_outcome in Hout.
  destruct (transform_some py_repr _ _ _ Hout)
    as (i & q & x & a & _ & _ & _ & _ & _ & _ & _ & ->).
  unfold build_result. rewrite Hkeep, Hremove. unfold dict_copy.
  rewrite dict_keys_setitem_absent.
  - rewrite dict_keys_setitem_absent by assumption.
    now rewrite <- app_assoc.
  - now rewrite dict_contains_setitem_other.
Qed.

Lemma nonblank_is_truthy (t : string) :
  t <> "" -> negb (truthy (VStr t)) = false.
Proof.
  intro H. simpl. rewrite negb_involutive.
  destruct (String.eqb_spec t ""); [contradiction | reflexivity].
Qed.

(** *** Entries that are not lists *)

(** X8.  [_as_list] wraps a value that is no list: a container whose
    question, explanation and answer are single texts is one pair, and the
    record gets those texts, stripped, when none of them is blank. *)
Theorem scalar_entries_form_one_pair (self : Processor) (example d : dict)
    (q x a : string) (lg : list log_record) :
  dict_get example (qa_pairs_field self) = VDict d ->
  dict_get d (question_field self) = VStr q ->
  dict_get d (explanation_field self) = VStr x ->
  dict_get d (answer_field self) = VStr a ->
  strip q <> "" -> strip x <> "" -> strip a <> "" ->
  outcome_of (process_example self example) lg =
  Return (Some (build_result self example (strip q) (strip x) (strip a))).
Proof.
  intros Hd Hq Hx Ha Hqs Hxs Has.
  rewrite process_example_outcome.
  unfold QaLongestMapping.transform, questions_of, explanations_of, answers_of,
    source_container.
  rewrite Hd, Hq, Hx, Ha. cbn [_as_list].
  change (negb (truthy (VList [VStr q]))) with false.
  change (negb (truthy (VList [VStr x]))) with false.
  change (negb (truthy (VList [VStr a]))) with false.
  cbn [orb].
  rewrite (proj2 (have_matching_lengths_3 _ _ _)) by (split; reflexivity).
  cbn [negb].
  unfold QaLongestMapping._select_longest_index. cbn [select_loop is_none].
  cbn [QaLongestMapping.py_str].
  assert (Hlen : (str_len x >? -1) = true)
    by (apply Z.gtb_lt; unfold str_len; lia).
  cbv zeta. rewrite Hlen. cbn [and_then].
  change (stripped_text [VStr q] 0) with (@Return string (strip q)).
  change (stripped_text [VStr x] 0) with (@Return string (strip x)).
  change (stripped_text [VStr a] 0) with (@Return string (strip a)).
  cbn [and_then].
  rewrite (nonblank_is_truthy _ Hqs), (nonblank_is_truthy _ Hxs),
    (nonblank_is_truthy _ Has).
  reflexivity.
Qed.

End QaLongestMappingMore.

(** ** More on the Image Normalizer *)

Section ImageFormatConverterMore.

Import ImageFormatConverter.

Variable rt : Runtime.
Variable b64decode : string -> lib_result bytes.
Variable pil_open : bytes -> lib_result image.
Variable pil_open_path : value -> lib_result image.
Variable pil_save_png : image -> lib_result bytes.

Local Abbreviation __init__ := (ImageFormatConverter.__init__ rt).
Local Abbreviation _convert_to_pil :=
  (ImageFormatConverter._convert_to_pil rt b64decode pil_open pil_open_path).
Local Abbreviation convert_field_to_bytes :=
  (ImageFormatConverter.convert_field_to_bytes rt b64decode pil_save_png).
Local Abbreviation _convert_to_bytes :=
  (ImageFormatConverter._convert_to_bytes rt b64decode pil_save_png).
Local Abbreviation process_example :=
  (ImageFormatConverter.process_example rt b64decode pil_open pil_open_path
     pil_save_png).
Local Abbreviation conversion :=
  (fun self : Processor =>
     if String.eqb (target_format self) "hf_image"
     then _convert_to_pil self else convert_field_to_bytes self).
Local Abbreviation decodes_to :=
  (ImageFormatConverter.decodes_to b64decode pil_open pil_open_path).
Local Abbreviation encodes_to :=
  (ImageFormatConverter.encodes_to b64decode pil_save_png).
Local Abbreviation settled :=
  (ImageFormatConverter.settled rt b64decode pil_open pil_open_path).

Ltac unfold_monad :=
  unfold outcome_of, log_of, try_except, bind, call, PILImage, log, ret, raise;
  cbn beta iota.

Ltac next_case :=
  match goal with
  | |- context [match ?x with _ => _ end] =>
      lazymatch x with
      | context [match _ with _ => _ end] => fail
      | _ => destruct x eqn:?
      end
  end.

Ltac present_field :=
  match goal with
  | H : negb (dict_contains ?d ?k) = false |- _ =>
      destruct (dict_contains d k) eqn:?; [clear H | discriminate H]
  end.

(** *** A conversion touches one field and keeps the keys *)

Lemma keeps_others_refl (example : dict) (field : string) :
  keeps_others example example field.
Proof. split; auto. Qed.

Lemma keeps_others_setitem (example : dict) (field : string) (v : value) :
  dict_contains example field = true ->
  keeps_others example (dict_setitem example field v) field.
Proof.
  intro H. split.
  - now apply dict_keys_setitem_present.
  - intros k Hk. rewrite dict_find_setitem.
    destruct (String.eqb_spec field k); [congruence | reflexivity].
Qed.

Ltac finish_keeps :=
  cbn [fst snd] in *;
  repeat match goal with
         | H : Return _ = Return _ |- _ => inversion H; clear H; subst
         | H : Raise _ = Return _ |- _ => discriminate H
         | H : Raise _ = Raise _ |- _ => clear H
         end;
  try exact I;
  try solve [ apply keeps_others_refl
            | present_field; now apply keeps_others_setitem ].

Lemma convert_to_pil_keeps (self : Processor) (example : dict) (field : string)
    (lg : list log_record) :
  match outcome_of (_convert_to_pil self example field) lg with
  | Return example' => keeps_others example example' field
  | Raise _ => True
  end.
Proof.
  unfold ImageFormatConverter._convert_to_pil. unfold_monad.
  repeat (next_case; cbn beta iota; try discriminate); finish_keeps.
Qed.

Lemma convert_field_to_bytes_keeps (self : Processor) (example : dict)
    (field : string) (lg : list log_record) :
  match outcome_of (convert_field_to_bytes self example field) lg with
  | Return example' => keeps_others example example' field
  | Raise _ => True
  end.
Proof.
  unfold ImageFormatConverter.convert_field_to_bytes. unfold_monad.
  repeat (next_case; cbn beta iota; try discriminate); finish_keeps.
Qed.

Lemma for_fields_keeps_others (body : dict -> string -> M dict) :
  (forall example f lg,
      match outcome_of (body example f) lg with
      | Return example' => keeps_others example example' f
      | Raise _ => True
      end) ->
  forall fields example lg,
    match outcome_of (for_fields body fields example) lg with
    | Return example' =>
        dict_keys example' = dict_keys example /\
        forall k, ~ In k fields -> dict_find example' k = dict_find example k
    | Raise _ => True
    end.
Proof.
  intro Hbody. unfold outcome_of in *.
  induction fields as [|f rest IH]; intros example lg.
  - simpl. auto.
  - rewrite for_fields_cons. specialize (Hbody example f lg).
    destruct (body example f lg) as [[example1|e] lg1]; cbn [fst] in *;
      [|exact I].
    specialize (IH example1 lg1).
    destruct (fst (for_fields body rest example1 lg1)) as [example'|e];
      [|exact I].
    destruct Hbody as [Hkeys Hother]. destruct IH as [Hkeys' Hother'].
    split; [congruence|]. intros k Hk.
    rewrite Hother' by (intro; apply Hk; now right).
    apply Hother. intros ->. apply Hk. now left.
Qed.

(** X9.  Whatever the target, [process_example] neither adds nor removes a
    field nor reorders the fields, and it leaves every field that is not
    one of [image_fields] with the value it had. *)
Theorem process_example_keeps_other_fields (self : Processor)
    (example : dict) (lg : list log_record) :
  match outcome_of (process_example self example) lg with
  | Return (Some example') =>
      dict_keys example' = dict_keys example /\
      forall k, ~ In k (image_fields self) ->
        dict_find example' k = dict_find example k
  | Return None => False
  | Raise _ => True
  end.
Proof.
  unfold outcome_of. rewrite process_example_unfold. cbv zeta. cbn [fst].
  assert (Hbody : forall example f lg,
            match outcome_of (conversion self example f) lg with
            | Return example' => keeps_others example example' f
            | Raise _ => True
            end).
  { intros ex f l. destruct (String.eqb (target_format self) "hf_image").
    - apply convert_to_pil_keeps.
    - apply convert_field_to_bytes_keeps. }
  pose proof (for_fields_keeps_others _ Hbody (image_fields self) example lg)
    as H.
  unfold outcome_of in H.
  destruct (fst (for_fields _ (image_fields self) example lg)); assumption.
Qed.

(** *** The two cascades, case by case *)

Lemma present_field_get (example : dict) (field : string) (v : value) :
  dict_find example field = Some v ->
  dict_contains example field = true /\ dict_get example field = v.
Proof. intro H. unfold dict_contains, dict_get. now rewrite H. Qed.

Lemma convert_to_pil_decodes (self : Processor) (example : dict)
    (field : string) (v : value) (im : image) (lg : list log_record) :
  HAS_PIL rt = true ->
  dict_find example field = Some v ->
  decodes_to v im ->
  _convert_to_pil self example field lg =
  (Return (dict_setitem example field (VImage im)), lg).
Proof.
  intros Hpil Hfield Hdec.
  destruct (present_field_get _ _ _ Hfield) as [Hin Hget].
  unfold ImageFormatConverter._convert_to_pil. rewrite Hin, Hget.
  unfold_monad. rewrite Hpil.
  destruct Hdec as [b im Ho|s b im Hb Ho|d b im Hd Ho|d s b im Hd Hb Ho
                   |d p im Hd Hp Ht Ho];
    cbn; unfold dict_contains, dict_get;
    rewrite ?Hd, ?Hp, ?Hb; cbn; rewrite ?Ht, ?Hb, ?Ho; cbn;
    rewrite ?Ho; reflexivity.
Qed.

Lemma convert_field_to_bytes_encodes (self : Processor) (example : dict)
    (field : string) (v w : value) (lg : list log_record) :
  HAS_PIL rt = true ->
  dict_find example field = Some v ->
  encodes_to v w ->
  convert_field_to_bytes self example field lg =
  (Return (dict_setitem example field w), lg).
Proof.
  intros Hpil Hfield Henc.
  destruct (present_field_get _ _ _ Hfield) as [Hin Hget].
  unfold ImageFormatConverter.convert_field_to_bytes. rewrite Hin, Hget.
  unfold_monad. rewrite Hpil.
  destruct Henc as [im png Hs|s b Hb|d s b Hd Hb|d w Hd Hw];
    cbn; unfold dict_contains, dict_get;
    rewrite ?Hd, ?Hs, ?Hb; cbn; rewrite ?Hb; try reflexivity.
  destruct w; try reflexivity. now destruct (Hw s).
Qed.

(** X10.  The decode cascade on a constructed processor: a field holding raw
    bytes, base64 text, a mapping with embedded bytes or base64 text, or a
    mapping with no [bytes] and a true [path], whose payload [PIL] can
    open, is replaced by the decoded image, and nothing is logged. *)
Theorem decode_cascade (config : Config) (self : Processor) (example : dict)
    (field : string) (v : value) (im : image) (lg0 lg : list log_record) :
  outcome_of (__init__ config) lg0 = Return self ->
  dict_find example field = Some v ->
  decodes_to v im ->
  _convert_to_pil self example field lg =
    (Return (dict_setitem example field (VImage im)), lg) /\
  dict_find (dict_setitem example field (VImage im)) field = Some (VImage im) /\
  (target_format self = "hf_image" -> image_fields self = [field] ->
   process_example self example lg =
     (Return (Some (dict_setitem example field (VImage im))), lg)).
Proof.
  intros Hinit Hfield Hdec. apply init_inv in Hinit.
  destruct Hinit as (Hpil & _ & _).
  pose proof (convert_to_pil_decodes self example field v im lg Hpil Hfield
                Hdec) as Hrun.
  split; [exact Hrun|]. split.
  - rewrite dict_find_setitem. now rewrite String.eqb_refl.
  - intros Htarget Hfields.
    rewrite process_example_unfold, Htarget, Hfields, String.eqb_refl.
    cbv zeta. rewrite for_fields_cons, Hrun. reflexivity.
Qed.

(** X11.  The encode cascade on a constructed processor: an image is
    replaced by its PNG bytes, base64 text by the bytes it decodes to, and
    a mapping by its [bytes] entry (decoded when it is text, as it is when
    it is anything else, [None] included); nothing is logged. *)
Theorem encode_cascade (config : Config) (self : Processor) (example : dict)
    (field : string) (v w : value) (lg0 lg : list log_record) :
  outcome_of (__init__ config) lg0 = Return self ->
  dict_find example field = Some v ->
  encodes_to v w ->
  convert_field_to_bytes self example field lg =
    (Return (dict_setitem example field w), lg) /\
  dict_find (dict_setitem example field w) field = Some w /\
  (target_format self <> "hf_image" -> image_fields self = [field] ->
   process_example self example lg =
     (Return (Some (dict_setitem example field w)), lg)).
Proof.
  intros Hinit Hfield Henc. apply init_inv in Hinit.
  destruct Hinit as (Hpil & _ & _).
  pose proof (convert_field_to_bytes_encodes self example field v w lg Hpil
                Hfield Henc) as Hrun.
  split; [exact Hrun|]. split.
  - rewrite dict_find_setitem. now rewrite String.eqb_refl.
  - intros Htarget Hfields. rewrite process_example_unfold, Hfields.
    destruct (String.eqb_spec (target_format self) "hf_image");
      [contradiction|].
    cbv zeta. rewrite for_fields_cons, Hrun. reflexivity.
Qed.

(** X12.  The encode cascade leaves alone, and logs nothing about, a field
    that is absent or holds [None], bytes, a value of a type it does not
    know, or a mapping without [bytes]: such a mapping's [path] is never
    opened.  This does not depend on [skip_on_error]. *)
Theorem encode_cascade_passes_over (config : Config) (self : Processor)
    (example : dict) (field : string) (lg0 lg : list log_record) :
  outcome_of (__init__ config) lg0 = Return self ->
  (dict_find example field = None \/
   exists v, dict_find example field = Some v /\ not_encoded v) ->
  convert_field_to_bytes self example field lg = (Return example, lg).
Proof.
  intros Hinit Hfield. apply init_inv in Hinit.
  destruct Hinit as (Hpil & _ & _).
  unfold ImageFormatConverter.convert_field_to_bytes.
  destruct Hfield as [Hnone|(v & Hfield & Hskip)].
  - unfold dict_contains. now rewrite Hnone.
  - destruct (present_field_get _ _ _ Hfield) as [Hin Hget].
    rewrite Hin, Hget. unfold_monad. rewrite Hpil.
    destruct Hskip as [|b|d Hd|b|n|l|o]; cbn; try reflexivity.
    unfold dict_contains. now rewrite Hd.
Qed.

(** X13.  In the decode cascade a mapping that has a [bytes] entry never has
    its [path] opened: when the entry is neither text nor bytes ([None],
    say), the field is left as it is and a warning names the type. *)
Theorem bytes_entry_shadows_path (config : Config) (self : Processor)
    (example d : dict) (field : string) (w : value) (lg0 lg : list log_record) :
  outcome_of (__init__ config) lg0 = Return self ->
  dict_find example field = Some (VDict d) ->
  dict_find d "bytes" = Some w ->
  (forall s, w <> VStr s) ->
  (forall b, w <> VBytes b) ->
  _convert_to_pil self example field lg =
  (Return example,
   (lg ++ [mkLog WARNING "Unexpected bytes type: {type(bytes_data)}"
             [ATypeOf w]])%list).
Proof.
  intros Hinit Hfield Hd Hstr Hbytes. apply init_inv in Hinit.
  destruct Hinit as (Hpil & _ & _).
  destruct (present_field_get _ _ _ Hfield) as [Hin Hget].
  unfold ImageFormatConverter._convert_to_pil. rewrite Hin, Hget.
  unfold_monad. rewrite Hpil. cbn. unfold dict_contains, dict_get.
  rewrite Hd. cbn.
  destruct w; try reflexivity.
  - now destruct (Hstr s).
  - now destruct (Hbytes b).
Qed.

(** X14.  Encoding and then decoding restores the record when the codec is
    lossless: for an image that [PIL] saves as PNG and opens again as the
    same image, converting the field to bytes and then back to an image
    gives the record that went in. *)
Theorem encode_decode_round_trip (config : Config) (encoder decoder : Processor)
    (example : dict) (field : string) (im : image) (png : bytes)
    (lg0 lg : list log_record) :
  outcome_of (__init__ config) lg0 = Return encoder ->
  target_format encoder <> "hf_image" ->
  target_format decoder = "hf_image" ->
  image_fields encoder = [field] ->
  image_fields decoder = [field] ->
  dict_find example field = Some (VImage im) ->
  pil_save_png im = Success png ->
  pil_open png = Success im ->
  exists encoded,
    process_example encoder example lg = (Return (Some encoded), lg) /\
    dict_find encoded field = Some (VBytes png) /\
    process_example decoder encoded lg = (Return (Some example), lg).
Proof.
  intros Hinit Henc Hdec Hfe Hfd Hfield Hsave Hopen.
  apply init_inv in Hinit. destruct Hinit as (Hpil & _ & _).
  exists (dict_setitem example field (VBytes png)).
  assert (Hfound : dict_find (dict_setitem example field (VBytes png)) field =
                   Some (VBytes png)).
  { rewrite dict_find_setitem. now rewrite String.eqb_refl. }
  split; [|split].
  - rewrite process_example_unfold, Hfe.
    destruct (String.eqb_spec (target_format encoder) "hf_image");
      [contradiction|].
    cbv zeta. rewrite for_fields_cons.
    rewrite (convert_field_to_bytes_encodes encoder example field
               (VImage im) (VBytes png) lg Hpil Hfield
               (encode_image _ _ im png Hsave)).
    reflexivity.
  - exact Hfound.
  - rewrite process_example_unfold, Hdec, Hfd, String.eqb_refl.
    cbv zeta. rewrite for_fields_cons.
    rewrite (convert_to_pil_decodes decoder _ field (VBytes png) im lg Hpil
               Hfound (decode_bytes _ _ _ png im Hopen)).
    rewrite dict_setitem_overwrite, (dict_setitem_same _ _ _ Hfield).
    reflexivity.
Qed.

(** *** Decoding twice *)

(** What [_convert_to_pil] does to a field is decided by the value of the
    field alone: on two records that agree there (and with any two logs)
    it leaves both as they are, assigns the same image in both, or raises
    the same exception in both. *)
Lemma convert_to_pil_by_value (self : Processor) (ex1 ex2 : dict)
    (field : string) (lg1 lg2 : list log_record) :
  dict_find ex1 field = dict_find ex2 field ->
  match outcome_of (_convert_to_pil self ex1 field) lg1,
        outcome_of (_convert_to_pil self ex2 field) lg2 with
  | Return r1, Return r2 =>
      (r1 = ex1 /\ r2 = ex2) \/
      (exists im,
          r1 = dict_setitem ex1 field (VImage im) /\
          r2 = dict_setitem ex2 field (VImage im) /\
          HAS_PIL rt = true)
  | Raise e1, Raise e2 => e1 = e2
  | _, _ => False
  end.
Proof.
  intro Hsame.
  unfold ImageFormatConverter._convert_to_pil, dict_contains, dict_get.
  rewrite Hsame. unfold_monad.
  repeat (next_case; cbn beta iota; try discriminate);
    cbn [fst snd] in *;
    repeat match goal with
           | H : Return _ = Return _ |- _ => inversion H; clear H; subst
           | H : Raise _ = Raise _ |- _ => inversion H; clear H; subst
           | H : Return _ = Raise _ |- _ => discriminate H
           | H : Raise _ = Return _ |- _ => discriminate H
           end;
    try reflexivity;
    try solve [ left; split; reflexivity
              | right; eexists; repeat split; reflexivity ].
Qed.

Lemma settled_after_conversion (self : Processor) (example example' : dict)
    (field : string) (lg : list log_record) :
  outcome_of (_convert_to_pil self example field) lg = Return example' ->
  settled self example' field.
Proof.
  intros Hrun lg2.
  pose proof (convert_to_pil_by_value self example example field lg lg2 eq_refl)
    as Hself.
  rewrite Hrun in Hself.
  destruct (outcome_of (_convert_to_pil self example field) lg2) as [r2|e2]
    eqn:Hrun2; [|contradiction].
  destruct Hself as [[-> ->]|(im & -> & -> & Hpil)].
  - exact Hrun2.
  - assert (Hfound : dict_find (dict_setitem example field (VImage im)) field =
                     Some (VImage im)).
    { rewrite dict_find_setitem. now rewrite String.eqb_refl. }
    unfold outcome_of, ImageFormatConverter._convert_to_pil,
      dict_contains, dict_get.
    rewrite Hfound. unfold_monad. now rewrite Hpil.
Qed.

Lemma settled_by_value (self : Processor) (ex1 ex2 : dict) (field : string) :
  dict_find ex1 field = dict_find ex2 field ->
  settled self ex1 field -> settled self ex2 field.
Proof.
  intros Hsame Hsettled lg.
  pose proof (convert_to_pil_by_value self ex1 ex2 field lg lg Hsame) as H.
  rewrite (Hsettled lg) in H.
  destruct (outcome_of (_convert_to_pil self ex2 field) lg) as [r2|e2];
    [|contradiction].
  destruct H as [[_ ->]|(im & Hfix & -> & _)]; [reflexivity|].
  f_equal. apply dict_setitem_same. rewrite <- Hsame.
  rewrite Hfix at 1. rewrite dict_find_setitem. now rewrite String.eqb_refl.
Qed.

Lemma settled_through_step (self : Processor) (ex1 ex2 : dict)
    (field other : string) (lg : list log_record) :
  settled self ex1 field ->
  outcome_of (_convert_to_pil self ex1 other) lg = Return ex2 ->
  settled self ex2 field.
Proof.
  intros Hsettled Hrun.
  destruct (String.eqb_spec other field) as [->|Hne].
  - rewrite (Hsettled lg) in Hrun. inversion Hrun; subst. exact Hsettled.
  - pose proof (convert_to_pil_keeps self ex1 other lg) as Hkeeps.
    rewrite Hrun in Hkeeps. destruct Hkeeps as [_ Hother].
    apply (settled_by_value self ex1 ex2 field); [|exact Hsettled].
    symmetry. apply Hother. congruence.
Qed.

Lemma settled_through_loop (self : Processor) (field : string) :
  forall fields ex1 ex2 lg,
    settled self ex1 field ->
    outcome_of (for_fields (_convert_to_pil self) fields ex1) lg = Return ex2 ->
    settled self ex2 field.
Proof.
  unfold outcome_of.
  induction fields as [|f rest IH]; intros ex1 ex2 lg Hsettled Hrun.
  - simpl in Hrun. inversion Hrun; subst. exact Hsettled.
  - rewrite for_fields_cons in Hrun.
    destruct (_convert_to_pil self ex1 f lg) as [[ex|e] lg1] eqn:Hstep;
      [|discriminate Hrun].
    apply (IH ex ex2 lg1); [|exact Hrun].
    apply (settled_through_step self ex1 ex field f lg Hsettled).
    unfold outcome_of. now rewrite Hstep.
Qed.

Lemma decode_loop_idempotent (self : Processor) :
  forall fields example example' lg,
    outcome_of (for_fields (_convert_to_pil self) fields example) lg =
      Return example' ->
    forall lg2,
      outcome_of (for_fields (_convert_to_pil self) fields example') lg2 =
        Return example'.
Proof.
  unfold outcome_of.
  induction fields as [|f rest IH]; intros example example' lg Hrun lg2.
  - reflexivity.
  - rewrite for_fields_cons in Hrun.
    destruct (_convert_to_pil self example f lg) as [[ex1|e] lg1] eqn:Hstep;
      [|discriminate Hrun].
    assert (Hsettled : settled self example' f).
    { apply (settled_through_loop self f rest ex1 example' lg1).
      - apply (settled_after_conversion self example ex1 f lg).
        unfold outcome_of. now rewrite Hstep.
      - exact Hrun. }
    rewrite for_fields_cons. specialize (Hsettled lg2).
    unfold outcome_of in Hsettled.
    destruct (_convert_to_pil self example' f lg2) as [o lg3].
    cbn [fst] in Hsettled. subst o. now apply (IH ex1 example' lg1).
Qed.

(** X15.  Decoding is idempotent: with target [hf_image], a record that
    [process_example] has returned is returned unchanged when it is
    processed again (fields already decoded pass through, the others are
    left as the first pass left them). *)
Theorem decoding_is_idempotent (self : Processor) (example example' : dict)
    (lg lg2 : list log_record) :
  target_format self = "hf_image" ->
  outcome_of (process_example self example) lg = Return (Some example') ->
  outcome_of (process_example self example') lg2 = Return (Some example').
Proof.
  intros Htarget Hrun. unfold outcome_of in *.
  rewrite process_example_unfold, Htarget, String.eqb_refl in *.
  cbv zeta in *. cbn [fst] in *.
  destruct (fst (for_fields (_convert_to_pil self) (image_fields self)
                   example lg)) as [r|e] eqn:Hloop; [|discriminate Hrun].
  inversion Hrun; subst r.
  pose proof (decode_loop_idempotent self (image_fields self) example example'
                lg Hloop lg2) as Hagain.
  unfold outcome_of in Hagain. now rewrite Hagain.
Qed.

End ImageFormatConverterMore.

(** ** The monad *)

Section MonadFacts.

Lemma bind_ret {A B} (a : A) (k : A -> M B) (lg : list log_record) :
  bind (ret a) k lg = k a lg.
Proof. reflexivity. Qed.

Lemma bind_log {B} (l : level) (msg : string) (args : list log_arg)
    (k : unit -> M B) (lg : list log_record) :
  bind (log l msg args) k lg = k tt (lg ++ [mkLog l msg args])%list.
Proof. reflexivity. Qed.

Lemma bind_returns {A B} (m : M A) (k : A -> M B) (a : A)
    (lg lg1 : list log_record) :
  m lg = (Return a, lg1) -> bind m k lg = k a lg1.
Proof. intro H. unfold bind. now rewrite H. Qed.

Lemma bind_raises {A B} (m : M A) (k : A -> M B) (e : exn)
    (lg lg1 : list log_record) :
  m lg = (Raise e, lg1) -> bind m k lg = (Raise e, lg1).
Proof. intro H. unfold bind. now rewrite H. Qed.

End MonadFacts.

(** ** [apply_to_dataset] *)

Section ApplyToDatasetFacts.

Import ImageFormatConverter.

Variable rt : Runtime.
Variable b64decode : string -> lib_result bytes.
Variable pil_open : bytes -> lib_result image.
Variable pil_open_path : value -> lib_result image.
Variable pil_save_png : image -> lib_result bytes.
Variable Dataset : Type.
Variable ds_len : Dataset -> Z.
Variable ds_features : Dataset -> dict.
Variable ds_column_names : Dataset -> list string.
Variable ds_map : (dict -> M dict) -> Dataset -> M Dataset.
Variable ds_cast : Dataset -> dict -> lib_result Dataset.
Variable image_feature : value.

Local Abbreviation __init__ := (ImageFormatConverter.__init__ rt).
Local Abbreviation _convert_to_pil :=
  (ImageFormatConverter._convert_to_pil rt b64decode pil_open pil_open_path).
Local Abbreviation _convert_to_bytes :=
  (ImageFormatConverter._convert_to_bytes rt b64decode pil_save_png).
Local Abbreviation log_current_types :=
  (ImageFormatConverter.log_current_types Dataset ds_features).
Local Abbreviation convert_column :=
  (ImageFormatConverter.convert_column rt b64decode pil_open pil_open_path
     Dataset ds_features ds_map ds_cast image_feature).
Local Abbreviation convert_columns :=
  (ImageFormatConverter.convert_columns rt b64decode pil_open pil_open_path
     Dataset ds_features ds_column_names ds_map ds_cast image_feature).
Local Abbreviation apply_to_dataset :=
  (ImageFormatConverter.apply_to_dataset rt b64decode pil_open pil_open_path
     pil_save_png Dataset ds_len ds_features ds_column_names ds_map ds_cast
     image_feature).

(** The loop that reports the current types only logs. *)
Lemma log_current_types_returns (fields : list string) (dataset : Dataset)
    (lg : list log_record) :
  exists more,
    log_current_types fields dataset lg = (Return tt, (lg ++ more)%list).
Proof.
  revert lg. induction fields as [|f rest IH]; intro lg.
  - exists []. simpl. unfold ret. now rewrite app_nil_r.
  - simpl. unfold bind at 1.
    destruct (dict_contains (ds_features dataset) f).
    + unfold log at 1. destruct (IH (lg ++ [mkLog INFO "  Current type for '{field}': {current_type}"
           [AVal (VStr f); AVal (dict_get (ds_features dataset) f)]])%list) as [more ->].
      eexists. rewrite <- app_assoc. reflexivity.
    + unfold ret at 1. apply IH.
Qed.

Local Abbreviation body :=
  (fun (self : Processor) (dataset : Dataset) =>
     if String.eqb (target_format self) "hf_image" then
       convert_columns self (image_fields self) dataset
     else ds_map (_convert_to_bytes self) dataset).

(** [apply_to_dataset] on a runtime that has [datasets]: the records the
    first part logs, the branch, and the closing record when the branch
    returned. *)
Lemma apply_to_dataset_unfold (self : Processor) (dataset : Dataset)
    (lg : list log_record) :
  HAS_DATASETS_IMAGE rt = true ->
  exists lg1,
    extends lg lg1 /\
    outcome_of (apply_to_dataset self dataset) lg =
      outcome_of (body self dataset) lg1 /\
    extends (log_of (body self dataset) lg1)
      (log_of (apply_to_dataset self dataset) lg).
Proof.
  intro Hds.
  unfold outcome_of, log_of, ImageFormatConverter.apply_to_dataset,
    import_datasets.
  rewrite Hds, bind_ret. cbv zeta. rewrite !bind_log.
  match goal with
  | |- context [bind (ImageFormatConverter.log_current_types _ _ ?f ?d) _ ?l] =>
      destruct (log_current_types_returns f d l) as [more Htypes];
      rewrite (bind_returns _ _ _ _ _ Htypes);
      exists (l ++ more)%list
  end.
  split; [|split].
  - unfold extends. eexists. rewrite <- !app_assoc. reflexivity.
  - unfold bind.
    destruct (body self dataset _) as [[out|e] lg2]; reflexivity.
  - unfold bind.
    destruct (body self dataset _) as [[out|e] lg2]; cbn.
    + unfold log, ret. eexists. reflexivity.
    + apply extends_refl.
Qed.

Lemma in_columns (field : string) (names : list string) :
  In field names -> negb (existsb (String.eqb field) names) = false.
Proof.
  intro H. apply negb_false_iff, existsb_exists. exists field.
  split; [exact H | apply String.eqb_refl].
Qed.

Lemma not_in_columns (field : string) (names : list string) :
  ~ In field names -> negb (existsb (String.eqb field) names) = true.
Proof.
  intro H. apply negb_true_iff.
  destruct (existsb (String.eqb field) names) eqn:E; [|reflexivity].
  apply existsb_exists in E. destruct E as (x & Hin & E).
  apply String.eqb_eq in E. now subst.
Qed.

(** *** One column *)

Ltac run_column :=
  unfold outcome_of, log_of, ImageFormatConverter.convert_column, try_bind;
  rewrite bind_log.

(** With [skip_on_error] set, the [try] statement returns a dataset
    whatever [map] and [cast] do. *)
Lemma convert_column_contained (self : Processor) (field : string)
    (dataset : Dataset) (lg : list log_record) :
  skip_on_error self = true ->
  exists out, outcome_of (convert_column self field dataset) lg = Return out.
Proof.
  intro Hskip. run_column.
  destruct (ds_map _ dataset _) as [[mapped|e] lg1].
  - unfold try_except, conversion_failed, DatasetsImage, bind, call, log, ret,
      raise.
    rewrite Hskip. cbv zeta.
    destruct (HAS_DATASETS_IMAGE rt); cbn; [|eauto].
    destruct (ds_cast mapped _); cbn; eauto.
  - unfold conversion_failed, bind, log, ret. rewrite Hskip. cbn. eauto.
Qed.

(** When [map] returned, the [cast] decides. *)
Lemma convert_column_mapped (self : Processor) (field : string)
    (dataset mapped : Dataset) (lg : list log_record) :
  HAS_DATASETS_IMAGE rt = true ->
  (forall lg',
      outcome_of
        (ds_map (fun ex => _convert_to_pil self ex field) dataset) lg' =
      Return mapped) ->
  outcome_of (convert_column self field dataset) lg =
  match ds_cast mapped (dict_setitem (ds_features mapped) field image_feature)
  with
  | Success cast => Return cast
  | Failure cls msg =>
      if skip_on_error self then Return mapped else Raise (UserError cls msg)
  end /\
  forall cls msg,
    ds_cast mapped (dict_setitem (ds_features mapped) field image_feature) =
      Failure cls msg ->
    In (mkLog ERROR "Failed to convert '{field}' to Image type: {e}"
          [AVal (VStr field); AExn (UserError cls msg)])
       (log_of (convert_column self field dataset) lg).
Proof.
  intros Hds Hmap. run_column.
  match goal with
  | |- context [ds_map ?f dataset ?l] =>
      specialize (Hmap l); unfold outcome_of in Hmap;
      destruct (ds_map f dataset l) as [o lg1]
  end.
  cbn [fst] in Hmap. subst o.
  unfold try_except, conversion_failed, DatasetsImage, bind, call, log, ret,
    raise, dict_copy.
  rewrite Hds. cbv zeta. cbv beta iota.
  destruct (ds_cast mapped _) as [cast|cls msg]; cbn.
  - split; [reflexivity | discriminate].
  - split.
    + destruct (skip_on_error self); reflexivity.
    + intros cls' msg' E. inversion E; subst.
      destruct (skip_on_error self); cbn; apply in_or_app; right; now left.
Qed.

(** When [map] raised, the dataset is the one that went in. *)
Lemma convert_column_map_raises (self : Processor) (field : string)
    (dataset : Dataset) (e : exn) (lg : list log_record) :
  (forall lg',
      outcome_of
        (ds_map (fun ex => _convert_to_pil self ex field) dataset) lg' =
      Raise e) ->
  outcome_of (convert_column self field dataset) lg =
  if skip_on_error self then Return dataset else Raise e.
Proof.
  intro Hmap. run_column.
  match goal with
  | |- context [ds_map ?f dataset ?l] =>
      specialize (Hmap l); unfold outcome_of in Hmap;
      destruct (ds_map f dataset l) as [o lg1]
  end.
  cbn [fst] in Hmap. subst o.
  unfold conversion_failed, bind, log, ret, raise.
  destruct (skip_on_error self); reflexivity.
Qed.

(** *** The loop over the columns *)

Lemma convert_columns_cons_known (self : Processor) (field : string)
    (rest : list string) (dataset : Dataset) (lg : list log_record) :
  In field (ds_column_names dataset) ->
  convert_columns self (field :: rest) dataset lg =
  bind (convert_column self field dataset)
    (fun dataset' => convert_columns self rest dataset') lg.
Proof. intro H. simpl. now rewrite (in_columns _ _ H). Qed.

Lemma convert_columns_contained (self : Processor) (fields : list string) :
  skip_on_error self = true ->
  forall dataset lg,
    exists out,
      outcome_of (convert_columns self fields dataset) lg = Return out.
Proof.
  intro Hskip. unfold outcome_of.
  induction fields as [|f rest IH]; intros dataset lg.
  - simpl. eauto.
  - simpl. destruct (negb (existsb (String.eqb f) (ds_column_names dataset))).
    + rewrite bind_log. apply IH.
    + destruct (convert_column_contained self f dataset lg Hskip) as [out Hout].
      unfold outcome_of in Hout.
      destruct (convert_column self f dataset lg) as [o lg1] eqn:E.
      cbn [fst] in Hout. subst o.
      rewrite (bind_returns _ _ _ _ _ E). apply IH.
Qed.

Lemma convert_columns_unknown (self : Processor) (dataset : Dataset)
    (fields : list string) :
  (forall f, In f fields -> ~ In f (ds_column_names dataset)) ->
  forall lg,
    convert_columns self fields dataset lg =
    (Return dataset, (lg ++ map not_found fields)%list).
Proof.
  induction fields as [|f rest IH]; intros Hunknown lg.
  - simpl. unfold ret. now rewrite app_nil_r.
  - simpl. rewrite not_in_columns by (apply Hunknown; now left).
    rewrite bind_log, IH by (intros g Hg; apply Hunknown; now right).
    now rewrite <- app_assoc.
Qed.

(** *** The properties *)

(** X16.  With target [hf_image] and [skip_on_error] set,
    [apply_to_dataset] of a constructed processor returns a dataset
    whatever [map] and [cast] do: every exception of the [try] statement is
    logged and swallowed. *)
Theorem column_failures_are_contained (config : Config) (self : Processor)
    (dataset : Dataset) (lg0 lg : list log_record) :
  outcome_of (__init__ config) lg0 = Return self ->
  target_format self = "hf_image" ->
  skip_on_error self = true ->
  exists out, outcome_of (apply_to_dataset self dataset) lg = Return out.
Proof.
  intros Hinit Htarget Hskip. apply init_inv in Hinit.
  destruct Hinit as (_ & Hds & _).
  destruct (apply_to_dataset_unfold self dataset lg Hds) as (lg1 & _ & -> & _).
  rewrite Htarget, String.eqb_refl.
  now apply convert_columns_contained.
Qed.

(** X17.  With any other target the [map] over [_convert_to_bytes] is not
    inside a [try]: an exception that [map] raises leaves
    [apply_to_dataset] as it is, whatever [skip_on_error] says. *)
Theorem bytes_mode_is_unguarded (config : Config) (self : Processor)
    (dataset : Dataset) (e : exn) (lg0 lg : list log_record) :
  outcome_of (__init__ config) lg0 = Return self ->
  target_format self <> "hf_image" ->
  (forall lg',
      outcome_of (ds_map (_convert_to_bytes self) dataset) lg' = Raise e) ->
  outcome_of (apply_to_dataset self dataset) lg = Raise e.
Proof.
  intros Hinit Htarget Hmap. apply init_inv in Hinit.
  destruct Hinit as (_ & Hds & _).
  destruct (apply_to_dataset_unfold self dataset lg Hds) as (lg1 & _ & -> & _).
  destruct (String.eqb_spec (target_format self) "hf_image"); [contradiction|].
  apply Hmap.
Qed.

(** X18.  The dataset variable is assigned the mapped dataset before the
    cast is tried: with [skip_on_error] set and one image column, the
    result is the cast dataset when the cast succeeds and the mapped one,
    not the one that went in, when it fails. *)
Theorem failed_cast_keeps_the_mapped_rows (config : Config) (self : Processor)
    (dataset mapped : Dataset) (field : string) (lg0 lg : list log_record) :
  outcome_of (__init__ config) lg0 = Return self ->
  target_format self = "hf_image" ->
  image_fields self = [field] ->
  skip_on_error self = true ->
  In field (ds_column_names dataset) ->
  (forall lg',
      outcome_of
        (ds_map (fun ex => _convert_to_pil self ex field) dataset) lg' =
      Return mapped) ->
  outcome_of (apply_to_dataset self dataset) lg =
  Return
    match ds_cast mapped (dict_setitem (ds_features mapped) field image_feature)
    with
    | Success cast => cast
    | Failure _ _ => mapped
    end.
Proof.
  intros Hinit Htarget Hfields Hskip Hcolumn Hmap. apply init_inv in Hinit.
  destruct Hinit as (_ & Hds & _).
  destruct (apply_to_dataset_unfold self dataset lg Hds) as (lg1 & _ & -> & _).
  rewrite Htarget, String.eqb_refl, Hfields. unfold outcome_of.
  rewrite convert_columns_cons_known by assumption.
  destruct (convert_column_mapped self field dataset mapped lg1 Hds Hmap)
    as [Hrun _].
  unfold outcome_of in Hrun. rewrite Hskip in Hrun.
  destruct (convert_column self field dataset lg1) as [o lg2] eqn:E.
  cbn [fst] in Hrun. subst o.
  destruct (ds_cast mapped _);
    rewrite (bind_returns _ _ _ _ _ E); reflexivity.
Qed.

(** X19.  With target [hf_image], image fields that are no columns of the
    dataset are skipped with one warning each: when none of them is a
    column the dataset comes back as it went in. *)
Theorem unknown_columns_are_skipped (config : Config) (self : Processor)
    (dataset : Dataset) (lg0 lg : list log_record) :
  outcome_of (__init__ config) lg0 = Return self ->
  target_format self = "hf_image" ->
  (forall f, In f (image_fields self) -> ~ In f (ds_column_names dataset)) ->
  outcome_of (apply_to_dataset self dataset) lg = Return dataset /\
  forall f, In f (image_fields self) ->
    In (mkLog WARNING "Field '{field}' not found in dataset columns"
          [AVal (VStr f)])
       (log_of (apply_to_dataset self dataset) lg).
Proof.
  intros Hinit Htarget Hunknown. apply init_inv in Hinit.
  destruct Hinit as (_ & Hds & _).
  destruct (apply_to_dataset_unfold self dataset lg Hds)
    as (lg1 & _ & -> & Hlog).
  rewrite Htarget, String.eqb_refl in *. unfold outcome_of, log_of in *.
  rewrite (convert_columns_unknown self dataset _ Hunknown lg1) in *.
  cbn [fst snd] in *. split; [reflexivity|].
  intros f Hf. apply (extends_In _ _ _ Hlog). apply in_or_app. right.
  apply (in_map not_found). exact Hf.
Qed.

(** X20.  With [skip_on_error] off the first column that fails ends
    [apply_to_dataset] with the exception as it was raised: that of [map],
    or that of [cast] after [map] returned. *)
Theorem strict_mode_raises_the_failure (config : Config) (self : Processor)
    (dataset : Dataset) (field : string) (rest : list string) (e : exn)
    (lg0 lg : list log_record) :
  outcome_of (__init__ config) lg0 = Return self ->
  target_format self = "hf_image" ->
  skip_on_error self = false ->
  image_fields self = field :: rest ->
  In field (ds_column_names dataset) ->
  (forall lg',
      outcome_of
        (ds_map (fun ex => _convert_to_pil self ex field) dataset) lg' =
      Raise e) \/
  (exists mapped cls msg,
      e = UserError cls msg /\
      (forall lg',
          outcome_of
            (ds_map (fun ex => _convert_to_pil self ex field) dataset) lg' =
          Return mapped) /\
      ds_cast mapped (dict_setitem (ds_features mapped) field image_feature) =
        Failure cls msg) ->
  outcome_of (apply_to_dataset self dataset) lg = Raise e.
Proof.
  intros Hinit Htarget Hskip Hfields Hcolumn Hfails. apply init_inv in Hinit.
  destruct Hinit as (_ & Hds & _).
  destruct (apply_to_dataset_unfold self dataset lg Hds) as (lg1 & _ & -> & _).
  rewrite Htarget, String.eqb_refl, Hfields. unfold outcome_of.
  rewrite convert_columns_cons_known by assumption.
  assert (Hrun : outcome_of (convert_column self field dataset) lg1 = Raise e).
  { destruct Hfails as [Hmap|(mapped & cls & msg & -> & Hmap & Hcast)].
    - rewrite (convert_column_map_raises self field dataset e lg1 Hmap).
      now rewrite Hskip.
    - destruct (convert_column_mapped self field dataset mapped lg1 Hds Hmap)
        as [-> _].
      now rewrite Hcast, Hskip. }
  unfold outcome_of in Hrun.
  destruct (convert_column self field dataset lg1) as [o lg2] eqn:E.
  cbn [fst] in Hrun. subst o.
  now rewrite (bind_raises _ _ _ _ _ E).
Qed.

End ApplyToDatasetFacts.

(** ** The short flag of the command line *)

Section PreprocessFacts.

Import Preprocess.

Lemma prefix_cons (a b : ascii) (s1 s2 : string) :
  String.prefix (String a s1) (String b s2) =
  if ascii_dec a b then String.prefix s1 s2 else false.
Proof. reflexivity. Qed.

(** An argument that starts with [-c=] is [-c=] and a value. *)
Lemma short_config_value (arg : string) :
  String.prefix "-c=" arg = true -> exists value, arg = "-c=" ++ value.
Proof.
  destruct arg as [|a arg]; [simpl; discriminate|].
  rewrite prefix_cons. destruct (ascii_dec _ a) as [<-|]; [|discriminate].
  destruct arg as [|b arg]; [simpl; discriminate|].
  rewrite prefix_cons. destruct (ascii_dec _ b) as [<-|]; [|discriminate].
  destruct arg as [|c arg]; [simpl; discriminate|].
  rewrite prefix_cons. destruct (ascii_dec _ c) as [<-|]; [|discriminate].
  intros _. now exists arg.
Qed.

Lemma second_of_short_config (value : string) :
  second (split_at_equals ("-c=" ++ value)) = Return value.
Proof. reflexivity. Qed.

Lemma normalize_short_equals (value : string) (rest : list string) :
  normalize (("-c=" ++ value) :: rest) =
  and_then (normalize rest) (fun normalized =>
  Return ("--config" :: value :: normalized)).
Proof. destruct value; reflexivity. Qed.

Lemma short_equals_is_short_config (value : string) :
  is_short_config ("-c=" ++ value) = true.
Proof. destruct value; reflexivity. Qed.

Lemma normalize_other (arg : string) (rest : list string) :
  is_short_config arg = false ->
  normalize (arg :: rest) =
  and_then (normalize rest) (fun normalized => Return (arg :: normalized)).
Proof.
  unfold is_short_config. intro H. apply orb_false_iff in H.
  destruct H as [H1 H2]. simpl. now rewrite H1, H2.
Qed.

(** The three ways the loop can go at an argument. *)
Lemma normalize_cases (arg : string) (rest : list string) :
  (arg = "-c" /\
   normalize (arg :: rest) =
   match rest with
   | value :: rest' =>
       and_then (normalize rest') (fun normalized =>
       Return ("--config" :: value :: normalized))
   | [] => Return ["--config"]
   end) \/
  (exists value,
      arg = "-c=" ++ value /\
      normalize (arg :: rest) =
      and_then (normalize rest) (fun normalized =>
      Return ("--config" :: value :: normalized))) \/
  (is_short_config arg = false /\
   normalize (arg :: rest) =
   and_then (normalize rest) (fun normalized => Return (arg :: normalized))).
Proof.
  destruct (String.eqb_spec arg "-c") as [->|Hne].
  - left. split; reflexivity.
  - destruct (String.prefix "-c=" arg) eqn:Hp.
    + right. left. destruct (short_config_value arg Hp) as [value ->].
      exists value. split; [reflexivity | apply normalize_short_equals].
    + right. right.
      assert (H : is_short_config arg = false).
      { unfold is_short_config. rewrite Hp.
        destruct (String.eqb_spec arg "-c"); [contradiction | reflexivity]. }
      split; [exact H | now apply normalize_other].
Qed.

(** What holds of [argv] and of the arguments after its first holds of
    every list: the loop moves on by one argument or by two. *)
Lemma by_one_or_two (P : list string -> Prop) :
  P [] ->
  (forall arg rest,
      P rest -> (forall value rest', rest = value :: rest' -> P rest') ->
      P (arg :: rest)) ->
  forall argv, P argv.
Proof.
  intros Hnil Hstep argv.
  assert (H : P argv /\ forall value rest, argv = value :: rest -> P rest).
  { induction argv as [|arg rest [IH1 IH2]].
    - split; [exact Hnil | discriminate].
    - split.
      + apply Hstep; assumption.
      + intros value rest' E. inversion E; subst. exact IH1. }
  exact (proj1 H).
Qed.

(** X21.  The loop of [main] never raises: [split('=', 1)[1]] is only
    evaluated on an argument that starts with [-c=], where it is in range.
    [sys.argv] keeps the program name in front of the normalized
    arguments. *)
Theorem normalize_never_raises (program : string) (argv : list string) :
  exists normalized,
    normalize argv = Return normalized /\
    rewritten_argv (program :: argv) = Return (program :: normalized).
Proof.
  assert (H : exists normalized, normalize argv = Return normalized).
  { induction argv as [|arg rest IH IH2] using by_one_or_two.
    - now exists [].
    - destruct (normalize_cases arg rest)
        as [[_ ->]|[(value & _ & ->)|[_ ->]]].
      + destruct rest as [|value rest']; [eauto|].
        destruct (IH2 value rest' eq_refl) as [n ->]. cbn. eauto.
      + destruct IH as [n ->]. cbn. eauto.
      + destruct IH as [n ->]. cbn. eauto. }
  destruct H as [normalized H]. exists normalized. split; [exact H|].
  unfold rewritten_argv. cbn [tl]. now rewrite H.
Qed.

(** X22.  Arguments among which none is [-c] and none starts with [-c=]
    are left exactly as they are. *)
Theorem other_arguments_pass_through (argv : list string) :
  forallb (fun arg => negb (is_short_config arg)) argv = true ->
  normalize argv = Return argv.
Proof.
  induction argv as [|arg rest IH]; intro H; [reflexivity|].
  cbn [forallb] in H. apply andb_true_iff in H. destruct H as [Harg Hrest].
  apply negb_true_iff in Harg.
  rewrite (normalize_other _ _ Harg), (IH Hrest). reflexivity.
Qed.

(** X23.  [-c value] and [-c=value] normalize alike, to [--config] and
    the value as it is, whatever the value: it may contain [=], and it is
    not looked at again, so a value that is itself [-c] stays. *)
Theorem short_forms_agree (value : string) (rest : list string) :
  normalize ("-c" :: value :: rest) = normalize (("-c=" ++ value) :: rest) /\
  normalize ("-c" :: value :: rest) =
  and_then (normalize rest) (fun normalized =>
  Return ("--config" :: value :: normalized)).
Proof.
  rewrite normalize_short_equals. split; reflexivity.
Qed.

(** X24.  Normalizing drops nothing: the result is at least as long as
    the arguments were, and every argument that is not a short form is in
    it. *)
Theorem normalize_keeps_every_argument (argv normalized : list string) :
  normalize argv = Return normalized ->
  (List.length argv <= List.length normalized)%nat /\
  forall arg, In arg argv -> is_short_config arg = false -> In arg normalized.
Proof.
  revert normalized.
  induction argv as [|arg rest IH IH2] using by_one_or_two;
    intros normalized H.
  - inversion H. split; [lia | auto].
  - destruct (normalize_cases arg rest)
      as [[-> E]|[(value & -> & E)|[Harg E]]]; rewrite E in H; clear E.
    + destruct rest as [|value rest'].
      * inversion H. split; [simpl; lia|].
        intros a [<-|[]] Ha. discriminate Ha.
      * destruct (normalize rest') as [n|e] eqn:E; [|discriminate H].
        inversion H; subst. destruct (IH2 value rest' eq_refl n E)
          as [Hlen Hin].
        split; [simpl; lia|].
        intros a [<-|[<-|Ha]] Hshort.
        -- discriminate Hshort.
        -- right. now left.
        -- right. right. now apply Hin.
    + destruct (normalize rest) as [n|e] eqn:E; [|discriminate H].
      inversion H; subst. destruct (IH n eq_refl) as [Hlen Hin].
      split; [simpl; lia|].
      intros a [<-|Ha] Hshort.
      * rewrite short_equals_is_short_config in Hshort. discriminate Hshort.
      * right. right. now apply Hin.
    + destruct (normalize rest) as [n|e] eqn:E; [|discriminate H].
      inversion H; subst. destruct (IH n eq_refl) as [Hlen Hin].
      split; [simpl; lia|].
      intros a [<-|Ha] Hshort; [now left | right; now apply Hin].
Qed.

End PreprocessFacts.

(** ** Concrete runs of the further properties *)

Lemma blank_selection_is_dropped_witness :
  outcome_of
    (QaLongestMapping.process_example Samples.repr_brief
       Samples.default_selector Samples.blank_question) [] = Return None.
Proof.
  apply (blank_selection_is_dropped Samples.repr_brief Samples.default_selector
           Samples.blank_question [] 0 "" "e" "a");
    [reflexivity | reflexivity | reflexivity | reflexivity | now left].
Defined.

Lemma unmapped_fields_are_kept_witness :
  exists out,
    dict_find out "id" = Some (VInt 7) /\
    outcome_of
      (QaLongestMapping.process_example Samples.repr_brief
         Samples.default_selector Samples.two_pairs) [] = Return (Some out).
Proof.
  eexists.
  apply (unmapped_fields_are_kept Samples.repr_brief Samples.default_selector
           Samples.two_pairs _ [] "id");
    [reflexivity | reflexivity | discriminate | discriminate | discriminate].
Defined.

Lemma source_fields_are_removed_witness :
  exists out,
    outcome_of
      (QaLongestMapping.process_example_try Samples.repr_brief
         Samples.drop_container Samples.two_pairs) [] = Return (Some out) /\
    dict_find out "id" = Some (VInt 7) /\
    dict_find out "qa_pairs" = None /\ dict_contains out "qa_pairs" = false.
Proof.
  eexists. split; [reflexivity|]. split; [reflexivity|].
  apply (source_fields_are_removed Samples.repr_brief Samples.drop_container
           Samples.two_pairs _ [] "qa_pairs");
    [reflexivity | reflexivity | now left].
Defined.

Lemma process_example_idempotent_witness :
  exists out,
    outcome_of
      (QaLongestMapping.process_example_try Samples.repr_brief
         Samples.default_selector Samples.two_pairs) [] = Return (Some out) /\
    QaLongestMapping.process_example Samples.repr_brief
      Samples.default_selector out [] = (Return (Some out), []).
Proof.
  eexists. split; [reflexivity|].
  apply (process_example_idempotent Samples.repr_brief Samples.default_selector
           Samples.two_pairs _ [] []);
    [reflexivity | reflexivity | discriminate | discriminate | reflexivity].
Defined.

Lemma new_fields_are_appended_witness :
  exists out,
    outcome_of
      (QaLongestMapping.process_example_try Samples.repr_brief
         Samples.default_selector Samples.two_pairs) [] = Return (Some out) /\
    dict_keys out = ["id"; "qa_pairs"; "problem"; "solution"].
Proof.
  eexists. split; [reflexivity|].
  apply (new_fields_are_appended Samples.repr_brief Samples.default_selector
           Samples.two_pairs _ []);
    [reflexivity | reflexivity | reflexivity | reflexivity | discriminate
    | reflexivity].
Defined.

Lemma scalar_entries_form_one_pair_witness :
  outcome_of
    (QaLongestMapping.process_example Samples.repr_brief
       Samples.default_selector Samples.padded_entries) [] =
  Return
    (Some
       [("qa_pairs",
         VDict [("question", VStr " q "); ("explanation", VStr "e ");
                ("answer", VStr " a")]);
        ("problem", VStr "q");
        ("solution",
         VStr (QaLongestMapping._format_solution "e" "a"))]).
Proof.
  apply (scalar_entries_form_one_pair Samples.repr_brief
           Samples.default_selector Samples.padded_entries
           [("question", VStr " q "); ("explanation", VStr "e ");
            ("answer", VStr " a")] " q " "e " " a" []);
    try reflexivity; vm_compute; discriminate.
Defined.

Lemma decode_cascade_witness :
  ImageFormatConverter.process_example Samples.full_runtime
    Samples.b64decode_ref Samples.pil_open_ref Samples.pil_open_path_ref
    Samples.pil_save_png_ref Samples.decoder Samples.embedded_text [] =
  (Return
     (Some
        [("id", VInt 4);
         ("image", VImage (mkImage "RGB" 1 1 Samples.png_signature))]),
   []).
Proof.
  apply (proj2 (proj2
           (decode_cascade Samples.full_runtime Samples.b64decode_ref
              Samples.pil_open_ref Samples.pil_open_path_ref
              Samples.pil_save_png_ref Samples.decode_by_default
              Samples.decoder Samples.embedded_text "image"
              (VDict [("bytes", VStr "iVBORw0KGgo=")])
              (mkImage "RGB" 1 1 Samples.png_signature) [] []
              eq_refl eq_refl
              (ImageFormatConverter.decode_embedded_text
                 Samples.b64decode_ref Samples.pil_open_ref
                 Samples.pil_open_path_ref [("bytes", VStr "iVBORw0KGgo=")]
                 "iVBORw0KGgo=" Samples.png_signature
                 (mkImage "RGB" 1 1 Samples.png_signature) eq_refl eq_refl
                 eq_refl))));
    reflexivity.
Defined.

Lemma encode_cascade_witness :
  ImageFormatConverter.process_example Samples.full_runtime
    Samples.b64decode_ref Samples.pil_open_ref Samples.pil_open_path_ref
    Samples.pil_save_png_ref Samples.lenient_encoder Samples.decoded_image [] =
  (Return
     (Some
        [("id", VInt 5);
         ("image",
          VBytes (Samples.png_signature ++ [Byte.xff; Byte.x00; Byte.x00])%list)]),
   []).
Proof.
  apply (proj2 (proj2
           (encode_cascade Samples.full_runtime Samples.b64decode_ref
              Samples.pil_open_ref Samples.pil_open_path_ref
              Samples.pil_save_png_ref Samples.encode_by_default
              Samples.lenient_encoder Samples.decoded_image "image"
              (VImage Samples.one_pixel)
              (VBytes (Samples.png_signature ++ [Byte.xff; Byte.x00; Byte.x00])%list)
              [] [] eq_refl eq_refl
              (ImageFormatConverter.encode_image Samples.b64decode_ref
                 Samples.pil_save_png_ref Samples.one_pixel
                 (Samples.png_signature ++ [Byte.xff; Byte.x00; Byte.x00])%list
                 eq_refl))));
    [discriminate | reflexivity].
Defined.

Lemma encode_cascade_passes_over_witness :
  ImageFormatConverter.convert_field_to_bytes Samples.full_runtime
    Samples.b64decode_ref Samples.pil_save_png_ref Samples.strict_encoder
    Samples.path_only "image" [] = (Return Samples.path_only, []).
Proof.
  apply (encode_cascade_passes_over Samples.full_runtime Samples.b64decode_ref
           Samples.pil_save_png_ref Samples.encode_strictly
           Samples.strict_encoder Samples.path_only "image" [] []);
    [reflexivity|].
  right. exists (VDict [("path", VStr "a.png")]).
  split; [reflexivity | now apply ImageFormatConverter.skip_no_bytes].
Defined.

Lemma bytes_entry_shadows_path_witness :
  ImageFormatConverter._convert_to_pil Samples.full_runtime
    Samples.b64decode_ref Samples.pil_open_ref Samples.pil_open_path_ref
    Samples.decoder Samples.null_bytes "image" [] =
  (Return Samples.null_bytes,
   [mkLog WARNING "Unexpected bytes type: {type(bytes_data)}" [ATypeOf VNone]]).
Proof.
  apply (bytes_entry_shadows_path Samples.full_runtime Samples.b64decode_ref
           Samples.pil_open_ref Samples.pil_open_path_ref
           Samples.decode_by_default Samples.decoder Samples.null_bytes
           [("bytes", VNone); ("path", VStr "a.png")] "image" VNone [] []);
    [reflexivity | reflexivity | reflexivity | discriminate | discriminate].
Defined.

Lemma encode_decode_round_trip_witness :
  exists encoded,
    ImageFormatConverter.process_example Samples.full_runtime
      Samples.b64decode_ref Samples.codec_open Samples.pil_open_path_ref
      Samples.pil_save_png_ref Samples.lenient_encoder Samples.decoded_image
      [] = (Return (Some encoded), []) /\
    dict_find encoded "image" =
      Some (VBytes (Samples.png_signature ++ [Byte.xff; Byte.x00; Byte.x00])%list) /\
    ImageFormatConverter.process_example Samples.full_runtime
      Samples.b64decode_ref Samples.codec_open Samples.pil_open_path_ref
      Samples.pil_save_png_ref Samples.decoder encoded [] =
    (Return (Some Samples.decoded_image), []).
Proof.
  apply (encode_decode_round_trip Samples.full_runtime Samples.b64decode_ref
           Samples.codec_open Samples.pil_open_path_ref
           Samples.pil_save_png_ref Samples.encode_by_default
           Samples.lenient_encoder Samples.decoder Samples.decoded_image
           "image" Samples.one_pixel
           (Samples.png_signature ++ [Byte.xff; Byte.x00; Byte.x00])%list [] []);
    try reflexivity; discriminate.
Defined.

Lemma decoding_is_idempotent_witness :
  exists example',
    outcome_of
      (ImageFormatConverter.process_example Samples.full_runtime
         Samples.b64decode_ref Samples.pil_open_ref Samples.pil_open_path_ref
         Samples.pil_save_png_ref Samples.decoder Samples.embedded_text) [] =
    Return (Some example') /\
    outcome_of
      (ImageFormatConverter.process_example Samples.full_runtime
         Samples.b64decode_ref Samples.pil_open_ref Samples.pil_open_path_ref
         Samples.pil_save_png_ref Samples.decoder example') [] =
    Return (Some example').
Proof.
  eexists. split; [reflexivity|].
  apply (decoding_is_idempotent Samples.full_runtime Samples.b64decode_ref
           Samples.pil_open_ref Samples.pil_open_path_ref
           Samples.pil_save_png_ref Samples.decoder Samples.embedded_text _
           [] []);
    reflexivity.
Defined.

Lemma column_failures_are_contained_witness :
  exists out,
    outcome_of
      (ImageFormatConverter.apply_to_dataset Samples.full_runtime
         Samples.b64decode_ref Samples.pil_open_ref Samples.pil_open_path_ref
         Samples.pil_save_png_ref Samples.rows_dataset Samples.rows_len
         Samples.rows_features Samples.rows_column_names
         Samples.rows_map_fails Samples.rows_cast_fails Samples.image_type
         Samples.decoder Samples.png_rows) [] = Return out.
Proof.
  apply (column_failures_are_contained Samples.full_runtime
           Samples.b64decode_ref Samples.pil_open_ref Samples.pil_open_path_ref
           Samples.pil_save_png_ref Samples.rows_dataset Samples.rows_len
           Samples.rows_features Samples.rows_column_names
           Samples.rows_map_fails Samples.rows_cast_fails Samples.image_type
           Samples.decode_by_default Samples.decoder Samples.png_rows [] []);
    reflexivity.
Defined.

Lemma bytes_mode_is_unguarded_witness :
  outcome_of
    (ImageFormatConverter.apply_to_dataset Samples.full_runtime
       Samples.b64decode_ref Samples.pil_open_ref Samples.pil_open_path_ref
       Samples.pil_save_png_ref Samples.rows_dataset Samples.rows_len
       Samples.rows_features Samples.rows_column_names
       Samples.rows_map_fails Samples.rows_cast Samples.image_type
       Samples.lenient_encoder Samples.png_rows) [] =
  Raise (UserError "ArrowInvalid" "cannot write the batch").
Proof.
  apply (bytes_mode_is_unguarded Samples.full_runtime
           Samples.b64decode_ref Samples.pil_open_ref Samples.pil_open_path_ref
           Samples.pil_save_png_ref Samples.rows_dataset Samples.rows_len
           Samples.rows_features Samples.rows_column_names
           Samples.rows_map_fails Samples.rows_cast Samples.image_type
           Samples.encode_by_default Samples.lenient_encoder Samples.png_rows
           (UserError "ArrowInvalid" "cannot write the batch") [] []);
    [reflexivity | discriminate | intro; reflexivity].
Defined.

Lemma failed_cast_keeps_the_mapped_rows_witness :
  outcome_of
    (ImageFormatConverter.apply_to_dataset Samples.full_runtime
       Samples.b64decode_ref Samples.pil_open_ref Samples.pil_open_path_ref
       Samples.pil_save_png_ref Samples.rows_dataset Samples.rows_len
       Samples.rows_features Samples.rows_column_names
       Samples.rows_map Samples.rows_cast_fails Samples.image_type
       Samples.decoder Samples.png_rows) [] = Return Samples.decoded_rows /\
  outcome_of
    (ImageFormatConverter.apply_to_dataset Samples.full_runtime
       Samples.b64decode_ref Samples.pil_open_ref Samples.pil_open_path_ref
       Samples.pil_save_png_ref Samples.rows_dataset Samples.rows_len
       Samples.rows_features Samples.rows_column_names
       Samples.rows_map Samples.rows_cast Samples.image_type
       Samples.decoder Samples.png_rows) [] =
  Return (fst Samples.decoded_rows,
          [("id", Samples.text_type); ("image", Samples.image_type)]).
Proof.
  split.
  - apply (failed_cast_keeps_the_mapped_rows Samples.full_runtime
             Samples.b64decode_ref Samples.pil_open_ref
             Samples.pil_open_path_ref Samples.pil_save_png_ref
             Samples.rows_dataset Samples.rows_len Samples.rows_features
             Samples.rows_column_names Samples.rows_map Samples.rows_cast_fails
             Samples.image_type Samples.decode_by_default Samples.decoder
             Samples.png_rows Samples.decoded_rows "image" [] []);
      [reflexivity | reflexivity | reflexivity | reflexivity
      | right; now left | intro; reflexivity].
  - apply (failed_cast_keeps_the_mapped_rows Samples.full_runtime
             Samples.b64decode_ref Samples.pil_open_ref
             Samples.pil_open_path_ref Samples.pil_save_png_ref
             Samples.rows_dataset Samples.rows_len Samples.rows_features
             Samples.rows_column_names Samples.rows_map Samples.rows_cast
             Samples.image_type Samples.decode_by_default Samples.decoder
             Samples.png_rows Samples.decoded_rows "image" [] []);
      [reflexivity | reflexivity | reflexivity | reflexivity
      | right; now left | intro; reflexivity].
Defined.

Lemma unknown_columns_are_skipped_witness :
  outcome_of
    (ImageFormatConverter.apply_to_dataset Samples.full_runtime
       Samples.b64decode_ref Samples.pil_open_ref Samples.pil_open_path_ref
       Samples.pil_save_png_ref Samples.rows_dataset Samples.rows_len
       Samples.rows_features Samples.rows_column_names
       Samples.rows_map_fails Samples.rows_cast_fails Samples.image_type
       Samples.decoder Samples.captions) [] = Return Samples.captions.
Proof.
  apply (proj1
           (unknown_columns_are_skipped Samples.full_runtime
              Samples.b64decode_ref Samples.pil_open_ref
              Samples.pil_open_path_ref Samples.pil_save_png_ref
              Samples.rows_dataset Samples.rows_len Samples.rows_features
              Samples.rows_column_names Samples.rows_map_fails
              Samples.rows_cast_fails Samples.image_type
              Samples.decode_by_default Samples.decoder Samples.captions [] []
              eq_refl eq_refl
              ltac:(intros f [<-|[]] [E|[]]; discriminate E))).
Defined.

Lemma strict_mode_raises_the_failure_witness :
  outcome_of
    (ImageFormatConverter.apply_to_dataset Samples.full_runtime
       Samples.b64decode_ref Samples.pil_open_ref Samples.pil_open_path_ref
       Samples.pil_save_png_ref Samples.rows_dataset Samples.rows_len
       Samples.rows_features Samples.rows_column_names
       Samples.rows_map Samples.rows_cast_fails Samples.image_type
       Samples.strict_decoder Samples.png_rows) [] =
  Raise (UserError "ArrowInvalid" "cannot cast column").
Proof.
  apply (strict_mode_raises_the_failure Samples.full_runtime
           Samples.b64decode_ref Samples.pil_open_ref Samples.pil_open_path_ref
           Samples.pil_save_png_ref Samples.rows_dataset Samples.rows_len
           Samples.rows_features Samples.rows_column_names Samples.rows_map
           Samples.rows_cast_fails Samples.image_type
           (ImageFormatConverter.mkConfig None None (Some false))
           Samples.strict_decoder Samples.png_rows "image" []
           (UserError "ArrowInvalid" "cannot cast column") [] []);
    [reflexivity | reflexivity | reflexivity | reflexivity | right; now left|].
  right. exists Samples.decoded_rows, "ArrowInvalid", "cannot cast column".
  split; [reflexivity|]. split; [intro; reflexivity | reflexivity].
Defined.

Lemma other_arguments_pass_through_witness :
  Preprocess.normalize ["--config"; "a.yaml"; "--debug"] =
  Return ["--config"; "a.yaml"; "--debug"].
Proof.
  apply (other_arguments_pass_through ["--config"; "a.yaml"; "--debug"]).
  reflexivity.
Defined.

Lemma normalize_keeps_every_argument_witness :
  (List.length ["-c=a=b"; "--debug"] <=
   List.length ["--config"; "a=b"; "--debug"])%nat /\
  In "--debug" ["--config"; "a=b"; "--debug"].
Proof.
  destruct (normalize_keeps_every_argument ["-c=a=b"; "--debug"]
              ["--config"; "a=b"; "--debug"] eq_refl) as [Hlen Hin].
  split; [exact Hlen|].
  apply Hin; [right; now left | reflexivity].
Defined.
